(** * vdt-dashboard-backend: schema validation, DDL generation and the
      database lifecycle, embedded from [services] and [models], with the
      [config] helpers and the [handlers] around them.

    The Go code is embedded shallowly:
    - [models] structs are records, [map[string]string] / [map[string]bool]
      are [gmap string _], slices are lists;
    - [error] is the message of the error ([err.Error()]), [nil] is [None];
    - [fmt.Sprintf] with [%s] / [%d] is string concatenation, with
      [pretty] as the decimal printer of [%d];
    - everything that leaves the process (the repository, [gorm], the
      [config] helpers, [log], [uuid], [time]) is a [Call] answered by an
      environment; a run records every call with its reply;
    - a handler is a function of what it reads from the [gin.Context] to
      the status code and the body of its answer;
    - a Go [int] that enters arithmetic is a [Z] with the wrap-around of
      64 bits written out, and a run-time panic is [None]. *)

From Stdlib Require Import Ascii String.
From stdpp Require Import gmap strings list fin_maps pretty.

Local Open Scope string_scope.
Local Open Scope list_scope.

(** ** Strings *)

(** The line feed of the Go literals [\n]. *)
Definition LF : string := String (Ascii.ascii_of_nat 10) EmptyString.

(** [strings.Join(elems, sep)]. *)
Fixpoint Join (elems : list string) (sep : string) : string :=
  match elems with
  | [] => EmptyString
  | [e] => e
  | e :: rest => e +:+ sep +:+ Join rest sep
  end.

(** [strings.ReplaceAll(s, "-", "_")], the only use in the services. *)
Fixpoint ReplaceAllDash (s : string) : string :=
  match s with
  | EmptyString => EmptyString
  | String c rest =>
      String (if Ascii.eqb c "-"%char then "_"%char else c) (ReplaceAllDash rest)
  end.

(** [strings.Builder.WriteString]. *)
Definition WriteString (def s : string) : string := def +:+ s.

(** Go's [error]: the text returned by [Error()]. *)
Abbreviation error := string (only parsing).

(** ** package models *)

Section Models.

(** Go's [float64]; only its [%v] rendering is ever used. *)
Context {float64 : Type}.

(** The dynamic value held by [Column.DefaultValue interface{}]:
    [nil], or one of the three types the generator switches on, or a
    value of any other dynamic type (a JSON array or object). *)
Inductive DefaultValue : Type :=
| NilValue
| StringValue (v : string)
| BoolValue (v : bool)
| Float64Value (v : float64)
| OtherValue.

(** A Go [int] is a [Z]: the services only print it and compare it
    with zero. *)
Record Column : Type := mkColumn {
  Column_ID : string;
  Column_Name : string;
  Column_DataType : string;
  Column_Length : option Z;
  Column_Precision : option Z;
  Column_Scale : option Z;
  Column_Nullable : bool;
  Column_PrimaryKey : bool;
  Column_AutoIncrement : bool;
  Column_Unique : bool;
  Column_DefaultValue : DefaultValue
}.

(** [Position] and [Indexes] are never read by the services. *)
Record Table : Type := mkTable {
  Table_ID : string;
  Table_Name : string;
  Table_Columns : list Column
}.

Record ForeignKey : Type := mkForeignKey {
  ForeignKey_ID : string;
  ForeignKey_Name : string;
  ForeignKey_SourceTableId : string;
  ForeignKey_SourceColumnId : string;
  ForeignKey_TargetTableId : string;
  ForeignKey_TargetColumnId : string;
  ForeignKey_OnDelete : string;
  ForeignKey_OnUpdate : string
}.

Record SchemaData : Type := mkSchemaData {
  SchemaData_Tables : list Table;
  SchemaData_ForeignKeys : list ForeignKey;
  SchemaData_Version : string;
  SchemaData_ExportedAt : string
}.

(** A [uuid.UUID] is its text; the time stamps of the record are never
    read by the services. *)
Record Schema : Type := mkSchema {
  Schema_ID : string;
  Schema_Name : string;
  Schema_Description : string;
  Schema_DatabaseName : string;
  Schema_Status : string;
  Schema_Version : string;
  Schema_UserID : string;
  Schema_SchemaDefinition : SchemaData
}.

Record CreateSchemaRequest : Type := mkCreateSchemaRequest {
  CreateSchemaRequest_Name : string;
  CreateSchemaRequest_Description : string;
  CreateSchemaRequest_Tables : list Table;
  CreateSchemaRequest_ForeignKeys : list ForeignKey
}.

Record UpdateSchemaRequest : Type := mkUpdateSchemaRequest {
  UpdateSchemaRequest_Name : string;
  UpdateSchemaRequest_Description : string;
  UpdateSchemaRequest_Tables : list Table;
  UpdateSchemaRequest_ForeignKeys : list ForeignKey
}.

Record SchemaValidationRequest : Type := mkSchemaValidationRequest {
  SchemaValidationRequest_Name : string;
  SchemaValidationRequest_Tables : list Table;
  SchemaValidationRequest_ForeignKeys : list ForeignKey
}.

Record ValidationError : Type := mkValidationError {
  ValidationError_Field : string;
  ValidationError_Message : string;
  ValidationError_Code : string
}.

Record ValidationResult : Type := mkValidationResult {
  ValidationResult_Valid : bool;
  ValidationResult_Errors : list ValidationError;
  ValidationResult_Warnings : list string
}.

End Models.

Arguments DefaultValue : clear implicits.
Arguments Column : clear implicits.
Arguments Table : clear implicits.
Arguments SchemaData : clear implicits.
Arguments Schema : clear implicits.
Arguments CreateSchemaRequest : clear implicits.
Arguments UpdateSchemaRequest : clear implicits.
Arguments SchemaValidationRequest : clear implicits.

(** [var SupportedDataTypes = map[string]bool{...}] *)
Definition SupportedDataTypes : gmap string bool :=
  list_to_map
    [ ("INT", true); ("BIGINT", true); ("VARCHAR", true); ("TEXT", true);
      ("BOOLEAN", true); ("TIMESTAMP", true); ("DATE", true); ("TIME", true);
      ("DECIMAL", true); ("FLOAT", true); ("DOUBLE", true); ("JSON", true);
      ("UUID", true) ].

(** [var ValidForeignKeyActions = map[string]bool{...}] *)
Definition ValidForeignKeyActions : gmap string bool :=
  list_to_map
    [ ("CASCADE", true); ("RESTRICT", true); ("SET NULL", true);
      ("NO ACTION", true) ].

(** Indexing a [map[string]bool]: a missing key reads as [false]. *)
Definition index_bool (m : gmap string bool) (k : string) : bool :=
  default false (m !! k).

(** Indexing a [map[string]string] with the comma-ok form: a missing key
    reads as the empty string and [false]. *)
Definition index_ok (m : gmap string string) (k : string) : string * bool :=
  match m !! k with
  | Some v => (v, true)
  | None => (EmptyString, false)
  end.

(** ** package services: the validator and the SQL generator *)

Section Services.

Context {float64 : Type}.

(** [fmt.Sprintf("%v", v)] for a [float64]. *)
Variable FormatFloat : float64 → string.

(** [fmt.Sprintf("%t", v)]. *)
Definition FormatBool (v : bool) : string :=
  if v then "true" else "false".

(** *** validatorService.ValidateSchema *)

(** The inner [for _, column := range table.Columns] with its [break]. *)
Fixpoint hasPrimaryKeyLoop (columns : list (Column float64)) : bool :=
  match columns with
  | [] => false
  | column :: rest =>
      if Column_PrimaryKey column then true else hasPrimaryKeyLoop rest
  end.

(** [for j, column := range table.Columns] of the data-type check; [i] is
    the index of the table, [j] the index of the next column. *)
Fixpoint dataTypeLoop (i j : nat) (columns : list (Column float64))
    (errors : list ValidationError) : list ValidationError :=
  match columns with
  | [] => errors
  | column :: rest =>
      let errors :=
        if negb (index_bool SupportedDataTypes (Column_DataType column)) then
          errors ++
            [ {| ValidationError_Field :=
                   "tables[" +:+ pretty i +:+ "].columns[" +:+ pretty j
                     +:+ "].dataType";
                 ValidationError_Message :=
                   "Unsupported data type: " +:+ Column_DataType column;
                 ValidationError_Code := "UNSUPPORTED_DATA_TYPE" |} ]
        else errors in
      dataTypeLoop i (S j) rest errors
  end.

(** [for i, table := range request.Tables]. *)
Fixpoint tablesLoop (i : nat) (tables : list (Table float64))
    (errors : list ValidationError) (warnings : list string)
    : list ValidationError * list string :=
  match tables with
  | [] => (errors, warnings)
  | table :: rest =>
      let hasPrimaryKey := hasPrimaryKeyLoop (Table_Columns table) in
      let warnings :=
        if negb hasPrimaryKey then
          warnings ++
            [ "Table '" +:+ Table_Name table
                +:+ "' has no primary key defined" ]
        else warnings in
      let errors := dataTypeLoop i 0 (Table_Columns table) errors in
      tablesLoop (S i) rest errors warnings
  end.

Definition ValidateSchema (request : SchemaValidationRequest float64)
    : ValidationResult * option error :=
  let errors : list ValidationError := [] in
  let warnings : list string := [] in
  let errors :=
    if decide (length (SchemaValidationRequest_Tables request) = 0) then
      errors ++
        [ {| ValidationError_Field := "tables";
             ValidationError_Message := "At least one table is required";
             ValidationError_Code := "MISSING_TABLES" |} ]
    else errors in
  let '(errors, warnings) :=
    tablesLoop 0 (SchemaValidationRequest_Tables request) errors warnings in
  ({| ValidationResult_Valid := bool_decide (length errors = 0);
      ValidationResult_Errors := errors;
      ValidationResult_Warnings := warnings |}, None).

(** *** sqlGeneratorService.generateColumnDefinition *)

(** The [switch column.DataType] block. *)
Definition writeDataType (column : Column float64) (def : string) : string :=
  let dataType := Column_DataType column in
  if decide (dataType = "INT") then
    if Column_AutoIncrement column then WriteString def "SERIAL"
    else WriteString def "INTEGER"
  else if decide (dataType = "BIGINT") then
    if Column_AutoIncrement column then WriteString def "BIGSERIAL"
    else WriteString def "BIGINT"
  else if decide (dataType = "VARCHAR") then
    let length : Z := 255%Z in
    let length :=
      match Column_Length column with
      | Some l => if decide (l > 0)%Z then l else length
      | None => length
      end in
    WriteString def ("VARCHAR(" +:+ pretty length +:+ ")")
  else if decide (dataType = "TEXT") then WriteString def "TEXT"
  else if decide (dataType = "BOOLEAN") then WriteString def "BOOLEAN"
  else if decide (dataType = "TIMESTAMP") then
    WriteString def "TIMESTAMP WITH TIME ZONE"
  else if decide (dataType = "DATE") then WriteString def "DATE"
  else if decide (dataType = "TIME") then WriteString def "TIME"
  else if decide (dataType = "DECIMAL") then
    let precision : Z := 10%Z in
    let scale : Z := 2%Z in
    let precision :=
      match Column_Precision column with Some p => p | None => precision end in
    let scale :=
      match Column_Scale column with Some s => s | None => scale end in
    WriteString def
      ("DECIMAL(" +:+ pretty precision +:+ "," +:+ pretty scale +:+ ")")
  else if decide (dataType = "FLOAT") then WriteString def "REAL"
  else if decide (dataType = "DOUBLE") then WriteString def "DOUBLE PRECISION"
  else if decide (dataType = "JSON") then WriteString def "JSONB"
  else if decide (dataType = "UUID") then WriteString def "UUID"
  else WriteString def "TEXT".

(** [if !column.Nullable]. *)
Definition writeNullable (column : Column float64) (def : string) : string :=
  if negb (Column_Nullable column) then WriteString def " NOT NULL" else def.

(** [column.DefaultValue == nil]. *)
Definition isNil (v : DefaultValue float64) : bool :=
  match v with NilValue => true | _ => false end.

(** [if column.DefaultValue != nil { switch v := ....(type) }]. *)
Definition writeDefaultValue (column : Column float64) (def : string)
    : string :=
  if negb (isNil (Column_DefaultValue column)) then
    match Column_DefaultValue column with
    | StringValue v =>
        if negb (bool_decide (v = EmptyString)) then
          WriteString def (" DEFAULT '" +:+ v +:+ "'")
        else def
    | BoolValue v => WriteString def (" DEFAULT " +:+ FormatBool v)
    | Float64Value v => WriteString def (" DEFAULT " +:+ FormatFloat v)
    | _ => def
    end
  else def.

(** The two implicit defaults. *)
Definition writeUUIDDefault (column : Column float64) (def : string)
    : string :=
  if bool_decide (Column_DataType column = "UUID")
     && isNil (Column_DefaultValue column)
  then WriteString def " DEFAULT gen_random_uuid()" else def.

Definition writeTimestampDefault (column : Column float64) (def : string)
    : string :=
  if bool_decide (Column_DataType column = "TIMESTAMP")
     && isNil (Column_DefaultValue column)
  then WriteString def " DEFAULT CURRENT_TIMESTAMP" else def.

Definition generateColumnDefinition (column : Column float64) : string :=
  let def := EmptyString in
  let def := WriteString def (Column_Name column) in
  let def := WriteString def " " in
  let def := writeDataType column def in
  let def := writeNullable column def in
  let def := writeDefaultValue column def in
  let def := writeUUIDDefault column def in
  let def := writeTimestampDefault column def in
  def.

(** *** sqlGeneratorService.GenerateCreateDatabase *)

Definition GenerateCreateDatabase (databaseName : string)
    : string * option error :=
  ("CREATE DATABASE " +:+ databaseName +:+ ";", None).

(** *** sqlGeneratorService.GenerateCreateTables *)

(** One turn of [for _, column := range table.Columns]. *)
Definition columnStep
    (acc : list string * list string * list string)
    (column : Column float64) : list string * list string * list string :=
  let '(columns, primaryKeys, uniqueConstraints) := acc in
  let columnDef := generateColumnDefinition column in
  let columns := columns ++ [columnDef] in
  let primaryKeys :=
    if Column_PrimaryKey column then primaryKeys ++ [Column_Name column]
    else primaryKeys in
  let uniqueConstraints :=
    if Column_Unique column && negb (Column_PrimaryKey column) then
      uniqueConstraints ++ ["UNIQUE (" +:+ Column_Name column +:+ ")"]
    else uniqueConstraints in
  (columns, primaryKeys, uniqueConstraints).

(** One turn of [for _, table := range schemaData.Tables]. *)
Definition tableStep (statements : list string) (table : Table float64)
    : list string :=
  let '(columns, primaryKeys, uniqueConstraints) :=
    foldl columnStep ([], [], []) (Table_Columns table) in
  let statement := "CREATE TABLE " +:+ Table_Name table +:+ " (" +:+ LF in
  let statement :=
    statement +:+ "    " +:+ Join columns ("," +:+ LF +:+ "    ") in
  let statement :=
    if decide (0 < length primaryKeys) then
      statement +:+ "," +:+ LF +:+ "    PRIMARY KEY ("
        +:+ Join primaryKeys ", " +:+ ")"
    else statement in
  let statement :=
    foldl (λ statement constraint,
             statement +:+ "," +:+ LF +:+ "    " +:+ constraint)
          statement uniqueConstraints in
  let statement := statement +:+ LF +:+ ");" in
  statements ++ [statement].

Definition GenerateCreateTables (schemaData : SchemaData float64)
    : list string * option error :=
  let statements := foldl tableStep [] (SchemaData_Tables schemaData) in
  (statements, None).

(** *** sqlGeneratorService.GenerateForeignKeys *)

(** One turn of the loop that fills [tableMap] and [columnMap]. *)
Definition lookupStep (maps : gmap string string * gmap string string)
    (table : Table float64) : gmap string string * gmap string string :=
  let '(tableMap, columnMap) := maps in
  let tableMap := <[Table_ID table := Table_Name table]> tableMap in
  let columnMap :=
    foldl (λ columnMap column,
             <[Column_ID column := Column_Name column]> columnMap)
          columnMap (Table_Columns table) in
  (tableMap, columnMap).

(** One turn of [for _, fk := range schemaData.ForeignKeys]. *)
Definition foreignKeyStep (tableMap columnMap : gmap string string)
    (statements : list string) (fk : ForeignKey) : list string :=
  let '(sourceTable, sourceTableExists) :=
    index_ok tableMap (ForeignKey_SourceTableId fk) in
  let '(targetTable, targetTableExists) :=
    index_ok tableMap (ForeignKey_TargetTableId fk) in
  let '(sourceColumn, sourceColumnExists) :=
    index_ok columnMap (ForeignKey_SourceColumnId fk) in
  let '(targetColumn, targetColumnExists) :=
    index_ok columnMap (ForeignKey_TargetColumnId fk) in
  if negb sourceTableExists || negb targetTableExists
     || negb sourceColumnExists || negb targetColumnExists
  then statements
  else
    let constraintName := ForeignKey_Name fk in
    let constraintName :=
      if decide (constraintName = EmptyString) then
        "fk_" +:+ sourceTable +:+ "_" +:+ sourceColumn
      else constraintName in
    let onDelete := "RESTRICT" in
    let onDelete :=
      if negb (bool_decide (ForeignKey_OnDelete fk = EmptyString))
         && index_bool ValidForeignKeyActions (ForeignKey_OnDelete fk)
      then ForeignKey_OnDelete fk else onDelete in
    let onUpdate := "RESTRICT" in
    let onUpdate :=
      if negb (bool_decide (ForeignKey_OnUpdate fk = EmptyString))
         && index_bool ValidForeignKeyActions (ForeignKey_OnUpdate fk)
      then ForeignKey_OnUpdate fk else onUpdate in
    let statement :=
      "ALTER TABLE " +:+ sourceTable +:+ " ADD CONSTRAINT " +:+ constraintName
        +:+ " FOREIGN KEY (" +:+ sourceColumn +:+ ") REFERENCES "
        +:+ targetTable +:+ " (" +:+ targetColumn +:+ ") ON DELETE "
        +:+ onDelete +:+ " ON UPDATE " +:+ onUpdate +:+ ";" in
    statements ++ [statement].

Definition GenerateForeignKeys (schemaData : SchemaData float64)
    : list string * option error :=
  let '(tableMap, columnMap) :=
    foldl lookupStep (∅, ∅) (SchemaData_Tables schemaData) in
  let statements :=
    foldl (foreignKeyStep tableMap columnMap) []
          (SchemaData_ForeignKeys schemaData) in
  (statements, None).

End Services.

(** ** The outside world: calls, replies, programs and runs *)

(** [config.Config], the fields read when a connection string is built. *)
Record Config : Type := mkConfig {
  Config_DatabaseHost : string;
  Config_DatabasePort : string;
  Config_DatabaseUser : string;
  Config_DatabasePass : string
}.

(** A [*gorm.DB] handle as returned by [gorm.Open]. *)
Definition DB : Type := N.

Section World.

Context {float64 : Type}.

(** Every operation of the services that leaves the process. *)
Inductive Call : Type :=
| DropDynamicDatabase (cfg : Config) (databaseName : string)
| CreateDynamicDatabase (cfg : Config) (databaseName : string)
| GormOpen (dsn : string)
| DbExec (db : DB) (statement : string)
| LogPrintf (message : string)
| RepoGetByNameAndUserID (name userID : string)
| RepoGetByIDAndUserID (id userID : string)
| RepoCreate (schema : Schema float64)
| RepoUpdate (schema : Schema float64)
| UuidNew
| TimeNowRFC3339.

(** What each call hands back.  [Create] and [Update] receive a pointer:
    their reply carries the struct as the callee left it. *)
Definition Reply (c : Call) : Type :=
  match c with
  | DropDynamicDatabase _ _ => option error
  | CreateDynamicDatabase _ _ => option error
  | GormOpen _ => (DB + error)%type
  | DbExec _ _ => option error
  | LogPrintf _ => unit
  | RepoGetByNameAndUserID _ _ => (Schema float64 + error)%type
  | RepoGetByIDAndUserID _ _ => (Schema float64 + error)%type
  | RepoCreate _ => (Schema float64 * option error)%type
  | RepoUpdate _ => (Schema float64 * option error)%type
  | UuidNew => string
  | TimeNowRFC3339 => string
  end.

(** Sequential programs over these calls. *)
Inductive Prog (A : Type) : Type :=
| Ret (a : A)
| Do (c : Call) (k : Reply c → Prog A).

Fixpoint Prog_bind {A B} (f : A → Prog B) (p : Prog A) : Prog B :=
  match p with
  | Ret _ a => f a
  | Do _ c k => Do B c (λ r, Prog_bind f (k r))
  end.

(** A single call. *)
Definition call (c : Call) : Prog (Reply c) := Do _ c (Ret _).

(** A call together with the reply it got. *)
Definition Event : Type := sigT Reply.
Definition ev (c : Call) (r : Reply c) : Event := existT c r.

(** The environment answers a call knowing everything that happened. *)
Definition Env : Type := ∀ (history : list Event) (c : Call), Reply c.

(** Running a program appends each call and its reply to the history. *)
Fixpoint run {A} (env : Env) (p : Prog A) (history : list Event)
    : A * list Event :=
  match p with
  | Ret _ a => (a, history)
  | Do _ c k =>
      let r := env history c in
      run env (k r) (history ++ [ev c r])
  end.

End World.

Arguments Call : clear implicits.
Arguments Prog : clear implicits.
Arguments Event : clear implicits.
Arguments Env : clear implicits.
Arguments Ret {float64 A} a.
Arguments Do {float64 A} c k.

Global Instance Prog_mret {float64} : MRet (Prog float64) := λ A a, Ret a.
Global Instance Prog_mbind {float64} : MBind (Prog float64) :=
  λ A B f p, Prog_bind f p.

(** ** package services: the database manager and the schema service *)

Section Lifecycle.

Context {float64 : Type}.
Variable FormatFloat : float64 → string.

Local Abbreviation Prog := (Prog float64).

Record databaseManagerService : Type := mkDatabaseManagerService {
  databaseManagerService_config : Config
}.

Record schemaService : Type := mkSchemaService {
  schemaService_databaseManager : databaseManagerService;
  schemaService_config : Config
}.

Definition CreateDatabase (d : databaseManagerService)
    (databaseName : string) : Prog (option error) :=
  call (CreateDynamicDatabase (databaseManagerService_config d) databaseName).

Definition DropDatabase (d : databaseManagerService)
    (databaseName : string) : Prog (option error) :=
  call (DropDynamicDatabase (databaseManagerService_config d) databaseName).

(** The connection string of [RegenerateDatabase]. *)
Definition targetDSN (cfg : Config) (databaseName : string) : string :=
  "host=" +:+ Config_DatabaseHost cfg +:+ " port=" +:+ Config_DatabasePort cfg
    +:+ " user=" +:+ Config_DatabaseUser cfg +:+ " password="
    +:+ Config_DatabasePass cfg +:+ " dbname=" +:+ databaseName
    +:+ " sslmode=disable".

Definition tableStatementError (err : error) (statement : string) : error :=
  "failed to execute table statement: " +:+ err +:+ LF +:+ "Statement: "
    +:+ statement.

Definition foreignKeyStatementError (err : error) (statement : string)
    : error :=
  "failed to execute foreign key statement: " +:+ err +:+ LF
    +:+ "Statement: " +:+ statement.

(** [for _, statement := range ... { if err := db.Exec(statement).Error;
    err != nil { return fmt.Errorf(...) } }]; [None] when the loop falls
    through. *)
Fixpoint execLoop (db : DB) (wrap : error → string → error)
    (statements : list string) : Prog (option error) :=
  match statements with
  | [] => mret None
  | statement :: rest =>
      err ← call (DbExec db statement);
      match err with
      | Some err => mret (Some (wrap err statement))
      | None => execLoop db wrap rest
      end
  end.

Definition RegenerateDatabase (d : databaseManagerService)
    (schemaData : SchemaData float64) (databaseName : string)
    : Prog (option error) :=
  (* Drop existing database *)
  err ← DropDatabase d databaseName;
  _ ← match err with
      | Some err =>
          call (LogPrintf ("Warning: Failed to drop database "
                             +:+ databaseName +:+ ": " +:+ err))
      | None => mret ()
      end;
  (* Create new database *)
  err ← CreateDatabase d databaseName;
  match err with
  | Some err => mret (Some ("failed to create database: " +:+ err))
  | None =>
  (* Connect to the new database *)
  let dsn := targetDSN (databaseManagerService_config d) databaseName in
  opened ← call (GormOpen dsn);
  match opened with
  | inr err => mret (Some ("failed to connect to new database: " +:+ err))
  | inl db =>
  (* Generate and execute table creation statements *)
  let '(tableStatements, err) := GenerateCreateTables FormatFloat schemaData in
  match err with
  | Some err => mret (Some ("failed to generate table statements: " +:+ err))
  | None =>
  err ← execLoop db tableStatementError tableStatements;
  match err with
  | Some err => mret (Some err)
  | None =>
  (* Generate and execute foreign key statements *)
  let '(fkStatements, err) := GenerateForeignKeys schemaData in
  match err with
  | Some err =>
      mret (Some ("failed to generate foreign key statements: " +:+ err))
  | None =>
  err ← execLoop db foreignKeyStatementError fkStatements;
  match err with
  | Some err => mret (Some err)
  | None =>
  _ ← call (LogPrintf ("Successfully regenerated database " +:+ databaseName
                         +:+ " with "
                         +:+ pretty (length (SchemaData_Tables schemaData))
                         +:+ " tables"));
  mret None
  end end end end end end.

(** [schema.Status = ...] on the struct behind the pointer. *)
Definition setStatus (schema : Schema float64) (status : string)
    : Schema float64 :=
  {| Schema_ID := Schema_ID schema;
     Schema_Name := Schema_Name schema;
     Schema_Description := Schema_Description schema;
     Schema_DatabaseName := Schema_DatabaseName schema;
     Schema_Status := status;
     Schema_Version := Schema_Version schema;
     Schema_UserID := Schema_UserID schema;
     Schema_SchemaDefinition := Schema_SchemaDefinition schema |}.

Definition CreateSchema (s : schemaService)
    (request : CreateSchemaRequest float64) (userID : string)
    : Prog (option (Schema float64) * option error) :=
  (* Check if schema name already exists for this user *)
  found ← call (RepoGetByNameAndUserID (CreateSchemaRequest_Name request)
                                       userID);
  match found with
  | inl _ =>
      mret (None, Some ("schema with name '"
                          +:+ CreateSchemaRequest_Name request
                          +:+ "' already exists"))
  | inr _ =>
  (* Generate unique database name *)
  u ← call UuidNew;
  let databaseName := "schema_" +:+ ReplaceAllDash u in
  id ← call UuidNew;
  now ← call TimeNowRFC3339;
  let schema :=
    {| Schema_ID := id;
       Schema_Name := CreateSchemaRequest_Name request;
       Schema_Description := CreateSchemaRequest_Description request;
       Schema_DatabaseName := databaseName;
       Schema_Status := "creating";
       Schema_Version := "1.0";
       Schema_UserID := userID;
       Schema_SchemaDefinition :=
         {| SchemaData_Tables := CreateSchemaRequest_Tables request;
            SchemaData_ForeignKeys := CreateSchemaRequest_ForeignKeys request;
            SchemaData_Version := "1.0";
            SchemaData_ExportedAt := now |} |} in
  (* Create schema metadata first *)
  '(schema, err) ← call (RepoCreate schema);
  match err with
  | Some err => mret (None, Some ("failed to create schema: " +:+ err))
  | None =>
  (* Generate the actual database *)
  err ← RegenerateDatabase (schemaService_databaseManager s)
          (Schema_SchemaDefinition schema) (Schema_DatabaseName schema);
  match err with
  | Some err =>
      let schema := setStatus schema "error" in
      _ ← call (RepoUpdate schema);
      mret (None, Some ("failed to generate database: " +:+ err))
  | None =>
  (* Update status to created *)
  let schema := setStatus schema "created" in
  '(schema, err) ← call (RepoUpdate schema);
  _ ← match err with
      | Some err =>
          call (LogPrintf ("Warning: failed to update schema status: "
                             +:+ err))
      | None => mret ()
      end;
  mret (Some schema, None)
  end end end.

Definition UpdateSchema (s : schemaService) (id userID : string)
    (request : UpdateSchemaRequest float64)
    : Prog (option (Schema float64) * option error) :=
  found ← call (RepoGetByIDAndUserID id userID);
  match found with
  | inr err => mret (None, Some err)
  | inl schema =>
  (* Check if new name conflicts with existing schema for this user *)
  conflict ←
    (if negb (bool_decide (Schema_Name schema
                             = UpdateSchemaRequest_Name request)) then
       existing ← call (RepoGetByNameAndUserID
                          (UpdateSchemaRequest_Name request) userID);
       match existing with
       | inl existing => mret (negb (bool_decide (Schema_ID existing = id)))
       | inr _ => mret false
       end
     else mret false);
  if conflict : bool then
    mret (None, Some ("schema with name '"
                        +:+ UpdateSchemaRequest_Name request
                        +:+ "' already exists"))
  else
  (* Update schema definition *)
  now ← call TimeNowRFC3339;
  let schema :=
    {| Schema_ID := Schema_ID schema;
       Schema_Name := UpdateSchemaRequest_Name request;
       Schema_Description := UpdateSchemaRequest_Description request;
       Schema_DatabaseName := Schema_DatabaseName schema;
       Schema_Status := "updating";
       Schema_Version := Schema_Version schema;
       Schema_UserID := Schema_UserID schema;
       Schema_SchemaDefinition :=
         {| SchemaData_Tables := UpdateSchemaRequest_Tables request;
            SchemaData_ForeignKeys := UpdateSchemaRequest_ForeignKeys request;
            SchemaData_Version := "1.1";
            SchemaData_ExportedAt := now |} |} in
  (* Save schema metadata first *)
  '(schema, err) ← call (RepoUpdate schema);
  match err with
  | Some err => mret (None, Some ("failed to update schema: " +:+ err))
  | None =>
  (* Regenerate the database with new definition *)
  err ← RegenerateDatabase (schemaService_databaseManager s)
          (Schema_SchemaDefinition schema) (Schema_DatabaseName schema);
  match err with
  | Some err =>
      let schema := setStatus schema "error" in
      _ ← call (RepoUpdate schema);
      mret (None, Some ("failed to regenerate database: " +:+ err))
  | None =>
  (* Update status to updated *)
  let schema := setStatus schema "updated" in
  '(schema, err) ← call (RepoUpdate schema);
  _ ← match err with
      | Some err =>
          call (LogPrintf ("Warning: failed to update schema status: "
                             +:+ err))
      | None => mret ()
      end;
  mret (Some schema, None)
  end end end.

End Lifecycle.

(** ** The vocabulary of the claims

    [typeMapping], [implicitDefault], [statedDefaultClause],
    [supportedTypes], [validActions], [statedAction],
    [statedConstraintName] and [statedForeignKey] follow the words of the
    specification; the other definitions name parts of the source's
    results and of its runs. *)

Section Specification.

Context {float64 : Type}.
Variable FormatFloat : float64 → string.

(** First match in an association list. *)
Fixpoint assoc {V} (key : string) (table : list (string * V)) : option V :=
  match table with
  | [] => None
  | (k, v) :: rest => if decide (key = k) then Some v else assoc key rest
  end.

(** The length bound of a VARCHAR: the given one, 255 when it is
    unspecified or not positive. *)
Definition varcharBound (c : Column float64) : Z :=
  match Column_Length c with
  | None => 255
  | Some n => if decide (n ≤ 0)%Z then 255 else n
  end.

(** The mapping table of the Type Mapper, one row per data type. *)
Definition typeMapping : list (string * (Column float64 → string)) :=
  [ ("INT", λ c, if Column_AutoIncrement c then "SERIAL" else "INTEGER");
    ("BIGINT", λ c, if Column_AutoIncrement c then "BIGSERIAL" else "BIGINT");
    ("VARCHAR", λ c, "VARCHAR(" +:+ pretty (varcharBound c) +:+ ")");
    ("TEXT", λ _, "TEXT");
    ("BOOLEAN", λ _, "BOOLEAN");
    ("TIMESTAMP", λ _, "TIMESTAMP WITH TIME ZONE");
    ("DATE", λ _, "DATE");
    ("TIME", λ _, "TIME");
    ("DECIMAL", λ c, "DECIMAL(" +:+ pretty (default 10%Z (Column_Precision c))
                       +:+ "," +:+ pretty (default 2%Z (Column_Scale c))
                       +:+ ")");
    ("FLOAT", λ _, "REAL");
    ("DOUBLE", λ _, "DOUBLE PRECISION");
    ("JSON", λ _, "JSONB");
    ("UUID", λ _, "UUID") ].

(** The SQL type of a column: its row of the table, TEXT outside it. *)
Definition mappedType (c : Column float64) : string :=
  match assoc (Column_DataType c) typeMapping with
  | Some row => row c
  | None => "TEXT"
  end.

(** The implicit default of a data type, as a clause. *)
Definition implicitDefault (dataType : string) : string :=
  if decide (dataType = "TIMESTAMP") then " DEFAULT CURRENT_TIMESTAMP"
  else if decide (dataType = "UUID") then " DEFAULT gen_random_uuid()"
  else EmptyString.

(** The default clause as the specification words it: an explicitly set
    value is always rendered, the implicit default applies otherwise. *)
Definition statedDefaultClause (c : Column float64) : string :=
  match Column_DefaultValue c with
  | NilValue => implicitDefault (Column_DataType c)
  | StringValue v => " DEFAULT '" +:+ v +:+ "'"
  | BoolValue v => " DEFAULT " +:+ (if v then "true" else "false")
  | Float64Value v => " DEFAULT " +:+ FormatFloat v
  | OtherValue => EmptyString
  end.

(** The default clause the generator emits: as stated, except that an
    empty string (like a value that is no string, boolean or number)
    yields no clause at all. *)
Definition emittedDefaultClause (c : Column float64) : string :=
  match Column_DefaultValue c with
  | NilValue => implicitDefault (Column_DataType c)
  | StringValue v =>
      if decide (v = EmptyString) then EmptyString
      else " DEFAULT '" +:+ v +:+ "'"
  | BoolValue v => " DEFAULT " +:+ (if v then "true" else "false")
  | Float64Value v => " DEFAULT " +:+ FormatFloat v
  | OtherValue => EmptyString
  end.

(** The statement [GenerateCreateTables] emits for one table. *)
Definition statementOf (t : Table float64) : string :=
  default EmptyString (head (tableStep FormatFloat [] t)).

(** A schema description holding a single table. *)
Definition onlyTable (t : Table float64) : SchemaData float64 :=
  {| SchemaData_Tables := [t];
     SchemaData_ForeignKeys := [];
     SchemaData_Version := EmptyString;
     SchemaData_ExportedAt := EmptyString |}.

(** The last table, in input order, that carries an id. *)
Definition lastTableWithID (tables : list (Table float64)) (id : string)
    : option (Table float64) :=
  last (filter (λ t, Table_ID t = id) tables).

(** The columns of all tables, in input order. *)
Definition allColumns (tables : list (Table float64))
    : list (Column float64) :=
  tables ≫= Table_Columns.

(** The last column, in input order and whatever its table, that carries
    an id. *)
Definition lastColumnWithID (tables : list (Table float64)) (id : string)
    : option (Column float64) :=
  last (filter (λ c, Column_ID c = id) (allColumns tables)).

(** A foreign key dangles when one of its four ids matches nothing. *)
Definition dangling (tables : list (Table float64)) (fk : ForeignKey)
    : Prop :=
  ForeignKey_SourceTableId fk ∉ Table_ID <$> tables
  ∨ ForeignKey_TargetTableId fk ∉ Table_ID <$> tables
  ∨ ForeignKey_SourceColumnId fk ∉ Column_ID <$> allColumns tables
  ∨ ForeignKey_TargetColumnId fk ∉ Column_ID <$> allColumns tables.

Global Instance dangling_dec tables fk : Decision (dangling tables fk).
Proof. unfold dangling. apply _. Defined.

(** The referential actions of the specification. *)
Definition validActions : list string :=
  ["CASCADE"; "RESTRICT"; "SET NULL"; "NO ACTION"].

Definition statedAction (given : string) : string :=
  if decide (given ∈ validActions) then given else "RESTRICT".

Definition statedConstraintName (fk : ForeignKey)
    (sourceTableName sourceColumnName : string) : string :=
  if decide (ForeignKey_Name fk ≠ EmptyString) then ForeignKey_Name fk
  else "fk_" +:+ sourceTableName +:+ "_" +:+ sourceColumnName.

(** The ALTER TABLE statement of a foreign key whose ids resolve to the
    given four names. *)
Definition statedForeignKey
    (sourceTableName sourceColumnName targetTableName targetColumnName : string)
    (fk : ForeignKey) : string :=
  "ALTER TABLE " +:+ sourceTableName +:+ " ADD CONSTRAINT "
    +:+ statedConstraintName fk sourceTableName sourceColumnName
    +:+ " FOREIGN KEY (" +:+ sourceColumnName +:+ ") REFERENCES "
    +:+ targetTableName +:+ " (" +:+ targetColumnName +:+ ") ON DELETE "
    +:+ statedAction (ForeignKey_OnDelete fk) +:+ " ON UPDATE "
    +:+ statedAction (ForeignKey_OnUpdate fk) +:+ ";".

(** The thirteen data types of the specification. *)
Definition supportedTypes : list string :=
  [ "INT"; "BIGINT"; "VARCHAR"; "TEXT"; "BOOLEAN"; "TIMESTAMP"; "DATE";
    "TIME"; "DECIMAL"; "FLOAT"; "DOUBLE"; "JSON"; "UUID" ].

(** No column of the table has [primaryKey = true]. *)
Definition noPrimaryKey (t : Table float64) : Prop :=
  Forall (λ c, Column_PrimaryKey c = false) (Table_Columns t).

Global Instance noPrimaryKey_dec t : Decision (noPrimaryKey t).
Proof. unfold noPrimaryKey. apply _. Defined.

(** The warning that names a table without primary key. *)
Definition primaryKeyWarning (t : Table float64) : string :=
  "Table '" +:+ Table_Name t +:+ "' has no primary key defined".

(** The error for column [j] of table [i]. *)
Definition unsupportedError (i j : nat) (c : Column float64)
    : ValidationError :=
  {| ValidationError_Field :=
       "tables[" +:+ pretty i +:+ "].columns[" +:+ pretty j +:+ "].dataType";
     ValidationError_Message :=
       "Unsupported data type: " +:+ Column_DataType c;
     ValidationError_Code := "UNSUPPORTED_DATA_TYPE" |}.

Definition missingTablesError : ValidationError :=
  {| ValidationError_Field := "tables";
     ValidationError_Message := "At least one table is required";
     ValidationError_Code := "MISSING_TABLES" |}.

(** *** The lifecycle, as the specification describes a run *)

(** The steps of a regeneration. *)
Inductive Step : Type :=
| StepDrop
| StepCreate
| StepConnect
| StepExec (statement : string).

(** The step an event belongs to; a log line belongs to none. *)
Definition stepOf (e : Event float64) : option Step :=
  match projT1 e with
  | DropDynamicDatabase _ _ => Some StepDrop
  | CreateDynamicDatabase _ _ => Some StepCreate
  | GormOpen _ => Some StepConnect
  | DbExec _ statement => Some (StepExec statement)
  | _ => None
  end.

(** The event is a create, a connect or a statement that failed.  A
    failed drop is not fatal. *)
Definition fatal (e : Event float64) : bool :=
  match e with
  | existT c r =>
      match c return Reply c → bool with
      | CreateDynamicDatabase _ _ => λ r, bool_decide (is_Some r)
      | GormOpen _ => λ r, match r with inr _ => true | inl _ => false end
      | DbExec _ _ => λ r, bool_decide (is_Some r)
      | _ => λ _, false
      end r
  end.

(** Drop, create, connect, every CREATE TABLE, every ALTER TABLE. *)
Definition plan (sd : SchemaData float64) : list Step :=
  [StepDrop; StepCreate; StepConnect]
    ++ (StepExec <$> (GenerateCreateTables FormatFloat sd).1)
    ++ (StepExec <$> (GenerateForeignKeys sd).1).

(** The events of a drop that replied [rd]: the call and, on failure,
    the warning. *)
Definition dropEvents (cfg : Config) (databaseName : string)
    (rd : option error) : list (Event float64) :=
  ev (DropDynamicDatabase cfg databaseName) rd
    :: match rd with
       | Some err =>
           [ ev (LogPrintf ("Warning: Failed to drop database "
                              +:+ databaseName +:+ ": " +:+ err)) () ]
       | None => []
       end.

(** The events of statements that all succeeded on [db]. *)
Definition okEvents (db : DB) (statements : list string)
    : list (Event float64) :=
  (λ statement, ev (DbExec db statement) None) <$> statements.

(** The error carried by the reply of an event, if any. *)
Definition errorOf (e : Event float64) : option error :=
  match e with
  | existT c r =>
      match c return Reply c → option error with
      | DropDynamicDatabase _ _ => λ r, r
      | CreateDynamicDatabase _ _ => λ r, r
      | GormOpen _ => λ r, match r with inr err => Some err | inl _ => None end
      | DbExec _ _ => λ r, r
      | _ => λ _, None
      end r
  end.

(** The five ways a regeneration can go, with the events of each and the
    error it returns. *)
Inductive RegenerationRun (cfg : Config) (sd : SchemaData float64)
    (databaseName : string) : list (Event float64) → option error → Prop :=
| CreateFailed rd err :
    RegenerationRun cfg sd databaseName
      (dropEvents cfg databaseName rd
         ++ [ev (CreateDynamicDatabase cfg databaseName) (Some err)])
      (Some ("failed to create database: " +:+ err))
| ConnectFailed rd err :
    RegenerationRun cfg sd databaseName
      ((dropEvents cfg databaseName rd
          ++ [ev (CreateDynamicDatabase cfg databaseName) None])
         ++ [ev (GormOpen (targetDSN cfg databaseName)) (inr err)])
      (Some ("failed to connect to new database: " +:+ err))
| TableStatementFailed rd db done statement rest err :
    (GenerateCreateTables FormatFloat sd).1 = done ++ statement :: rest →
    RegenerationRun cfg sd databaseName
      ((dropEvents cfg databaseName rd
          ++ [ev (CreateDynamicDatabase cfg databaseName) None;
              ev (GormOpen (targetDSN cfg databaseName)) (inl db)]
          ++ okEvents db done)
         ++ [ev (DbExec db statement) (Some err)])
      (Some (tableStatementError err statement))
| ForeignKeyStatementFailed rd db done statement rest err :
    (GenerateForeignKeys sd).1 = done ++ statement :: rest →
    RegenerationRun cfg sd databaseName
      ((dropEvents cfg databaseName rd
          ++ [ev (CreateDynamicDatabase cfg databaseName) None;
              ev (GormOpen (targetDSN cfg databaseName)) (inl db)]
          ++ okEvents db (GenerateCreateTables FormatFloat sd).1
          ++ okEvents db done)
         ++ [ev (DbExec db statement) (Some err)])
      (Some (foreignKeyStatementError err statement))
| Regenerated rd db :
    RegenerationRun cfg sd databaseName
      (dropEvents cfg databaseName rd
         ++ [ev (CreateDynamicDatabase cfg databaseName) None;
             ev (GormOpen (targetDSN cfg databaseName)) (inl db)]
         ++ okEvents db (GenerateCreateTables FormatFloat sd).1
         ++ okEvents db (GenerateForeignKeys sd).1
         ++ [ev (LogPrintf ("Successfully regenerated database "
                              +:+ databaseName +:+ " with "
                              +:+ pretty (length (SchemaData_Tables sd))
                              +:+ " tables")) ()])
      None.

(** What follows the type in a column definition. *)
Definition constraintClauses (c : Column float64) : string :=
  writeTimestampDefault c
    (writeUUIDDefault c
       (writeDefaultValue FormatFloat c (writeNullable c EmptyString))).

(** What precedes the default clause in a column definition. *)
Definition columnHead (c : Column float64) : string :=
  writeNullable c (writeDataType c (Column_Name c +:+ " ")).

End Specification.

(** ** Sample inputs *)

(** The samples hold no number, so any type can stand for [float64]; whole
    numbers with their decimal printer are used. *)
Module Sample.

Definition FormatFloat : Z → string := pretty.

Definition column (id name dataType : string) (length : option Z)
    (nullable primaryKey autoIncrement unique : bool)
    (defaultValue : DefaultValue Z) : Column Z :=
  {| Column_ID := id; Column_Name := name; Column_DataType := dataType;
     Column_Length := length; Column_Precision := None;
     Column_Scale := None; Column_Nullable := nullable;
     Column_PrimaryKey := primaryKey;
     Column_AutoIncrement := autoIncrement; Column_Unique := unique;
     Column_DefaultValue := defaultValue |}.

(** The round-trip scenario: users(id, email) and posts(id, user_id). *)
Definition users : Table Z :=
  mkTable "t-users" "users"
    [ column "c-users-id" "id" "INT" None false true true false NilValue;
      column "c-users-email" "email" "VARCHAR" (Some 255%Z)
        false false false true NilValue ].

Definition posts : Table Z :=
  mkTable "t-posts" "posts"
    [ column "c-posts-id" "id" "INT" None false true true false NilValue;
      column "c-posts-user" "user_id" "INT" None
        false false false false NilValue ].

Definition postsToUsers : ForeignKey :=
  mkForeignKey "fk-1" EmptyString "t-posts" "c-posts-user"
    "t-users" "c-users-id" "CASCADE" "RESTRICT".

(** A foreign key whose target table does not exist. *)
Definition postsToNowhere : ForeignKey :=
  mkForeignKey "fk-2" "posts_ghost" "t-posts" "c-posts-user"
    "t-ghost" "c-users-id" "CASCADE" "CASCADE".

(** A third table, and a foreign key from posts to users whose source
    column id is a column of that third table and whose target column
    id is carried by a column of users and, later, by one of tags. *)
Definition tags : Table Z :=
  mkTable "t-tags" "tags"
    [ column "c-tags-label" "label" "TEXT" None true false false false
        NilValue;
      column "c-users-id" "owner" "INT" None true false false false
        NilValue ].

Definition strayColumns : ForeignKey :=
  mkForeignKey "fk-3" EmptyString "t-posts" "c-tags-label"
    "t-users" "c-users-id" EmptyString "SET NULL".

(** A table with one column of an unsupported data type. *)
Definition orders : Table Z :=
  mkTable "t-orders" "orders"
    [ column "c-orders-amount" "amount" "MONEY" None
        false false false false NilValue ].

(** A TEXT column, and a UUID column, whose default is explicitly the
    empty string. *)
Definition emptyDefault : Column Z :=
  column "c-note" "note" "TEXT" None false false false false
    (StringValue EmptyString).

Definition emptyDefaultUUID : Column Z :=
  column "c-key" "key" "UUID" None false false false false
    (StringValue EmptyString).

Definition cfg : Config := mkConfig "localhost" "5432" "postgres" "secret".

Definition service : schemaService :=
  mkSchemaService (mkDatabaseManagerService cfg) cfg.

Definition createOrders : CreateSchemaRequest Z :=
  mkCreateSchemaRequest "shop" "orders only" [orders] [].

Definition updateOrders : UpdateSchemaRequest Z :=
  mkUpdateSchemaRequest "shop" "orders only" [orders] [].

Definition validateOrders : SchemaValidationRequest Z :=
  mkSchemaValidationRequest "shop" [orders] [].

(** The schema record the repository holds before the update. *)
Definition stored : Schema Z :=
  {| Schema_ID := "schema-1"; Schema_Name := "shop";
     Schema_Description := "empty"; Schema_DatabaseName := "schema_db1";
     Schema_Status := "created"; Schema_Version := "1.0";
     Schema_UserID := "user-1";
     Schema_SchemaDefinition :=
       mkSchemaData [users] [] "1.0" "2024-01-01T00:00:00Z" |}.

(** An environment in which nothing fails: no schema of the requested
    name exists yet, the schema of the requested id is [stored], and the
    repository leaves the structs it is handed untouched. *)
Definition env : Env Z :=
  λ history c,
    match c return Reply c with
    | DropDynamicDatabase _ _ => None
    | CreateDynamicDatabase _ _ => None
    | GormOpen _ => inl 1%N
    | DbExec _ _ => None
    | LogPrintf _ => ()
    | RepoGetByNameAndUserID _ _ => inr "record not found"
    | RepoGetByIDAndUserID _ _ => inl stored
    | RepoCreate schema => (schema, None)
    | RepoUpdate schema => (schema, None)
    | UuidNew => "123e4567-e89b-12d3-a456-426614174000"
    | TimeNowRFC3339 => "2024-06-01T12:00:00Z"
    end.

(** An environment in which the second statement sent to the database
    fails and everything else succeeds. *)
Definition envSecondStatementFails : Env Z :=
  λ history c,
    match c return Reply c with
    | DbExec _ _ =>
        if decide (length (omap stepOf history) = 4)
        then Some "syntax error" else None
    | c => env history c
    end.

End Sample.

(** The round-trip scenario with arbitrary ids. *)
Section Scenario.

Context {float64 : Type}.
Variables (usersID postsID : string).
Variables (usersIdID usersEmailID postsIdID postsUserIdID : string).
Variables (fkID fkName : string).

Definition plainColumn (id name dataType : string) (length : option Z)
    (primaryKey autoIncrement unique : bool) : Column float64 :=
  {| Column_ID := id; Column_Name := name; Column_DataType := dataType;
     Column_Length := length; Column_Precision := None;
     Column_Scale := None; Column_Nullable := false;
     Column_PrimaryKey := primaryKey;
     Column_AutoIncrement := autoIncrement; Column_Unique := unique;
     Column_DefaultValue := NilValue |}.

Definition scenarioUsers : Table float64 :=
  mkTable usersID "users"
    [ plainColumn usersIdID "id" "INT" None true true false;
      plainColumn usersEmailID "email" "VARCHAR" (Some 255%Z)
        false false true ].

Definition scenarioPosts : Table float64 :=
  mkTable postsID "posts"
    [ plainColumn postsIdID "id" "INT" None true true false;
      plainColumn postsUserIdID "user_id" "INT" None false false false ].

Definition scenarioForeignKey : ForeignKey :=
  mkForeignKey fkID fkName postsID postsUserIdID usersID usersIdID
    "CASCADE" "RESTRICT".

Definition scenario (version exportedAt : string) : SchemaData float64 :=
  mkSchemaData [scenarioUsers; scenarioPosts] [scenarioForeignKey]
    version exportedAt.

End Scenario.

(** ** Closed forms of the generated text and of the validator's errors *)

Section ClosedForms.

Context {float64 : Type}.
Variable FormatFloat : float64 → string.

(** The strings of a list, one after the other. *)
Definition concatStrings (l : list string) : string :=
  foldr String.append EmptyString l.

(** The single PRIMARY KEY clause of a table: the names of its
    primary-key columns in input order; nothing without such a column. *)
Definition primaryKeyClause (columns : list (Column float64)) : string :=
  match filter (λ c, Column_PrimaryKey c = true) columns with
  | [] => EmptyString
  | keys =>
      "," +:+ LF +:+ "    PRIMARY KEY ("
        +:+ Join (Column_Name <$> keys) ", " +:+ ")"
  end.

(** One UNIQUE clause for every unique column that is no primary key. *)
Definition uniqueClauses (columns : list (Column float64)) : string :=
  concatStrings
    ((λ c, "," +:+ LF +:+ "    UNIQUE (" +:+ Column_Name c +:+ ")")
       <$> filter (λ c, Column_Unique c = true ∧ Column_PrimaryKey c = false)
                  columns).

(** The CREATE TABLE statement of a table, written out. *)
Definition createTableStatement (t : Table float64) : string :=
  "CREATE TABLE " +:+ Table_Name t +:+ " (" +:+ LF +:+ "    "
    +:+ Join (generateColumnDefinition FormatFloat <$> Table_Columns t)
             ("," +:+ LF +:+ "    ")
    +:+ primaryKeyClause (Table_Columns t)
    +:+ uniqueClauses (Table_Columns t)
    +:+ LF +:+ ");".

(** The errors of the columns of table [i], in column order. *)
Definition columnErrors (i : nat) (columns : list (Column float64))
    : list ValidationError :=
  mjoin (imap (λ j c, if decide (Column_DataType c ∈ supportedTypes)
                      then [] else [unsupportedError i j c])
              columns).

(** All errors of a table list: the missing-tables error first, then the
    column errors table by table. *)
Definition schemaErrors (tables : list (Table float64))
    : list ValidationError :=
  (if decide (tables = []) then [missingTablesError] else [])
    ++ mjoin (imap (λ i t, columnErrors i (Table_Columns t)) tables).

(** A string starts with a given text. *)
Definition startsWith (text s : string) : Prop :=
  ∃ rest, s = text +:+ rest.

End ClosedForms.

(** ** The runs of the schema service *)

Section ServiceRuns.

Context {float64 : Type}.

(** The record that [CreateSchema] hands to the repository, for the
    replies [u] and [id] of the two [uuid.New()] and [now] of
    [time.Now()]. *)
Definition newRecord (request : CreateSchemaRequest float64)
    (userID u id now : string) : Schema float64 :=
  {| Schema_ID := id;
     Schema_Name := CreateSchemaRequest_Name request;
     Schema_Description := CreateSchemaRequest_Description request;
     Schema_DatabaseName := "schema_" +:+ ReplaceAllDash u;
     Schema_Status := "creating";
     Schema_Version := "1.0";
     Schema_UserID := userID;
     Schema_SchemaDefinition :=
       {| SchemaData_Tables := CreateSchemaRequest_Tables request;
          SchemaData_ForeignKeys := CreateSchemaRequest_ForeignKeys request;
          SchemaData_Version := "1.0";
          SchemaData_ExportedAt := now |} |}.

(** The record that [UpdateSchema] hands to the repository: the stored
    one with the name, the description and the definition of the
    request. *)
Definition updatedRecord (schema : Schema float64)
    (request : UpdateSchemaRequest float64) (now : string)
    : Schema float64 :=
  {| Schema_ID := Schema_ID schema;
     Schema_Name := UpdateSchemaRequest_Name request;
     Schema_Description := UpdateSchemaRequest_Description request;
     Schema_DatabaseName := Schema_DatabaseName schema;
     Schema_Status := "updating";
     Schema_Version := Schema_Version schema;
     Schema_UserID := Schema_UserID schema;
     Schema_SchemaDefinition :=
       {| SchemaData_Tables := UpdateSchemaRequest_Tables request;
          SchemaData_ForeignKeys := UpdateSchemaRequest_ForeignKeys request;
          SchemaData_Version := "1.1";
          SchemaData_ExportedAt := now |} |}.

(** The calls of [CreateSchema] before it writes anything: the name
    lookup that found nothing, the two uuids and the time. *)
Definition creationPrelude (request : CreateSchemaRequest float64)
    (userID : string) (missing : error) (u id now : string)
    : list (Event float64) :=
  [ ev (RepoGetByNameAndUserID (CreateSchemaRequest_Name request) userID)
       (inr missing);
    ev UuidNew u; ev UuidNew id; ev TimeNowRFC3339 now ].

(** The last status write and, when it failed, the warning. *)
Definition statusEvents (schema final : Schema float64)
    (err : option error) : list (Event float64) :=
  ev (RepoUpdate schema) (final, err)
    :: match err with
       | Some err =>
           [ ev (LogPrintf ("Warning: failed to update schema status: "
                              +:+ err)) () ]
       | None => []
       end.

(** The event writes to the repository. *)
Definition isWrite (e : Event float64) : bool :=
  match projT1 e with
  | RepoCreate _ | RepoUpdate _ => true
  | _ => false
  end.

(** The event is a step of a regeneration: a drop, a create, a connect
    or a statement. *)
Definition isStep (e : Event float64) : bool :=
  match stepOf e with Some _ => true | None => false end.

(** The error of a [Create] of the repository that failed. *)
Definition createFailure (e : Event float64) : option error :=
  match e with
  | existT c r =>
      match c return Reply c → option error with
      | RepoCreate _ => λ r, r.2
      | _ => λ _, None
      end r
  end.

(** The record handed to a [Create] of the repository. *)
Definition createdRecord (e : Event float64) : option (Schema float64) :=
  match projT1 e with
  | RepoCreate record => Some record
  | _ => None
  end.

(** The event is a lookup by name. *)
Definition isNameLookup (e : Event float64) : bool :=
  match projT1 e with
  | RepoGetByNameAndUserID _ _ => true
  | _ => false
  end.

(** The name lookup of [UpdateSchema], made only when the request
    changes the name, with the reply it got. *)
Definition nameCheckEvents (stored : Schema float64)
    (request : UpdateSchemaRequest float64) (userID : string)
    (reply : Schema float64 + error) : list (Event float64) :=
  if bool_decide (Schema_Name stored = UpdateSchemaRequest_Name request)
  then []
  else [ ev (RepoGetByNameAndUserID (UpdateSchemaRequest_Name request) userID)
            reply ].

(** The name of the request is taken: it differs from the stored one and
    the lookup found a schema with another id. *)
Definition nameTaken (stored : Schema float64)
    (request : UpdateSchemaRequest float64) (id : string)
    (reply : Schema float64 + error) : Prop :=
  Schema_Name stored ≠ UpdateSchemaRequest_Name request
  ∧ ∃ existing, reply = inl existing ∧ Schema_ID existing ≠ id.

(** The characters of a string. *)
Fixpoint characters (s : string) : list ascii :=
  match s with
  | EmptyString => []
  | String c rest => c :: characters rest
  end.

(** [written] is [saved] with its status set to [status] and every
    other field as it was. *)
Definition statusWritten (saved : Schema float64) (status : string)
    (written : Schema float64) : Prop :=
  Schema_Status written = status
  ∧ Schema_ID written = Schema_ID saved
  ∧ Schema_Name written = Schema_Name saved
  ∧ Schema_Description written = Schema_Description saved
  ∧ Schema_DatabaseName written = Schema_DatabaseName saved
  ∧ Schema_Version written = Schema_Version saved
  ∧ Schema_UserID written = Schema_UserID saved
  ∧ Schema_SchemaDefinition written = Schema_SchemaDefinition saved.

(** The warning that follows a status write that failed. *)
Definition statusWarning (failure : option error) : list (Event float64) :=
  match failure with
  | Some err =>
      [ ev (LogPrintf ("Warning: failed to update schema status: " +:+ err))
           () ]
  | None => []
  end.

(** What a call of a regeneration of [databaseName] may be: a call of
    the drop or of the create helper with the manager's configuration
    and that very name, a connection opened with the connection string
    of that database, a statement of [statements] executed on a handle
    that such a connection of [events] returned, or a log line. *)
Definition regenerationEvent (cfg : Config) (databaseName : string)
    (statements : list string) (events : list (Event float64))
    (e : Event float64) : Prop :=
  let dsn :=
    "host=" +:+ Config_DatabaseHost cfg +:+ " port="
      +:+ Config_DatabasePort cfg +:+ " user=" +:+ Config_DatabaseUser cfg
      +:+ " password=" +:+ Config_DatabasePass cfg +:+ " dbname="
      +:+ databaseName +:+ " sslmode=disable" in
  match projT1 e with
  | DropDynamicDatabase cfg' databaseName' =>
      cfg' = cfg ∧ databaseName' = databaseName
  | CreateDynamicDatabase cfg' databaseName' =>
      cfg' = cfg ∧ databaseName' = databaseName
  | GormOpen dsn' => dsn' = dsn
  | DbExec db statement =>
      ev (GormOpen dsn) (inl db) ∈ events ∧ statement ∈ statements
  | LogPrintf _ => True
  | _ => False
  end.

End ServiceRuns.

(** ** package config: the helpers behind [CreateDatabase] and
       [DropDatabase] *)

Module config.

Section Helpers.

Context {float64 : Type}.

(** [databaseURL] is [config.DatabaseURL], a field that the record
    [Config] leaves out. *)
Definition CreateDynamicDatabase (databaseURL : string) (config : Config)
    (databaseName : string) : Prog float64 (option error) :=
  (* Connect to postgres database to create new database *)
  let dsn :=
    if negb (bool_decide (databaseURL = EmptyString)) then
      (* For DATABASE_URL, we need to connect to the default postgres
         database *)
      databaseURL +:+ "_postgres"
    else
      "host=" +:+ Config_DatabaseHost config +:+ " port="
        +:+ Config_DatabasePort config +:+ " user="
        +:+ Config_DatabaseUser config +:+ " password="
        +:+ Config_DatabasePass config
        +:+ " dbname=postgres sslmode=disable" in
  opened ← call (GormOpen dsn);
  match opened with
  | inr err =>
      mret (Some ("failed to connect to postgres database: " +:+ err))
  | inl db =>
  (* Create the new database *)
  let createSQL := "CREATE DATABASE " +:+ databaseName in
  err ← call (DbExec db createSQL);
  match err with
  | Some err =>
      mret (Some ("failed to create database " +:+ databaseName +:+ ": "
                    +:+ err))
  | None =>
  _ ← call (LogPrintf ("Database " +:+ databaseName
                         +:+ " created successfully"));
  mret None
  end end.

Definition DropDynamicDatabase (databaseURL : string) (config : Config)
    (databaseName : string) : Prog float64 (option error) :=
  (* Connect to postgres database to drop database *)
  let dsn :=
    if negb (bool_decide (databaseURL = EmptyString)) then
      (* For DATABASE_URL, we need to connect to the default postgres
         database *)
      databaseURL +:+ "_postgres"
    else
      "host=" +:+ Config_DatabaseHost config +:+ " port="
        +:+ Config_DatabasePort config +:+ " user="
        +:+ Config_DatabaseUser config +:+ " password="
        +:+ Config_DatabasePass config
        +:+ " dbname=postgres sslmode=disable" in
  opened ← call (GormOpen dsn);
  match opened with
  | inr err =>
      mret (Some ("failed to connect to postgres database: " +:+ err))
  | inl db =>
  (* Drop the database *)
  let dropSQL := "DROP DATABASE IF EXISTS " +:+ databaseName in
  err ← call (DbExec db dropSQL);
  match err with
  | Some err =>
      mret (Some ("failed to drop database " +:+ databaseName +:+ ": "
                    +:+ err))
  | None =>
  _ ← call (LogPrintf ("Database " +:+ databaseName
                         +:+ " dropped successfully"));
  mret None
  end end.

End Helpers.

End config.

(** ** package models: scanning a stored definition, responses, pages *)

Section Scanning.

Context {float64 : Type}.

(** The dynamic value handed to [Scan] by the database driver: [nil], a
    byte slice, a string, or a value of any other type. *)
Inductive ScanValue : Type :=
| ScanNil
| ScanBytes (v : string)
| ScanString (v : string)
| ScanOther.

(** [json.Unmarshal(bytes, s)]: the struct as the decoder left it, and
    the error. *)
Variable Unmarshal :
  string → SchemaData float64 → SchemaData float64 * option error.

(** [SchemaData{Tables: []Table{}, ForeignKeys: []ForeignKey{}}]. *)
Definition emptySchemaData : SchemaData float64 :=
  {| SchemaData_Tables := [];
     SchemaData_ForeignKeys := [];
     SchemaData_Version := EmptyString;
     SchemaData_ExportedAt := EmptyString |}.

(** [func (s *SchemaData) Scan(value interface{}) error]: the struct
    behind the receiver after the call, and the error. *)
Definition Scan (s : SchemaData float64) (value : ScanValue)
    : SchemaData float64 * option error :=
  let decode (bytes : string) :=
    if decide (String.length bytes = 0) then (emptySchemaData, None)
    else
      let '(s, err) := Unmarshal bytes s in
      match err with
      | Some _ =>
          (* If unmarshal fails, initialize with empty values *)
          (emptySchemaData, None)
      | None => (s, None)
      end in
  match value with
  | ScanNil => (emptySchemaData, None)
  | ScanBytes v => decode v
  | ScanString v => decode v
  | ScanOther => (s, Some "cannot scan SchemaData from non-byte value")
  end.

End Scanning.

(** [models.APIResponse] with its two constructors; [Data] is what the
    handler put there. *)
Record APIError : Type := mkAPIError {
  APIError_Code : string;
  APIError_Details : string
}.

Record APIResponse (D : Type) : Type := mkAPIResponse {
  APIResponse_Success : bool;
  APIResponse_Message : string;
  APIResponse_Data : option D;
  APIResponse_Error : option APIError
}.

Arguments mkAPIResponse {D}.
Arguments APIResponse_Success {D}.
Arguments APIResponse_Message {D}.
Arguments APIResponse_Data {D}.
Arguments APIResponse_Error {D}.

Definition SuccessResponse {D} (message : string) (data : D)
    : APIResponse D :=
  {| APIResponse_Success := true;
     APIResponse_Message := message;
     APIResponse_Data := Some data;
     APIResponse_Error := None |}.

Definition ErrorResponse {D} (message code details : string)
    : APIResponse D :=
  {| APIResponse_Success := false;
     APIResponse_Message := message;
     APIResponse_Data := None;
     APIResponse_Error :=
       Some {| APIError_Code := code; APIError_Details := details |} |}.

Definition ErrValidation : string := "VALIDATION_ERROR".
Definition ErrSchemaNotFound : string := "SCHEMA_NOT_FOUND".
Definition ErrDatabaseError : string := "DATABASE_ERROR".
Definition ErrDuplicateName : string := "DUPLICATE_NAME".
Definition ErrInternalError : string := "INTERNAL_ERROR".

(** The status codes of [net/http] that the handlers use. *)
Definition StatusOK : Z := 200.
Definition StatusCreated : Z := 201.
Definition StatusBadRequest : Z := 400.
Definition StatusUnauthorized : Z := 401.
Definition StatusNotFound : Z := 404.
Definition StatusInternalServerError : Z := 500.

Record PaginationRequest : Type := mkPaginationRequest {
  PaginationRequest_Page : Z;
  PaginationRequest_Limit : Z;
  PaginationRequest_Search : string
}.

Record PaginationResponse : Type := mkPaginationResponse {
  PaginationResponse_Page : Z;
  PaginationResponse_Limit : Z;
  PaginationResponse_Total : Z;
  PaginationResponse_TotalPages : Z
}.

Record DatabaseStatus : Type := mkDatabaseStatus {
  DatabaseStatus_SchemaID : string;
  DatabaseStatus_DatabaseName : string;
  DatabaseStatus_Status : string;
  DatabaseStatus_TableCount : Z;
  DatabaseStatus_LastChecked : string;
  DatabaseStatus_ConnectionString : string
}.

(** ** Go's [int] on a 64-bit platform *)

(** Wrap-around to the range of a signed 64-bit integer. *)
Definition wrapInt (z : Z) : Z :=
  ((z + 2 ^ 63) mod 2 ^ 64 - 2 ^ 63)%Z.

Definition addInt (x y : Z) : Z := wrapInt (x + y).
Definition subInt (x y : Z) : Z := wrapInt (x - y).
Definition mulInt (x y : Z) : Z := wrapInt (x * y).

(** [x / y]: truncated towards zero; [None] is the run-time panic
    (integer divide by zero). *)
Definition divInt (x y : Z) : option Z :=
  if decide (y = 0%Z) then None else Some (wrapInt (x ÷ y)).

(** ** package services: listing, reading, status *)

Section Listing.

Context {float64 : Type}.

(** [uuid.Nil], the zero value of a [uuid.UUID]. *)
Definition uuidNil : string := "00000000-0000-0000-0000-000000000000".

Definition GetSchema (s : schemaService) (id userID : string)
    : Prog float64 (Schema float64 + error) :=
  call (RepoGetByIDAndUserID id userID).

(** [schemaService.ListSchemas], on the reply [listed] of
    [s.repo.ListByUserID(pagination, userID)]; the elements of the list
    are only passed on.  [None] is a run-time panic. *)
Definition ListSchemas {SchemaListResponse : Type}
    (listed : list SchemaListResponse * Z * option error)
    (pagination : PaginationRequest)
    : option (list SchemaListResponse * option PaginationResponse
              * option error) :=
  let '(schemas, total, err) := listed in
  match err with
  | Some err => Some ([], None, Some err)
  | None =>
      totalPages ←
        divInt (subInt (addInt total (PaginationRequest_Limit pagination)) 1)
               (PaginationRequest_Limit pagination);
      let paginationResp :=
        {| PaginationResponse_Page := PaginationRequest_Page pagination;
           PaginationResponse_Limit := PaginationRequest_Limit pagination;
           PaginationResponse_Total := total;
           PaginationResponse_TotalPages := totalPages |} in
      Some (schemas, Some paginationResp, None)
  end.

(** [offset := (pagination.Page - 1) * pagination.Limit] of
    [schemaRepository.ListByUserID]. *)
Definition offset (pagination : PaginationRequest) : Z :=
  mulInt (subInt (PaginationRequest_Page pagination) 1)
         (PaginationRequest_Limit pagination).

(** [databaseManagerService.GetDatabaseStatus], on the replies of the
    outside world: [gormOpen] answers [gorm.Open] for a connection
    string, [countTables] answers the query that counts the tables on the
    handle it is given, [now] is [time.Now()]. *)
Definition GetDatabaseStatus (d : databaseManagerService)
    (gormOpen : string → DB + error) (countTables : DB → Z + error)
    (now : string) (databaseName : string)
    : DatabaseStatus * option error :=
  (* Connect to the user's database to check status *)
  let config := databaseManagerService_config d in
  let dsn :=
    "host=" +:+ Config_DatabaseHost config +:+ " port="
      +:+ Config_DatabasePort config +:+ " user="
      +:+ Config_DatabaseUser config +:+ " password="
      +:+ Config_DatabasePass config +:+ " dbname=" +:+ databaseName
      +:+ " sslmode=disable" in
  match gormOpen dsn with
  | inr _ =>
      ({| DatabaseStatus_SchemaID := uuidNil;
          DatabaseStatus_DatabaseName := databaseName;
          DatabaseStatus_Status := "error";
          DatabaseStatus_TableCount := 0;
          DatabaseStatus_LastChecked := now;
          DatabaseStatus_ConnectionString := EmptyString |}, None)
  | inl db =>
      (* Count tables *)
      let tableCount :=
        match countTables db with
        | inr _ => 0%Z
        | inl tableCount => tableCount
        end in
      let connectionString :=
        "postgres://" +:+ Config_DatabaseUser config +:+ ":" +:+ "***"
          +:+ "@" +:+ Config_DatabaseHost config +:+ ":"
          +:+ Config_DatabasePort config +:+ "/" +:+ databaseName in
      ({| DatabaseStatus_SchemaID := uuidNil;
          DatabaseStatus_DatabaseName := databaseName;
          DatabaseStatus_Status := "healthy";
          DatabaseStatus_TableCount := tableCount;
          DatabaseStatus_LastChecked := now;
          DatabaseStatus_ConnectionString := connectionString |}, None)
  end.

End Listing.

(** ** package handlers

    A handler is given what it reads from the [gin.Context] (the user id
    put there by the middleware, if any; the outcome of binding the
    body; the outcome of parsing the id of the path) and returns the
    status code and the body of its one [c.JSON]. *)

(** The data of a validation response: the result, and its field
    [GeneratedSQL], which [ValidationResult] above leaves out. *)
Definition ValidationData : Type := (ValidationResult * list string)%type.

(** The [gin.H] of a successful regeneration. *)
Record RegenerateData : Type := mkRegenerateData {
  RegenerateData_schemaId : string;
  RegenerateData_databaseName : string;
  RegenerateData_status : string;
  RegenerateData_regeneratedAt : string
}.

Module ValidatorHandler.

Section Handler.

Context {float64 : Type}.
Variable FormatFloat : float64 → string.

Definition ValidateSchema
    (bound : SchemaValidationRequest float64 + error)
    : Z * APIResponse ValidationData :=
  match bound with
  | inr err =>
      (StatusBadRequest,
       ErrorResponse "Invalid request data" ErrValidation err)
  | inl request =>
  let '(validationResult, err) := ValidateSchema request in
  match err with
  | Some err =>
      (StatusInternalServerError,
       ErrorResponse "Validation failed" ErrInternalError err)
  | None =>
  let generatedSQL : list string := [] in
  (* If validation passed, generate SQL preview *)
  let generatedSQL :=
    if ValidationResult_Valid validationResult then
      let schemaData :=
        {| SchemaData_Tables := SchemaValidationRequest_Tables request;
           SchemaData_ForeignKeys :=
             SchemaValidationRequest_ForeignKeys request;
           SchemaData_Version := EmptyString;
           SchemaData_ExportedAt := EmptyString |} in
      let '(sqlStatements, err) :=
        GenerateCreateTables FormatFloat schemaData in
      match err with
      | None => sqlStatements
      | Some _ => generatedSQL
      end
    else generatedSQL in
  let statusCode := StatusOK in
  let message := "Schema is valid" in
  let '(statusCode, message) :=
    if negb (ValidationResult_Valid validationResult) then
      (StatusBadRequest, "Schema validation failed")
    else (statusCode, message) in
  (statusCode, SuccessResponse message (validationResult, generatedSQL))
  end end.

End Handler.

End ValidatorHandler.

Module SchemaHandler.

Section Handler.

Context {float64 : Type}.
Variable FormatFloat : float64 → string.

(** [models.ErrUnauthorized], declared outside the sources at hand. *)
Variable ErrUnauthorized : string.

Definition CreateSchema (s : schemaService) (userID : option string)
    (bound : CreateSchemaRequest float64 + error)
    : Prog float64 (Z * APIResponse (option (Schema float64))) :=
  (* Get authenticated user ID *)
  match userID with
  | None =>
      mret (StatusUnauthorized,
            ErrorResponse "User not authenticated" ErrUnauthorized
              "Missing user context")
  | Some userID =>
  match bound with
  | inr err =>
      mret (StatusBadRequest,
            ErrorResponse "Invalid request data" ErrValidation err)
  | inl request =>
  '(schema, err) ← CreateSchema FormatFloat s request userID;
  match err with
  | Some err =>
      mret (StatusInternalServerError,
            ErrorResponse "Failed to create schema" ErrInternalError err)
  | None =>
  mret (StatusCreated, SuccessResponse "Schema created successfully" schema)
  end end end.

Definition UpdateSchema (s : schemaService) (userID : option string)
    (id : string + error) (bound : UpdateSchemaRequest float64 + error)
    : Prog float64 (Z * APIResponse (option (Schema float64))) :=
  (* Get authenticated user ID *)
  match userID with
  | None =>
      mret (StatusUnauthorized,
            ErrorResponse "User not authenticated" ErrUnauthorized
              "Missing user context")
  | Some userID =>
  match id with
  | inr _ =>
      mret (StatusBadRequest,
            ErrorResponse "Invalid schema ID" ErrValidation
              "ID must be a valid UUID")
  | inl id =>
  match bound with
  | inr err =>
      mret (StatusBadRequest,
            ErrorResponse "Invalid request data" ErrValidation err)
  | inl request =>
  '(schema, err) ← UpdateSchema FormatFloat s id userID request;
  match err with
  | Some err =>
      mret (StatusInternalServerError,
            ErrorResponse "Failed to update schema" ErrInternalError err)
  | None =>
  mret (StatusOK, SuccessResponse "Schema updated successfully" schema)
  end end end end.

End Handler.

End SchemaHandler.

Module DatabaseHandler.

Section Handler.

Context {float64 : Type}.
Variable FormatFloat : float64 → string.

(** [models.ErrUnauthorized], declared outside the sources at hand. *)
Variable ErrUnauthorized : string.

(** The status handler, on the replies of the outside world, without
    the order in which they are asked for: [getSchema] answers the
    lookup of [schemaService.GetSchema] for an id and a user, and
    [gormOpen], [countTables] and [now] are what [GetDatabaseStatus] of
    the database manager works on.  [userID] is the id of the user that
    [GetUserFromContext] finds. *)
Definition GetDatabaseStatus (d : databaseManagerService)
    (getSchema : string → string → Schema float64 + error)
    (gormOpen : string → DB + error) (countTables : DB → Z + error)
    (now : string) (id : string + error) (userID : option string)
    : Z * APIResponse DatabaseStatus :=
  match id with
  | inr _ =>
      (StatusBadRequest,
       ErrorResponse "Invalid schema ID" ErrValidation
         "ID must be a valid UUID")
  | inl id =>
  match userID with
  | None =>
      (StatusUnauthorized,
       ErrorResponse "User not authenticated" ErrUnauthorized
         "Missing user context")
  | Some userID =>
  match getSchema id userID with
  | inr err =>
      (StatusNotFound, ErrorResponse "Schema not found" ErrSchemaNotFound err)
  | inl schema =>
  let '(status, err) :=
    GetDatabaseStatus d gormOpen countTables now
      (Schema_DatabaseName schema) in
  match err with
  | Some err =>
      (StatusInternalServerError,
       ErrorResponse "Failed to get database status" ErrDatabaseError err)
  | None =>
  let status :=
    {| DatabaseStatus_SchemaID := Schema_ID schema;
       DatabaseStatus_DatabaseName := DatabaseStatus_DatabaseName status;
       DatabaseStatus_Status := DatabaseStatus_Status status;
       DatabaseStatus_TableCount := DatabaseStatus_TableCount status;
       DatabaseStatus_LastChecked := DatabaseStatus_LastChecked status;
       DatabaseStatus_ConnectionString :=
         DatabaseStatus_ConnectionString status |} in
  (StatusOK, SuccessResponse "Database status retrieved" status)
  end end end end.

(** [userID] is the id of the user that [GetUserFromContext] finds. *)
Definition RegenerateDatabase (d : databaseManagerService)
    (s : schemaService) (id : string + error) (userID : option string)
    : Prog float64 (Z * APIResponse RegenerateData) :=
  match id with
  | inr _ =>
      mret (StatusBadRequest,
            ErrorResponse "Invalid schema ID" ErrValidation
              "ID must be a valid UUID")
  | inl id =>
  match userID with
  | None =>
      mret (StatusUnauthorized,
            ErrorResponse "User not authenticated" ErrUnauthorized
              "Missing user context")
  | Some userID =>
  found ← GetSchema s id userID;
  match found with
  | inr err =>
      mret (StatusNotFound,
            ErrorResponse "Schema not found" ErrSchemaNotFound err)
  | inl schema =>
  err ← RegenerateDatabase FormatFloat d (Schema_SchemaDefinition schema)
          (Schema_DatabaseName schema);
  match err with
  | Some err =>
      mret (StatusInternalServerError,
            ErrorResponse "Failed to regenerate database" ErrDatabaseError
              err)
  | None =>
  let response :=
    {| RegenerateData_schemaId := Schema_ID schema;
       RegenerateData_databaseName := Schema_DatabaseName schema;
       RegenerateData_status := "regenerated";
       RegenerateData_regeneratedAt := "2024-01-01T12:30:00Z" |} in
  mret (StatusOK,
        SuccessResponse "Database regenerated successfully" response)
  end end end end.

End Handler.

End DatabaseHandler.

(** ** Further sample inputs *)

Module Cases.

(** Two TEXT columns of the same name that differ in their id, in
    [length] and in the three flags [primaryKey], [autoIncrement] and
    [unique]. *)
Definition flagged : Column Z :=
  Sample.column "c-note-1" "note" "TEXT" (Some 40%Z) false true true true
    NilValue.

Definition plain : Column Z :=
  Sample.column "c-note-2" "note" "TEXT" None false false false false
    NilValue.

(** A table that carries the id of [Sample.users] and comes after it. *)
Definition archive : Table Z :=
  mkTable "t-users" "users_archive"
    [ Sample.column "c-archive-id" "id" "INT" None false true false false
        NilValue ].

(** The round-trip scenario as a validation request. *)
Definition validateBlog : SchemaValidationRequest Z :=
  mkSchemaValidationRequest "blog" [Sample.users; Sample.posts]
    [Sample.postsToUsers].

(** The third page of ten out of twenty-five records. *)
Definition thirdPage : PaginationRequest :=
  mkPaginationRequest 3 10 EmptyString.

End Cases.

(** ** Strings and builders *)

Lemma append_assoc (a b c : string) : (a +:+ b) +:+ c = a +:+ b +:+ c.
Proof.
  induction a as [|x a IH]; [done |].
  change (String x ((a +:+ b) +:+ c) = String x (a +:+ b +:+ c)).
  by rewrite IH.
Qed.

Lemma append_nil_r (a : string) : a +:+ EmptyString = a.
Proof.
  induction a as [|x a IH]; [done |].
  change (String x (a +:+ EmptyString) = String x a).
  by rewrite IH.
Qed.

Section BuilderFacts.

Context {float64 : Type}.
Variable FormatFloat : float64 → string.
Implicit Types (c : Column float64) (def : string).

(** Each phase of [generateColumnDefinition] only appends to the builder. *)
Lemma writeDataType_append c def :
  writeDataType c def = def +:+ writeDataType c EmptyString.
Proof.
  unfold writeDataType, WriteString.
  repeat case_decide; try done; by destruct (Column_AutoIncrement c).
Qed.

Lemma writeNullable_append c def :
  writeNullable c def = def +:+ writeNullable c EmptyString.
Proof.
  unfold writeNullable, WriteString.
  destruct (Column_Nullable c); simpl; [by rewrite append_nil_r | done].
Qed.

Lemma writeDefaultValue_append c def :
  writeDefaultValue FormatFloat c def
  = def +:+ writeDefaultValue FormatFloat c EmptyString.
Proof.
  unfold writeDefaultValue, WriteString.
  destruct (Column_DefaultValue c) as [|v| | |]; simpl;
    try (by rewrite append_nil_r); try done.
  case_bool_decide; simpl; [by rewrite append_nil_r | done].
Qed.

Lemma writeUUIDDefault_append c def :
  writeUUIDDefault c def = def +:+ writeUUIDDefault c EmptyString.
Proof.
  unfold writeUUIDDefault, WriteString.
  destruct (_ && _); [done | by rewrite append_nil_r].
Qed.

Lemma writeTimestampDefault_append c def :
  writeTimestampDefault c def = def +:+ writeTimestampDefault c EmptyString.
Proof.
  unfold writeTimestampDefault, WriteString.
  destruct (_ && _); [done | by rewrite append_nil_r].
Qed.

Lemma constraintClauses_append c def :
  writeTimestampDefault c
    (writeUUIDDefault c
       (writeDefaultValue FormatFloat c (writeNullable c def)))
  = def +:+ constraintClauses FormatFloat c.
Proof.
  unfold constraintClauses.
  rewrite (writeTimestampDefault_append c (writeUUIDDefault c _)).
  rewrite (writeUUIDDefault_append c (writeDefaultValue _ c _)).
  rewrite (writeDefaultValue_append c (writeNullable c _)).
  rewrite (writeNullable_append c def).
  rewrite (writeTimestampDefault_append c (writeUUIDDefault c _)).
  rewrite (writeUUIDDefault_append c (writeDefaultValue _ c _)).
  rewrite (writeDefaultValue_append c (writeNullable c _)).
  by rewrite !append_assoc.
Qed.

(** The type written by the [switch] is the row of the mapping table. *)
Lemma writeDataType_mapped c :
  writeDataType c EmptyString = mappedType c.
Proof.
  unfold writeDataType, mappedType, typeMapping, WriteString, varcharBound.
  cbn [assoc].
  repeat case_decide; try done.
  destruct (Column_Length c) as [n|]; [|done].
  repeat case_decide; try done; lia.
Qed.

(** The three default-writing phases together emit the default clause. *)
Lemma writeDefaults_emitted c :
  writeTimestampDefault c
    (writeUUIDDefault c (writeDefaultValue FormatFloat c EmptyString))
  = emittedDefaultClause FormatFloat c.
Proof.
  unfold writeTimestampDefault, writeUUIDDefault, writeDefaultValue,
    emittedDefaultClause, implicitDefault, WriteString, FormatBool.
  destruct (Column_DefaultValue c) as [|v|b|f|]; simpl;
    rewrite ?andb_false_r, ?andb_true_r; try done.
  - repeat case_bool_decide; repeat case_decide; try done; congruence.
  - case_bool_decide; case_decide; simpl; done.
Qed.

End BuilderFacts.

(** ** The SQL generator *)

Section GeneratorFacts.

Context {float64 : Type}.
Variable FormatFloat : float64 → string.
Implicit Types (t : Table float64) (c : Column float64) (fk : ForeignKey).
Implicit Types (tables : list (Table float64)) (id : string).
Implicit Types (tableMap columnMap : gmap string string).

Lemma generateColumnDefinition_pieces c :
  generateColumnDefinition FormatFloat c
  = Column_Name c +:+ " " +:+ writeDataType c EmptyString
      +:+ constraintClauses FormatFloat c.
Proof.
  unfold generateColumnDefinition, WriteString.
  rewrite constraintClauses_append.
  rewrite (writeDataType_append c).
  by rewrite !append_assoc.
Qed.

(** One turn of the table loop appends exactly one statement. *)
Lemma tableStep_snoc (statements : list string) t :
  tableStep FormatFloat statements t
  = statements ++ [statementOf FormatFloat t].
Proof.
  unfold statementOf, tableStep.
  by destruct (foldl _ _ (Table_Columns t)) as [[columns pks] uniques].
Qed.

Lemma foldl_tableStep (statements : list string) tables :
  foldl (tableStep FormatFloat) statements tables
  = statements ++ (statementOf FormatFloat <$> tables).
Proof.
  revert statements.
  induction tables as [|t tables IH]; intros statements; simpl.
  - by rewrite app_nil_r.
  - by rewrite IH, tableStep_snoc, <- app_assoc.
Qed.

Lemma GenerateCreateTables_fmap (sd : SchemaData float64) :
  GenerateCreateTables FormatFloat sd
  = (statementOf FormatFloat <$> SchemaData_Tables sd, None).
Proof. unfold GenerateCreateTables. by rewrite foldl_tableStep. Qed.

(** The lookup maps hold, for every id, the name of its last carrier. *)
Lemma columnMap_fold columnMap (columns : list (Column float64)) id :
  foldl (λ columnMap c, <[Column_ID c := Column_Name c]> columnMap)
        columnMap columns !! id
  = match last (filter (λ c, Column_ID c = id) columns) with
    | Some c => Some (Column_Name c)
    | None => columnMap !! id
    end.
Proof.
  induction columns as [|c columns IH] using rev_ind; [done |].
  rewrite foldl_snoc, filter_app, last_app, filter_cons, filter_nil.
  case_decide as Hid; simpl.
  - by rewrite Hid, lookup_insert_eq.
  - by rewrite lookup_insert_ne.
Qed.

Lemma lookupMaps_fold tables tableMap columnMap id :
  (foldl lookupStep (tableMap, columnMap) tables).1 !! id
  = match lastTableWithID tables id with
    | Some t => Some (Table_Name t)
    | None => tableMap !! id
    end
  ∧ (foldl lookupStep (tableMap, columnMap) tables).2 !! id
    = match lastColumnWithID tables id with
      | Some c => Some (Column_Name c)
      | None => columnMap !! id
      end.
Proof.
  unfold lastTableWithID, lastColumnWithID, allColumns.
  induction tables as [|t tables [IHt IHc]] using rev_ind; [done |].
  rewrite foldl_snoc.
  destruct (foldl lookupStep (tableMap, columnMap) tables) as [tm cm].
  simpl in *. split.
  - rewrite filter_app, last_app, filter_cons, filter_nil.
    case_decide as Hid; simpl.
    + by rewrite Hid, lookup_insert_eq.
    + by rewrite lookup_insert_ne.
  - rewrite columnMap_fold, bind_app, bind_singleton, filter_app, last_app.
    by destruct (last (filter _ (Table_Columns t))).
Qed.

Lemma tableMap_lookup tables id :
  (foldl lookupStep (∅, ∅) tables).1 !! id
  = Table_Name <$> lastTableWithID tables id.
Proof.
  destruct (lookupMaps_fold tables ∅ ∅ id) as [-> _].
  by destruct (lastTableWithID tables id).
Qed.

Lemma columnMap_lookup tables id :
  (foldl lookupStep (∅, ∅) tables).2 !! id
  = Column_Name <$> lastColumnWithID tables id.
Proof.
  destruct (lookupMaps_fold tables ∅ ∅ id) as [_ ->].
  by destruct (lastColumnWithID tables id).
Qed.

(** An id has a last carrier exactly when some carrier exists. *)
Lemma lastTableWithID_None tables id :
  lastTableWithID tables id = None ↔ id ∉ Table_ID <$> tables.
Proof.
  unfold lastTableWithID. rewrite last_None, list_elem_of_fmap. split.
  - intros Hnil (t & -> & Hin).
    by eapply (filter_nil_not_elem_of _ _ t Hnil).
  - intros Hnot. apply elem_of_nil_inv. intros t.
    rewrite list_elem_of_filter. intros [<- Hin]. apply Hnot. eauto.
Qed.

Lemma lastColumnWithID_None tables id :
  lastColumnWithID tables id = None ↔ id ∉ Column_ID <$> allColumns tables.
Proof.
  unfold lastColumnWithID. rewrite last_None, list_elem_of_fmap. split.
  - intros Hnil (c & -> & Hin).
    by eapply (filter_nil_not_elem_of _ _ c Hnil).
  - intros Hnot. apply elem_of_nil_inv. intros c.
    rewrite list_elem_of_filter. intros [<- Hin]. apply Hnot. eauto.
Qed.

Lemma lastColumnWithID_is_Some tables id :
  is_Some (lastColumnWithID tables id)
  ↔ ∃ t c, t ∈ tables ∧ c ∈ Table_Columns t ∧ Column_ID c = id.
Proof.
  rewrite <- not_eq_None_Some, lastColumnWithID_None.
  unfold allColumns. split.
  - intros Hin. apply dec_stable in Hin.
    apply list_elem_of_fmap in Hin as (c & -> & Hc).
    apply list_elem_of_bind in Hc as (t & Hc & Ht). eauto.
  - intros (t & c & Ht & Hc & <-) Hnot. apply Hnot.
    apply list_elem_of_fmap. exists c. split; [done |].
    apply list_elem_of_bind. eauto.
Qed.

(** The action check against the map is membership in the stated set. *)
Lemma validAction_stated (given : string) :
  (if negb (bool_decide (given = EmptyString))
      && index_bool ValidForeignKeyActions given
   then given else "RESTRICT")
  = statedAction given.
Proof.
  unfold statedAction, validActions, index_bool, ValidForeignKeyActions.
  cbn [list_to_map foldr uncurry fst snd].
  destruct (decide (given = "CASCADE")) as [->|H1]; [done |].
  destruct (decide (given = "RESTRICT")) as [->|H2]; [done |].
  destruct (decide (given = "SET NULL")) as [->|H3]; [done |].
  destruct (decide (given = "NO ACTION")) as [->|H4]; [done |].
  rewrite !lookup_insert_ne, lookup_empty by done. simpl.
  rewrite andb_false_r.
  rewrite decide_False; [done |].
  rewrite !elem_of_cons, elem_of_nil. tauto.
Qed.

(** One turn of the foreign-key loop. *)
Lemma foreignKeyStep_resolved tableMap columnMap (statements : list string)
    fk (st sc tt tc : string) :
  tableMap !! ForeignKey_SourceTableId fk = Some st →
  columnMap !! ForeignKey_SourceColumnId fk = Some sc →
  tableMap !! ForeignKey_TargetTableId fk = Some tt →
  columnMap !! ForeignKey_TargetColumnId fk = Some tc →
  foreignKeyStep tableMap columnMap statements fk
  = statements ++ [statedForeignKey st sc tt tc fk].
Proof.
  intros Hst Hsc Htt Htc.
  unfold foreignKeyStep, index_ok. rewrite Hst, Hsc, Htt, Htc. simpl.
  rewrite !validAction_stated.
  unfold statedForeignKey, statedConstraintName.
  by repeat case_decide.
Qed.

Lemma foreignKeyStep_unresolved tableMap columnMap
    (statements : list string) fk :
  tableMap !! ForeignKey_SourceTableId fk = None
  ∨ tableMap !! ForeignKey_TargetTableId fk = None
  ∨ columnMap !! ForeignKey_SourceColumnId fk = None
  ∨ columnMap !! ForeignKey_TargetColumnId fk = None →
  foreignKeyStep tableMap columnMap statements fk = statements.
Proof.
  unfold foreignKeyStep, index_ok.
  intros [H|[H|[H|H]]]; rewrite H;
    repeat (destruct (_ !! _)); simpl; done.
Qed.

Lemma foreignKeyStep_app tableMap columnMap (statements : list string) fk :
  foreignKeyStep tableMap columnMap statements fk
  = statements ++ foreignKeyStep tableMap columnMap [] fk.
Proof.
  unfold foreignKeyStep, index_ok.
  repeat (destruct (_ !! _)); simpl; by rewrite ?app_nil_r.
Qed.

Lemma foldl_foreignKeyStep tableMap columnMap (statements : list string)
    (fks : list ForeignKey) :
  foldl (foreignKeyStep tableMap columnMap) statements fks
  = statements ++ (fks ≫= foreignKeyStep tableMap columnMap []).
Proof.
  revert statements.
  induction fks as [|fk fks IH]; intros statements.
  - simpl. by rewrite app_nil_r.
  - rewrite bind_cons. cbn [foldl].
    by rewrite IH, (foreignKeyStep_app _ _ statements), <- app_assoc.
Qed.

(** [GenerateForeignKeys] treats each foreign key on its own. *)
Lemma GenerateForeignKeys_bind (sd : SchemaData float64) :
  GenerateForeignKeys sd
  = (SchemaData_ForeignKeys sd ≫=
       foreignKeyStep (foldl lookupStep (∅, ∅) (SchemaData_Tables sd)).1
                      (foldl lookupStep (∅, ∅) (SchemaData_Tables sd)).2 [],
     None).
Proof.
  unfold GenerateForeignKeys.
  destruct (foldl lookupStep _ _) as [tableMap columnMap]. simpl.
  by rewrite foldl_foreignKeyStep.
Qed.

Lemma emitted_resolved tables fk (st sc tt tc : string) :
  Table_Name <$> lastTableWithID tables (ForeignKey_SourceTableId fk)
    = Some st →
  Column_Name <$> lastColumnWithID tables (ForeignKey_SourceColumnId fk)
    = Some sc →
  Table_Name <$> lastTableWithID tables (ForeignKey_TargetTableId fk)
    = Some tt →
  Column_Name <$> lastColumnWithID tables (ForeignKey_TargetColumnId fk)
    = Some tc →
  foreignKeyStep (foldl lookupStep (∅, ∅) tables).1
                 (foldl lookupStep (∅, ∅) tables).2 [] fk
  = [statedForeignKey st sc tt tc fk].
Proof.
  intros Hst Hsc Htt Htc.
  by apply (foreignKeyStep_resolved _ _ []);
    rewrite ?tableMap_lookup, ?columnMap_lookup.
Qed.

Lemma emitted_dangling tables fk :
  dangling tables fk →
  foreignKeyStep (foldl lookupStep (∅, ∅) tables).1
                 (foldl lookupStep (∅, ∅) tables).2 [] fk
  = [].
Proof.
  intros Hd. apply foreignKeyStep_unresolved.
  rewrite !tableMap_lookup, !columnMap_lookup.
  rewrite !fmap_None, !lastTableWithID_None, !lastColumnWithID_None.
  exact Hd.
Qed.

Lemma emitted_not_dangling tables fk :
  ¬ dangling tables fk →
  ∃ st sc tt tc,
    Table_Name <$> lastTableWithID tables (ForeignKey_SourceTableId fk)
      = Some st
    ∧ Column_Name <$> lastColumnWithID tables (ForeignKey_SourceColumnId fk)
        = Some sc
    ∧ Table_Name <$> lastTableWithID tables (ForeignKey_TargetTableId fk)
        = Some tt
    ∧ Column_Name <$> lastColumnWithID tables (ForeignKey_TargetColumnId fk)
        = Some tc.
Proof.
  intros Hnd.
  destruct (lastTableWithID tables (ForeignKey_SourceTableId fk))
    as [ts|] eqn:Hts;
    [| exfalso; apply Hnd; left; by apply lastTableWithID_None].
  destruct (lastColumnWithID tables (ForeignKey_SourceColumnId fk))
    as [cs|] eqn:Hcs;
    [| exfalso; apply Hnd; right; right; left;
       by apply lastColumnWithID_None].
  destruct (lastTableWithID tables (ForeignKey_TargetTableId fk))
    as [tt|] eqn:Htt;
    [| exfalso; apply Hnd; right; left; by apply lastTableWithID_None].
  destruct (lastColumnWithID tables (ForeignKey_TargetColumnId fk))
    as [ct|] eqn:Hct;
    [| exfalso; apply Hnd; right; right; right;
       by apply lastColumnWithID_None].
  by eexists _, _, _, _.
Qed.

End GeneratorFacts.

(** ** Claims about the SQL generator *)

Section GeneratorClaims.

Context {float64 : Type}.
Variable FormatFloat : float64 → string.
Implicit Types (t : Table float64) (c : Column float64) (fk : ForeignKey).
Implicit Types (tables : list (Table float64)) (id : string).
Implicit Types (sd : SchemaData float64) (fks : list ForeignKey).

(** C2: for every column, the definition that [generateColumnDefinition]
    emits is the column name, a space, the SQL type of the fixed mapping
    table (INT to INTEGER or SERIAL, BIGINT to BIGINT or BIGSERIAL,
    VARCHAR to VARCHAR(n) with n the given length or 255 when it is
    unspecified or not positive, TEXT, BOOLEAN, TIMESTAMP WITH TIME ZONE,
    DATE, TIME, DECIMAL(p,s) with p defaulting to 10 and s to 2, REAL,
    DOUBLE PRECISION, JSONB, UUID, and TEXT for any other data type),
    followed by the NOT NULL and DEFAULT clauses. *)
Theorem generateColumnDefinition_type_mapping c :
  generateColumnDefinition FormatFloat c
  = Column_Name c +:+ " " +:+ mappedType c
      +:+ constraintClauses FormatFloat c.
Proof.
  rewrite generateColumnDefinition_pieces.
  by rewrite writeDataType_mapped.
Qed.


(** The statements of a reindexed table list are reindexed alike. *)
Lemma GenerateCreateTables_reindex sd sd' (f : nat → nat) :
  (∀ i, SchemaData_Tables sd' !! i = SchemaData_Tables sd !! f i) →
  ∀ i, (GenerateCreateTables FormatFloat sd').1 !! i
       = (GenerateCreateTables FormatFloat sd).1 !! f i.
Proof.
  intros Hf i. rewrite !GenerateCreateTables_fmap. simpl.
  by rewrite !list_lookup_fmap, Hf.
Qed.

(** C9: when the tables of [sd'] are a permutation of the tables of [sd],
    the statements for [sd'] are the same permutation of the statements
    for [sd]: whatever reindexing [f] turns the tables of [sd] into
    those of [sd'] also turns the statements of [sd] into those of [sd']
    (and an injective one exists); the i-th statement is the statement
    of the i-th table alone. *)
Theorem GenerateCreateTables_permutation sd sd' :
  SchemaData_Tables sd' ≡ₚ SchemaData_Tables sd →
  let out := (GenerateCreateTables FormatFloat sd).1 in
  let out' := (GenerateCreateTables FormatFloat sd').1 in
  (∃ f : nat → nat,
      Inj (=) (=) f
      ∧ (∀ i, SchemaData_Tables sd' !! i = SchemaData_Tables sd !! f i)
      ∧ (∀ i, out' !! i = out !! f i))
  ∧ (∀ f : nat → nat,
       (∀ i, SchemaData_Tables sd' !! i = SchemaData_Tables sd !! f i) →
       ∀ i, out' !! i = out !! f i)
  ∧ out' ≡ₚ out
  ∧ length out = length (SchemaData_Tables sd)
  ∧ (∀ i, out !! i
          = t ← SchemaData_Tables sd !! i;
            (GenerateCreateTables FormatFloat (onlyTable t)).1 !! 0)
  ∧ (GenerateCreateTables FormatFloat sd').2 = None.
Proof.
  intros Hperm out out'.
  assert (Hre : ∀ f : nat → nat,
    (∀ i, SchemaData_Tables sd' !! i = SchemaData_Tables sd !! f i) →
    ∀ i, out' !! i = out !! f i)
    by (intros f Hf; by apply GenerateCreateTables_reindex).
  split; [| split; [exact Hre | split; [| split; [| split]]]].
  - apply Permutation_inj in Hperm as [_ (f & Hinj & Hf)].
    exists f. split; [done | split; [done | by apply Hre]].
  - subst out out'. rewrite !GenerateCreateTables_fmap. simpl.
    by apply fmap_Permutation.
  - subst out. rewrite GenerateCreateTables_fmap. simpl.
    by rewrite length_fmap.
  - intros i. subst out. rewrite GenerateCreateTables_fmap. simpl.
    rewrite list_lookup_fmap.
    destruct (SchemaData_Tables sd !! i) as [t|]; [|done].
    change (Some (statementOf FormatFloat t)
            = (GenerateCreateTables FormatFloat (onlyTable t)).1 !! 0).
    by rewrite GenerateCreateTables_fmap.
  - by rewrite GenerateCreateTables_fmap.
Qed.

(** One statement per foreign key that does not dangle. *)
Lemma emitted_length tables fks :
  length (fks ≫=
            foreignKeyStep (foldl lookupStep (∅, ∅) tables).1
                           (foldl lookupStep (∅, ∅) tables).2 [])
  = length (filter (λ fk, ¬ dangling tables fk) fks).
Proof.
  induction fks as [|fk fks IH]; [done |].
  rewrite bind_cons, length_app, IH, filter_cons.
  destruct (decide (¬ dangling tables fk)) as [Hnd|Hd].
  - destruct (emitted_not_dangling tables fk Hnd)
      as (st & sc & tt & tc & Hst & Hsc & Htt & Htc).
    by rewrite (emitted_resolved tables fk st sc tt tc).
  - apply dec_stable in Hd. by rewrite emitted_dangling.
Qed.

(** C5: a foreign key one of whose four ids matches nothing adds no
    statement and raises no error: the result is that of the foreign
    keys before it followed by that of the foreign keys after it, the
    same as if the dangling key were absent, and it holds exactly one
    statement per foreign key that does not dangle. *)
Theorem GenerateForeignKeys_skips_dangling tables fks1 fk fks2
    (version exportedAt : string) :
  dangling tables fk →
  let generate fks :=
    GenerateForeignKeys (mkSchemaData tables fks version exportedAt) in
  generate (fks1 ++ fk :: fks2)
    = ((generate fks1).1 ++ (generate fks2).1, None)
  ∧ generate (fks1 ++ fk :: fks2) = generate (fks1 ++ fks2)
  ∧ generate [fk] = ([], None)
  ∧ length (generate (fks1 ++ fk :: fks2)).1
    = length (filter (λ fk', ¬ dangling tables fk') (fks1 ++ fks2)).
Proof.
  intros Hd generate. subst generate. cbv beta.
  rewrite !GenerateForeignKeys_bind.
  cbn [SchemaData_Tables SchemaData_ForeignKeys fst snd].
  rewrite bind_singleton, !bind_app, bind_cons.
  rewrite (emitted_dangling tables fk Hd).
  cbn [app]. repeat split.
  by rewrite length_app, !emitted_length, filter_app, length_app.
Qed.

(** C6: a foreign key whose four ids resolve to the names [st], [sc],
    [tt], [tc] adds, at its place, the one statement of
    [statedForeignKey]: the constraint is named by the given name when
    that is not empty and fk_<st>_<sc> otherwise, and each of ON DELETE
    and ON UPDATE carries the given action when it is CASCADE, RESTRICT,
    SET NULL or NO ACTION and RESTRICT otherwise. *)
Theorem GenerateForeignKeys_constraint_name_and_actions
    tables fks1 fk fks2 (st sc tt tc version exportedAt : string) :
  Table_Name <$> lastTableWithID tables (ForeignKey_SourceTableId fk)
    = Some st →
  Column_Name <$> lastColumnWithID tables (ForeignKey_SourceColumnId fk)
    = Some sc →
  Table_Name <$> lastTableWithID tables (ForeignKey_TargetTableId fk)
    = Some tt →
  Column_Name <$> lastColumnWithID tables (ForeignKey_TargetColumnId fk)
    = Some tc →
  let generate fks :=
    GenerateForeignKeys (mkSchemaData tables fks version exportedAt) in
  generate (fks1 ++ fk :: fks2)
  = ((generate fks1).1
       ++ [ "ALTER TABLE " +:+ st +:+ " ADD CONSTRAINT "
              +:+ (if decide (ForeignKey_Name fk ≠ EmptyString)
                   then ForeignKey_Name fk
                   else "fk_" +:+ st +:+ "_" +:+ sc)
              +:+ " FOREIGN KEY (" +:+ sc +:+ ") REFERENCES " +:+ tt
              +:+ " (" +:+ tc +:+ ") ON DELETE "
              +:+ (if decide (ForeignKey_OnDelete fk ∈ validActions)
                   then ForeignKey_OnDelete fk else "RESTRICT")
              +:+ " ON UPDATE "
              +:+ (if decide (ForeignKey_OnUpdate fk ∈ validActions)
                   then ForeignKey_OnUpdate fk else "RESTRICT")
              +:+ ";" ]
       ++ (generate fks2).1,
     None).
Proof.
  intros Hst Hsc Htt Htc generate. subst generate. cbv beta.
  rewrite !GenerateForeignKeys_bind.
  cbn [SchemaData_Tables SchemaData_ForeignKeys fst snd].
  rewrite bind_app, bind_cons.
  by rewrite (emitted_resolved tables fk st sc tt tc).
Qed.

(** C10: the column lookups of [GenerateForeignKeys] are not scoped to a
    table.  When each of the two column ids of a foreign key matches a
    column of any table of the schema, both lookups succeed, each with the
    name of the last column, over all tables in input order, that carries
    the id; and when its two table ids match tables as well, the foreign
    key is emitted with these column names rather than skipped. *)
Theorem GenerateForeignKeys_column_lookup_unscoped tables fk
    (version exportedAt : string) :
  (∃ t c, t ∈ tables ∧ c ∈ Table_Columns t
          ∧ Column_ID c = ForeignKey_SourceColumnId fk) →
  (∃ t c, t ∈ tables ∧ c ∈ Table_Columns t
          ∧ Column_ID c = ForeignKey_TargetColumnId fk) →
  ∃ cs ct before_s after_s before_t after_t,
    allColumns tables = before_s ++ cs :: after_s
    ∧ Column_ID cs = ForeignKey_SourceColumnId fk
    ∧ Forall (λ c, Column_ID c ≠ ForeignKey_SourceColumnId fk) after_s
    ∧ allColumns tables = before_t ++ ct :: after_t
    ∧ Column_ID ct = ForeignKey_TargetColumnId fk
    ∧ Forall (λ c, Column_ID c ≠ ForeignKey_TargetColumnId fk) after_t
    ∧ (foldl lookupStep (∅, ∅) tables).2 !! ForeignKey_SourceColumnId fk
      = Some (Column_Name cs)
    ∧ (foldl lookupStep (∅, ∅) tables).2 !! ForeignKey_TargetColumnId fk
      = Some (Column_Name ct)
    ∧ ∀ ts tt,
        lastTableWithID tables (ForeignKey_SourceTableId fk) = Some ts →
        lastTableWithID tables (ForeignKey_TargetTableId fk) = Some tt →
        GenerateForeignKeys (mkSchemaData tables [fk] version exportedAt)
        = ([statedForeignKey (Table_Name ts) (Column_Name cs)
                             (Table_Name tt) (Column_Name ct) fk], None).
Proof.
  intros Hcs Hct.
  apply lastColumnWithID_is_Some in Hcs as [cs Hcs].
  apply lastColumnWithID_is_Some in Hct as [ct Hct].
  pose proof Hcs as Hs. pose proof Hct as Ht.
  unfold lastColumnWithID in Hs, Ht.
  pose proof (last_Some_elem_of _ _ Hs) as Hins.
  pose proof (last_Some_elem_of _ _ Ht) as Hint.
  apply list_elem_of_filter in Hins as [Hids _].
  apply list_elem_of_filter in Hint as [Hidt _].
  apply last_filter_Some in Hs as (before_s & after_s & Hsplit_s & Hafter_s).
  apply last_filter_Some in Ht as (before_t & after_t & Hsplit_t & Hafter_t).
  exists cs, ct, before_s, after_s, before_t, after_t.
  rewrite !columnMap_lookup, Hcs, Hct.
  repeat split; try done.
  intros ts tt Es Et.
  rewrite GenerateForeignKeys_bind.
  cbn [SchemaData_Tables SchemaData_ForeignKeys]. rewrite bind_singleton.
  by rewrite (emitted_resolved tables fk (Table_Name ts) (Column_Name cs)
                (Table_Name tt) (Column_Name ct));
    rewrite ?Es, ?Et, ?Hcs, ?Hct.
Qed.

End GeneratorClaims.

(** ** The validator *)

Section ValidatorFacts.

Context {float64 : Type}.
Implicit Types (t : Table float64) (c : Column float64).
Implicit Types (tables : list (Table float64)).
Implicit Types (columns : list (Column float64)).
Implicit Types (errors : list ValidationError) (warnings : list string).

Lemma hasPrimaryKeyLoop_false t :
  hasPrimaryKeyLoop (Table_Columns t) = false ↔ noPrimaryKey t.
Proof.
  unfold noPrimaryKey.
  induction (Table_Columns t) as [|c columns IH]; simpl.
  - split; [constructor | done].
  - rewrite Forall_cons, <- IH.
    destruct (Column_PrimaryKey c); intuition congruence.
Qed.

(** The map of supported types holds exactly the thirteen names. *)
Lemma SupportedDataTypes_stated (dataType : string) :
  index_bool SupportedDataTypes dataType = true
  ↔ dataType ∈ supportedTypes.
Proof.
  unfold supportedTypes, index_bool, SupportedDataTypes.
  cbn [list_to_map foldr uncurry fst snd].
  rewrite !elem_of_cons, elem_of_nil.
  repeat (match goal with
          | |- context [ <[?k := _]> _ !! _ ] =>
              destruct (decide (dataType = k)) as [->|?];
              [ rewrite lookup_insert_eq; simpl; tauto
              | rewrite lookup_insert_ne by done ]
          end).
  rewrite lookup_empty. simpl. intuition congruence.
Qed.

Lemma dataTypeLoop_elem (i j : nat) columns errors (e : ValidationError) :
  e ∈ dataTypeLoop i j columns errors
  ↔ e ∈ errors
    ∨ ∃ k c, columns !! k = Some c
             ∧ (Column_DataType c ∉ supportedTypes)
             ∧ e = unsupportedError i (j + k) c.
Proof.
  revert j errors.
  induction columns as [|c columns IH]; intros j errors; simpl.
  - split; [by left |].
    by intros [He | (k & c & Hk & _)]; [| rewrite lookup_nil in Hk].
  - rewrite IH. clear IH.
    destruct (index_bool SupportedDataTypes (Column_DataType c)) eqn:Hs;
      simpl.
    + apply SupportedDataTypes_stated in Hs. split.
      * intros [He | (k & c' & Hk & Hc' & ->)]; [by left |].
        right. exists (S k), c'. by rewrite Nat.add_succ_r.
      * intros [He | (k & c' & Hk & Hc' & ->)]; [by left |].
        destruct k as [|k]; simplify_eq/=; [done |].
        right. exists k, c'. by rewrite Nat.add_succ_r.
    + assert (Column_DataType c ∉ supportedTypes) as Hns.
      { rewrite <- SupportedDataTypes_stated. by rewrite Hs. }
      rewrite elem_of_app, list_elem_of_singleton. split.
      * intros [[He | ->] | (k & c' & Hk & Hc' & ->)].
        -- by left.
        -- right. exists 0, c. by rewrite Nat.add_0_r.
        -- right. exists (S k), c'. by rewrite Nat.add_succ_r.
      * intros [He | (k & c' & Hk & Hc' & ->)]; [by left; left |].
        destruct k as [|k]; simplify_eq/=.
        -- left; right. by rewrite Nat.add_0_r.
        -- right. exists k, c'. by rewrite Nat.add_succ_r.
Qed.

Lemma tablesLoop_errors (i : nat) tables errors warnings
    (e : ValidationError) :
  e ∈ (tablesLoop i tables errors warnings).1
  ↔ e ∈ errors
    ∨ ∃ k j t c, tables !! k = Some t ∧ Table_Columns t !! j = Some c
                 ∧ (Column_DataType c ∉ supportedTypes)
                 ∧ e = unsupportedError (i + k) j c.
Proof.
  revert i errors warnings.
  induction tables as [|t tables IH]; intros i errors warnings; simpl.
  - split; [by left |].
    by intros [He | (k & j & t & c & Hk & _)]; [| rewrite lookup_nil in Hk].
  - rewrite IH, dataTypeLoop_elem. clear IH. split.
    + intros [[He | (j & c & Hj & Hc & ->)] | (k & j & t' & c & Hk & Hj & Hc & ->)].
      * by left.
      * right. exists 0, j, t, c. by rewrite Nat.add_0_r.
      * right. exists (S k), j, t', c. by rewrite Nat.add_succ_r.
    + intros [He | (k & j & t' & c & Hk & Hj & Hc & ->)]; [by left; left |].
      destruct k as [|k]; simplify_eq/=.
      * left; right. exists j, c. by rewrite Nat.add_0_r.
      * right. exists k, j, t', c. by rewrite Nat.add_succ_r.
Qed.

Lemma tablesLoop_warnings (i : nat) tables errors warnings :
  (tablesLoop i tables errors warnings).2
  = warnings ++ (primaryKeyWarning <$> filter noPrimaryKey tables).
Proof.
  revert i errors warnings.
  induction tables as [|t tables IH]; intros i errors warnings; simpl.
  - by rewrite app_nil_r.
  - rewrite IH, filter_cons. clear IH.
    destruct (hasPrimaryKeyLoop (Table_Columns t)) eqn:Hpk; simpl.
    + rewrite decide_False; [done |].
      rewrite <- hasPrimaryKeyLoop_false. by rewrite Hpk.
    + rewrite decide_True by (by apply hasPrimaryKeyLoop_false).
      by rewrite <- app_assoc.
Qed.

(** C3: [ValidateSchema] never fails and its verdict is [true] exactly
    when it collected no error; the warnings, one for each table without
    a primary-key column and naming it, play no part in the verdict.  A
    schema with at least one table and only supported data types is
    valid, with exactly the warning of its table without primary key
    when there is one such table; a column of unsupported data type
    makes the schema invalid, with an UNSUPPORTED_DATA_TYPE error
    carrying its table index and column index; an empty table list
    gives the MISSING_TABLES error. *)
Theorem ValidateSchema_verdict (request : SchemaValidationRequest float64) :
  let tables := SchemaValidationRequest_Tables request in
  let result := (ValidateSchema request).1 in
  (ValidateSchema request).2 = None
  ∧ (ValidationResult_Valid result = true
     ↔ ValidationResult_Errors result = [])
  ∧ ValidationResult_Warnings result
    = primaryKeyWarning <$> filter noPrimaryKey tables
  ∧ (tables ≠ [] →
     (∀ t c, t ∈ tables → c ∈ Table_Columns t →
             Column_DataType c ∈ supportedTypes) →
     ValidationResult_Valid result = true
     ∧ ∀ t, filter noPrimaryKey tables = [t] →
            ValidationResult_Warnings result = [primaryKeyWarning t])
  ∧ (∀ i j t c,
       tables !! i = Some t → Table_Columns t !! j = Some c →
       Column_DataType c ∉ supportedTypes →
       ValidationResult_Valid result = false
       ∧ {| ValidationError_Field :=
              "tables[" +:+ pretty i +:+ "].columns[" +:+ pretty j
                +:+ "].dataType";
            ValidationError_Message :=
              "Unsupported data type: " +:+ Column_DataType c;
            ValidationError_Code := "UNSUPPORTED_DATA_TYPE" |}
         ∈ ValidationResult_Errors result)
  ∧ (tables = [] →
     ValidationResult_Valid result = false
     ∧ ValidationResult_Errors result
       = [ {| ValidationError_Field := "tables";
              ValidationError_Message := "At least one table is required";
              ValidationError_Code := "MISSING_TABLES" |} ]).
Proof.
  intros tables result.
  assert (Hok : (ValidateSchema request).2 = None).
  { unfold ValidateSchema. by destruct (tablesLoop _ _ _ _). }
  assert (Hshape :
    ∃ errors0,
      (errors0 = if decide (length tables = 0)
                 then [missingTablesError] else [])
      ∧ result
        = {| ValidationResult_Valid :=
               bool_decide (length (tablesLoop 0 tables errors0 []).1 = 0);
             ValidationResult_Errors := (tablesLoop 0 tables errors0 []).1;
             ValidationResult_Warnings :=
               (tablesLoop 0 tables errors0 []).2 |}).
  { eexists. split; [reflexivity |].
    subst result tables. unfold ValidateSchema.
    by destruct (tablesLoop _ _ _ _). }
  destruct Hshape as (errors0 & Herrors0 & Hresult).
  assert (Hvalid : ValidationResult_Valid result = true
                   ↔ ValidationResult_Errors result = []).
  { rewrite Hresult. simpl. rewrite bool_decide_eq_true.
    apply length_zero_iff_nil. }
  assert (Hwarn : ValidationResult_Warnings result
                  = primaryKeyWarning <$> filter noPrimaryKey tables).
  { rewrite Hresult. simpl. by rewrite tablesLoop_warnings. }
  assert (Hin : ∀ e, e ∈ ValidationResult_Errors result
                     ↔ e ∈ errors0
                       ∨ ∃ k j t c, tables !! k = Some t
                           ∧ Table_Columns t !! j = Some c
                           ∧ (Column_DataType c ∉ supportedTypes)
                           ∧ e = unsupportedError (0 + k) j c).
  { intros e. rewrite Hresult. simpl. apply tablesLoop_errors. }
  split; [done |]. split; [done |]. split; [done |].
  split; [| split].
  - intros Hne Hsupported. split.
    + apply Hvalid. apply elem_of_nil_inv. intros e He.
      apply Hin in He as [He | (k & j & t & c & Hk & Hj & Hc & _)].
      * rewrite Herrors0 in He. rewrite decide_False in He.
        -- by apply elem_of_nil in He.
        -- by destruct tables.
      * apply Hc. eapply Hsupported; by eapply list_elem_of_lookup_2.
    + intros t Ht. by rewrite Hwarn, Ht.
  - intros i j t c Hi Hj Hc.
    assert (unsupportedError i j c ∈ ValidationResult_Errors result) as He.
    { apply Hin. right. by exists i, j, t, c. }
    split; [| exact He].
    apply not_true_is_false. rewrite Hvalid. intros Hnil.
    rewrite Hnil in He. by apply elem_of_nil in He.
  - intros Hnil.
    assert (ValidationResult_Errors result = [missingTablesError]) as He.
    { rewrite Hresult. simpl. rewrite Herrors0.
      subst tables. by rewrite Hnil. }
    split; [| exact He].
    apply not_true_is_false. rewrite Hvalid. by rewrite He.
Qed.

End ValidatorFacts.

(** ** Runs *)

Section RunFacts.

Context {float64 : Type}.
Variable env : Env float64.
Implicit Types (history : list (Event float64)).

Lemma run_bind {A B} (p : Prog float64 A) (f : A → Prog float64 B) history :
  run env (p ≫= f) history
  = run env (f (run env p history).1) (run env p history).2.
Proof.
  revert history. induction p as [a|c k IH]; intros history; [done |].
  apply IH.
Qed.

Lemma run_call (c : Call float64) history :
  run env (call c) history
  = (env history c, history ++ [ev c (env history c)]).
Proof. done. Qed.

Lemma run_ret {A} (a : A) history :
  run env (mret a) history = (a, history).
Proof. done. Qed.

(** The statement loop runs its statements in order up to the first one
    that fails. *)
Lemma run_execLoop (db : DB) (wrap : error → string → error)
    (statements : list string) history :
  run env (execLoop db wrap statements) history
    = (None, history ++ okEvents db statements)
  ∨ ∃ done statement rest err,
      statements = done ++ statement :: rest
      ∧ run env (execLoop db wrap statements) history
        = (Some (wrap err statement),
           history ++ okEvents db done
             ++ [ev (DbExec db statement) (Some err)]).
Proof.
  revert history.
  induction statements as [|statement statements IH]; intros history.
  - left. simpl. by rewrite app_nil_r.
  - cbn [execLoop].
    rewrite run_bind, (run_call (DbExec db statement)). cbn [fst snd].
    destruct (env history (DbExec db statement)) as [err|] eqn:Hreply.
    + right. exists [], statement, statements, err. split; [done |].
      by rewrite run_ret.
    + destruct (IH (history ++ [ev (DbExec db statement) None]))
        as [Hok | (done & failing & rest & err & -> & Hfail)].
      * left. rewrite Hok. by rewrite <- app_assoc.
      * right. exists (statement :: done), failing, rest, err.
        split; [done |]. rewrite Hfail. by rewrite <- app_assoc.
Qed.

End RunFacts.

Section LifecycleFacts.

Context {float64 : Type}.
Variable FormatFloat : float64 → string.
Variable env : Env float64.
Implicit Types (history events : list (Event float64)).
Implicit Types (sd : SchemaData float64) (d : databaseManagerService).

Lemma GenerateCreateTables_ok sd :
  GenerateCreateTables FormatFloat sd
  = ((GenerateCreateTables FormatFloat sd).1, None).
Proof. by rewrite GenerateCreateTables_fmap. Qed.

Lemma GenerateForeignKeys_ok sd :
  GenerateForeignKeys sd = ((GenerateForeignKeys sd).1, None).
Proof. by rewrite GenerateForeignKeys_bind. Qed.

Lemma RegenerationRun_events cfg sd (databaseName : string) events events'
    (result : option error) :
  RegenerationRun FormatFloat cfg sd databaseName events result →
  events = events' →
  RegenerationRun FormatFloat cfg sd databaseName events' result.
Proof. by intros H <-. Qed.

(** Every run of [RegenerateDatabase] is one of the five runs. *)
Lemma RegenerateDatabase_run d sd (databaseName : string) history :
  ∃ events,
    (run env (RegenerateDatabase FormatFloat d sd databaseName) history).2
      = history ++ events
    ∧ RegenerationRun FormatFloat (databaseManagerService_config d) sd
        databaseName events
        (run env (RegenerateDatabase FormatFloat d sd databaseName)
             history).1.
Proof.
  unfold RegenerateDatabase, DropDatabase, CreateDatabase.
  set (cfg := databaseManagerService_config d).
  rewrite run_bind, (run_call env (DropDynamicDatabase cfg databaseName)).
  cbn [fst snd].
  set (rd := env history (DropDynamicDatabase cfg databaseName)).
  rewrite run_bind. clearbody rd.
  match goal with
  | |- context [run env ?p (history ++ [ev _ rd])] =>
      set (logged := run env p (history ++ [ev _ rd]))
  end.
  assert (Hdrop : logged = ((), history ++ dropEvents cfg databaseName rd)).
  { subst logged. unfold dropEvents. destruct rd as [errd|].
    - rewrite (run_call env (LogPrintf _)).
      destruct (env _ (LogPrintf _)). by rewrite <- app_assoc.
    - by rewrite run_ret. }
  rewrite Hdrop. cbn [fst snd]. clear Hdrop logged.
  rewrite run_bind, (run_call env (CreateDynamicDatabase cfg databaseName)).
  cbn [fst snd].
  destruct (env _ (CreateDynamicDatabase cfg databaseName)) as [errc|].
  { rewrite run_ret. cbn [fst snd]. eexists. split.
    - by rewrite <- !app_assoc.
    - eapply RegenerationRun_events; [apply CreateFailed | done]. }
  rewrite run_bind,
    (run_call env (GormOpen (targetDSN cfg databaseName))).
  cbn [fst snd].
  destruct (env _ (GormOpen (targetDSN cfg databaseName))) as [db|erro].
  2: { rewrite run_ret. cbn [fst snd]. eexists. split.
       - by rewrite <- !app_assoc.
       - eapply RegenerationRun_events; [apply ConnectFailed |].
         by rewrite <- !app_assoc. }
  rewrite (GenerateCreateTables_ok sd), run_bind.
  match goal with
  | |- context [run env (execLoop db tableStatementError ?l) ?h] =>
      destruct (run_execLoop env db tableStatementError l h)
        as [Hok | (done & failing & rest & err & Hsplit & Hfail)]
  end.
  2: { rewrite Hfail. cbn [fst snd]. rewrite run_ret. cbn [fst snd].
       eexists. split.
       - by rewrite <- !app_assoc.
       - eapply RegenerationRun_events;
           [by eapply TableStatementFailed |].
         by rewrite <- !app_assoc. }
  rewrite Hok. cbn [fst snd]. clear Hok.
  rewrite (GenerateForeignKeys_ok sd), run_bind.
  match goal with
  | |- context [run env (execLoop db foreignKeyStatementError ?l) ?h] =>
      destruct (run_execLoop env db foreignKeyStatementError l h)
        as [Hok | (done & failing & rest & err & Hsplit & Hfail)]
  end.
  2: { rewrite Hfail. cbn [fst snd]. rewrite run_ret. cbn [fst snd].
       eexists. split.
       - by rewrite <- !app_assoc.
       - eapply RegenerationRun_events;
           [by eapply ForeignKeyStatementFailed |].
         by rewrite <- !app_assoc. }
  rewrite Hok. cbn [fst snd]. clear Hok.
  rewrite run_bind, (run_call env (LogPrintf _)), run_ret. cbn [fst snd].
  destruct (env _ (LogPrintf _)).
  eexists. split.
  - by rewrite <- !app_assoc.
  - eapply RegenerationRun_events; [apply Regenerated |]. done.
Qed.


(** *** What the events of a run are made of *)

(** Right-nests appends and exposes the leading elements. *)
Ltac list_normal :=
  repeat (progress (rewrite <- ?app_assoc; cbn [app])).

Lemma dropEvents_steps cfg (databaseName : string) rd :
  omap stepOf (dropEvents (float64:=float64) cfg databaseName rd)
  = [StepDrop].
Proof. by destruct rd. Qed.

Lemma okEvents_steps (db : DB) (statements : list string) :
  omap stepOf (okEvents (float64:=float64) db statements)
  = StepExec <$> statements.
Proof.
  induction statements as [|s statements IH]; [done |].
  cbn. by rewrite <- IH.
Qed.

Lemma dropEvents_calm cfg (databaseName : string) rd :
  Forall (λ e, fatal e = false)
         (dropEvents (float64:=float64) cfg databaseName rd).
Proof. destruct rd; repeat constructor. Qed.

Lemma okEvents_calm (db : DB) (statements : list string) :
  Forall (λ e, fatal e = false)
         (okEvents (float64:=float64) db statements).
Proof. apply Forall_fmap, Forall_true. done. Qed.

Lemma dropEvents_ops cfg (databaseName : string) rd :
  filter (λ e, is_Some (stepOf e))
         (dropEvents (float64:=float64) cfg databaseName rd)
  = [ev (DropDynamicDatabase cfg databaseName) rd].
Proof. by destruct rd. Qed.

Lemma okEvents_ops (db : DB) (statements : list string) :
  filter (λ e, is_Some (stepOf e))
         (okEvents (float64:=float64) db statements)
  = okEvents db statements.
Proof.
  induction statements as [|s statements IH]; [done |].
  cbn [okEvents fmap list_fmap]. rewrite filter_cons_True by (by eexists).
  f_equal. apply IH.
Qed.

(** Among calm events followed by one more, only the last can be fatal. *)
Lemma fatal_is_last (calm : list (Event float64)) (x e : Event float64) :
  Forall (λ e, fatal e = false) calm →
  e ∈ calm ++ [x] → fatal e = true → e = x.
Proof.
  intros Hcalm Hin Hfatal.
  apply elem_of_app in Hin as [Hin | Hin].
  - rewrite Forall_forall in Hcalm. specialize (Hcalm e Hin). congruence.
  - by apply list_elem_of_singleton in Hin.
Qed.

Lemma fatal_at_end (calm : list (Event float64)) (x e : Event float64)
    (k : nat) :
  Forall (λ e, fatal e = false) calm →
  (calm ++ [x]) !! k = Some e → fatal e = true →
  S k = length (calm ++ [x]).
Proof.
  intros Hcalm Hk Hfatal.
  apply lookup_app_Some in Hk as [Hk | [Hlen Hk]].
  - rewrite Forall_lookup in Hcalm. specialize (Hcalm k e Hk). congruence.
  - rewrite length_app. simpl.
    apply lookup_lt_Some in Hk. simpl in Hk. lia.
Qed.

(** *** The five runs, property by property *)

Section OneRun.

Variables (cfg : Config) (sd : SchemaData float64) (databaseName : string).
Variables (events : list (Event float64)) (result : option error).
Hypothesis Hrun :
  RegenerationRun FormatFloat cfg sd databaseName events result.

Lemma run_order : omap stepOf events `prefix_of` plan FormatFloat sd.
Proof using Hrun.
  unfold plan. destruct Hrun as [rd err|rd err|rd db done s rest err Hs
                                |rd db done s rest err Hs|rd db];
    rewrite ?omap_app, ?dropEvents_steps, ?okEvents_steps;
    cbn [omap list_omap stepOf projT1 ev app]; rewrite ?Hs.
  - by eexists (_ :: _).
  - by eexists.
  - exists ((StepExec <$> rest) ++ (StepExec <$> (GenerateForeignKeys sd).1)).
    rewrite fmap_app. cbn [fmap list_fmap]. by list_normal.
  - exists (StepExec <$> rest).
    rewrite fmap_app. cbn [fmap list_fmap]. by list_normal.
  - exists []. by rewrite !app_nil_r.
Qed.

Lemma run_drop_then_create :
  ∃ rd rc rest,
    events = dropEvents cfg databaseName rd
               ++ ev (CreateDynamicDatabase cfg databaseName) rc :: rest.
Proof using Hrun.
  destruct Hrun as [rd err|rd err|rd db done s rest err Hs
                   |rd db done s rest err Hs|rd db];
    exists rd; eexists; eexists; rewrite <- ?app_assoc; reflexivity.
Qed.

(** Either the run succeeds, calm throughout and with every step of
    the plan, or it ends with its one fatal event: the create, the
    connect, or a statement, whose error names it. *)
Lemma run_calm_or_fatal :
  (result = None ∧ Forall (λ e, fatal e = false) events
   ∧ omap stepOf events = plan FormatFloat sd)
  ∨ ∃ calm x,
      events = calm ++ [x] ∧ Forall (λ e, fatal e = false) calm
      ∧ fatal x = true ∧ is_Some result
      ∧ ((stepOf x = Some StepCreate
          ∧ omap stepOf events = [StepDrop; StepCreate])
         ∨ (stepOf x = Some StepConnect
            ∧ omap stepOf events = [StepDrop; StepCreate; StepConnect])
         ∨ ∃ statement,
             stepOf x = Some (StepExec statement)
             ∧ ∃ err,
                 errorOf x = Some err
                 ∧ ((result = Some (tableStatementError err statement)
                     ∧ statement ∈ (GenerateCreateTables FormatFloat sd).1)
                    ∨ (result
                         = Some (foreignKeyStatementError err statement)
                       ∧ statement ∈ (GenerateForeignKeys sd).1))).
Proof using Hrun.
  destruct Hrun as [rd err|rd err|rd db done s rest err Hs
                   |rd db done s rest err Hs|rd db].
  - right. eexists _, _. split; [done |].
    split; [apply dropEvents_calm |]. split; [done |]. split; [done |].
    left. split; [done |]. by rewrite omap_app, dropEvents_steps.
  - right. eexists _, _. split; [done |].
    split; [| split; [done | split; [done |]]].
    + apply Forall_app. split; [apply dropEvents_calm |].
      by repeat constructor.
    + right; left. split; [done |].
      by rewrite !omap_app, dropEvents_steps.
  - right. eexists _, _. split; [done |].
    split; [| split; [done | split; [done |]]].
    + apply Forall_app. split; [apply dropEvents_calm |].
      apply Forall_app. split; [by repeat constructor | apply okEvents_calm].
    + right; right. exists s. split; [done |]. exists err. split; [done |].
      left. split; [done |]. rewrite Hs. set_solver.
  - right. eexists _, _. split; [done |].
    split; [| split; [done | split; [done |]]].
    + apply Forall_app. split; [apply dropEvents_calm |].
      apply Forall_app. split; [by repeat constructor |].
      apply Forall_app. split; apply okEvents_calm.
    + right; right. exists s. split; [done |]. exists err. split; [done |].
      right. split; [done |]. rewrite Hs. set_solver.
  - left. split; [done |]. split.
    + apply Forall_app. split; [apply dropEvents_calm |].
      apply Forall_app. split; [by repeat constructor |].
      apply Forall_app. split; [apply okEvents_calm |].
      apply Forall_app. split; [apply okEvents_calm |].
      by repeat constructor.
    + unfold plan.
      rewrite !omap_app, dropEvents_steps, !okEvents_steps.
      cbn [omap list_omap stepOf projT1 ev app]. by rewrite app_nil_r.
Qed.

(** Once an ALTER TABLE has run, every CREATE TABLE has run before it,
    on the same connection, and succeeded. *)
Lemma run_tables_first (k : nat) :
  is_Some (omap stepOf events
             !! (3 + length (GenerateCreateTables FormatFloat sd).1 + k)) →
  ∃ db, ∀ j statement,
    (GenerateCreateTables FormatFloat sd).1 !! j = Some statement →
    filter (λ e, is_Some (stepOf e)) events !! (3 + j)
    = Some (ev (DbExec db statement) None).
Proof using Hrun.
  intros Hk. apply lookup_lt_is_Some in Hk. revert Hk.
  assert (Hgo : ∀ db rd (rest : list (Event float64)) j statement,
      (GenerateCreateTables FormatFloat sd).1 !! j = Some statement →
      filter (λ e, is_Some (stepOf e))
        (dropEvents cfg databaseName rd
           ++ [ev (CreateDynamicDatabase cfg databaseName) None;
               ev (GormOpen (targetDSN cfg databaseName)) (inl db)]
           ++ okEvents db (GenerateCreateTables FormatFloat sd).1
           ++ rest) !! (3 + j)
      = Some (ev (DbExec db statement) None)).
  { intros db rd rest j statement Hj.
    rewrite filter_app, dropEvents_ops.
    rewrite !filter_app, okEvents_ops.
    rewrite !filter_cons_True by (by eexists).
    rewrite filter_nil. cbn [app].
    match goal with
    | |- (?a :: ?b :: ?c :: ?l) !! _ = _ =>
        change ((a :: b :: c :: l) !! (3 + j)) with (l !! j)
    end.
    rewrite lookup_app_l
      by (unfold okEvents; rewrite length_fmap; by eapply lookup_lt_Some).
    unfold okEvents. by rewrite list_lookup_fmap, Hj. }
  destruct Hrun as [rd err|rd err|rd db done s rest err Hs
                   |rd db done s rest err Hs|rd db];
    rewrite ?omap_app, ?dropEvents_steps, ?okEvents_steps;
    cbn [omap list_omap stepOf projT1 ev app];
    rewrite ?length_app; cbn [length]; rewrite ?length_app, ?length_fmap;
    cbn [length]; intros Hk.
  - lia.
  - lia.
  - rewrite Hs, length_app in Hk. cbn [length] in Hk. lia.
  - exists db. intros j statement Hj.
    list_normal. by apply (Hgo db rd (okEvents db done ++ [_])).
  - exists db. intros j statement Hj. by apply Hgo.
Qed.

End OneRun.
(** A statement that replied with an error is a fatal event. *)
Lemma failed_statement_fatal (e : Event float64) (statement err : string) :
  stepOf e = Some (StepExec statement) → errorOf e = Some err →
  fatal e = true.
Proof.
  destruct e as [c r]. destruct c; try done.
  cbn. intros _ ->. done.
Qed.

(** The events of a drop are the drop and a log line; statements that
    succeeded carry no error. *)
Lemma dropEvents_elem cfg (databaseName : string) rd (e : Event float64) :
  e ∈ dropEvents cfg databaseName rd →
  stepOf e = Some StepDrop ∨ stepOf e = None.
Proof.
  destruct rd; unfold dropEvents;
    rewrite ?elem_of_cons, elem_of_nil; intros [-> | [-> | []]] || intros [-> | []];
    auto.
Qed.

Lemma okEvents_elem (db : DB) (statements : list string)
    (e : Event float64) :
  e ∈ okEvents db statements → errorOf e = None.
Proof.
  unfold okEvents. intros (statement & -> & _)%list_elem_of_fmap. done.
Qed.

(** The error a run returns, in full, for the event that failed. *)
Lemma run_error_text cfg sd (databaseName : string) events
    (result : option error) (e : Event float64) (err : string) :
  RegenerationRun FormatFloat cfg sd databaseName events result →
  e ∈ events → errorOf e = Some err →
  (stepOf e = Some StepCreate →
   result = Some ("failed to create database: " +:+ err))
  ∧ (stepOf e = Some StepConnect →
     result = Some ("failed to connect to new database: " +:+ err))
  ∧ ∀ statement,
      stepOf e = Some (StepExec statement) →
      (result = Some ("failed to execute table statement: " +:+ err +:+ LF
                        +:+ "Statement: " +:+ statement)
       ∧ statement ∈ (GenerateCreateTables FormatFloat sd).1)
      ∨ (result = Some ("failed to execute foreign key statement: " +:+ err
                          +:+ LF +:+ "Statement: " +:+ statement)
         ∧ statement ∈ (GenerateForeignKeys sd).1).
Proof.
  assert (Hdrop : ∀ rd, e ∈ dropEvents cfg databaseName rd →
            (stepOf e = Some StepCreate → False)
            ∧ (stepOf e = Some StepConnect → False)
            ∧ ∀ statement, stepOf e = Some (StepExec statement) → False).
  { intros rd [Hd | Hd]%dropEvents_elem; rewrite Hd;
      repeat split; intros; discriminate. }
  assert (Hok : ∀ db statements, e ∈ okEvents db statements →
            errorOf e = Some err → False).
  { intros db statements Hin%okEvents_elem. congruence. }
  intros Hrun He Herr.
  destruct Hrun as [rd errc | rd erro | rd db done s rest errs Hs
                   | rd db done s rest errs Hs | rd db];
    rewrite ?elem_of_app, ?elem_of_cons, ?elem_of_nil in He.
  - destruct He as [He | [-> | []]].
    + destruct (Hdrop rd He) as (H1 & H2 & H3).
      repeat split; intros; exfalso; eauto.
    + cbn in Herr. simplify_eq. repeat split; intros; done.
  - destruct He as [[He | [-> | []]] | [-> | []]].
    + destruct (Hdrop rd He) as (H1 & H2 & H3).
      repeat split; intros; exfalso; eauto.
    + done.
    + cbn in Herr. simplify_eq. repeat split; intros; done.
  - destruct He as [[He | [[-> | [-> | []]] | He]] | [-> | []]].
    + destruct (Hdrop rd He) as (H1 & H2 & H3).
      repeat split; intros; exfalso; eauto.
    + done.
    + done.
    + exfalso. eauto.
    + cbn in Herr. simplify_eq. repeat split; try done.
      intros statement [= <-]. left. split; [done |].
      rewrite Hs, elem_of_app, elem_of_cons. auto.
  - destruct He as [[He | [[-> | [-> | []]] | [He | He]]] | [-> | []]].
    + destruct (Hdrop rd He) as (H1 & H2 & H3).
      repeat split; intros; exfalso; eauto.
    + done.
    + done.
    + exfalso. eauto.
    + exfalso. eauto.
    + cbn in Herr. simplify_eq. repeat split; try done.
      intros statement [= <-]. right. split; [done |].
      rewrite Hs, elem_of_app, elem_of_cons. auto.
  - destruct He as [He | [[-> | [-> | []]] | [He | [He | [-> | []]]]]].
    + destruct (Hdrop rd He) as (H1 & H2 & H3).
      repeat split; intros; exfalso; eauto.
    + done.
    + done.
    + exfalso. eauto.
    + exfalso. eauto.
    + done.
Qed.

(** C1: whatever the environment replies, a run of [RegenerateDatabase]
    performs its steps in the order drop, create, connect, every CREATE
    TABLE, every ALTER TABLE, and goes on until a create, a connect or a
    statement fails: while none has failed, no step of the plan is left
    out.  The create follows the drop whatever the drop replied (a failed
    drop only adds a warning to the log).  A failed create, connect or
    statement is the last event of the run and the call returns an error:
    failed to create database or failed to connect to new database with
    the cause, and for a statement failed to execute table statement or
    failed to execute foreign key statement with the cause and, after
    Statement:, the text of that statement.  After a failed create or
    connect no statement is executed; once an ALTER TABLE is executed
    every CREATE TABLE has been executed before it and succeeded.  The
    call returns no error exactly when every step of the plan was
    performed and no create, connect or statement failed. *)
Theorem RegenerateDatabase_lifecycle d sd (databaseName : string) history :
  let cfg := databaseManagerService_config d in
  let creates := (GenerateCreateTables FormatFloat sd).1 in
  let alters := (GenerateForeignKeys sd).1 in
  let result :=
    (run env (RegenerateDatabase FormatFloat d sd databaseName) history).1 in
  let trace :=
    (run env (RegenerateDatabase FormatFloat d sd databaseName) history).2 in
  ∃ events,
    trace = history ++ events
    ∧ omap stepOf events
        `prefix_of` [StepDrop; StepCreate; StepConnect]
                      ++ (StepExec <$> creates) ++ (StepExec <$> alters)
    ∧ ((∀ e, e ∈ events → fatal e = false) →
       omap stepOf events
       = [StepDrop; StepCreate; StepConnect]
           ++ (StepExec <$> creates) ++ (StepExec <$> alters))
    ∧ (∃ rd rc rest,
         events = dropEvents cfg databaseName rd
                    ++ ev (CreateDynamicDatabase cfg databaseName) rc :: rest)
    ∧ (∀ k e, events !! k = Some e → fatal e = true →
              S k = length events ∧ is_Some result)
    ∧ (∀ e, e ∈ events → fatal e = true →
            stepOf e = Some StepCreate ∨ stepOf e = Some StepConnect →
            ∀ statement, StepExec statement ∉ omap stepOf events)
    ∧ (∀ e err, e ∈ events → errorOf e = Some err →
         (stepOf e = Some StepCreate →
          result = Some ("failed to create database: " +:+ err))
         ∧ (stepOf e = Some StepConnect →
            result = Some ("failed to connect to new database: " +:+ err)))
    ∧ (∀ e statement err,
         e ∈ events → stepOf e = Some (StepExec statement) →
         errorOf e = Some err →
         (result = Some ("failed to execute table statement: " +:+ err
                           +:+ LF +:+ "Statement: " +:+ statement)
          ∧ statement ∈ creates)
         ∨ (result = Some ("failed to execute foreign key statement: "
                             +:+ err +:+ LF +:+ "Statement: " +:+ statement)
            ∧ statement ∈ alters))
    ∧ (∀ k, is_Some (omap stepOf events !! (3 + length creates + k)) →
            ∃ db, ∀ j statement,
              creates !! j = Some statement →
              filter (λ e, is_Some (stepOf e)) events !! (3 + j)
              = Some (ev (DbExec db statement) None))
    ∧ (result = None
       ↔ omap stepOf events
           = [StepDrop; StepCreate; StepConnect]
               ++ (StepExec <$> creates) ++ (StepExec <$> alters)
         ∧ ∀ e, e ∈ events → fatal e = false).
Proof.
  intros cfg creates alters result trace.
  destruct (RegenerateDatabase_run d sd databaseName history)
    as (events & Htrace & Hrun).
  fold cfg result in Hrun. fold trace in Htrace.
  exists events.
  pose proof (run_calm_or_fatal _ _ _ _ _ Hrun) as Hcf.
  split; [exact Htrace |].
  split; [exact (run_order _ _ _ _ _ Hrun) |].
  split.
  { intros Hcalm.
    destruct Hcf as [(_ & _ & Hplan) | (calm & x & Hev & _ & Hfatal & _)];
      [exact Hplan | exfalso].
    rewrite (Hcalm x) in Hfatal; [done |].
    rewrite Hev, elem_of_app, list_elem_of_singleton. by right. }
  split; [exact (run_drop_then_create _ _ _ _ _ Hrun) |].
  split; [| split; [| split; [| split; [| split;
    [exact (run_tables_first _ _ _ _ _ Hrun) |]]]]].
  - intros k e Hk Hfatal.
    destruct Hcf as [(_ & Hcalm & _) | (calm & x & -> & Hcalm & _ & Hres & _)].
    + rewrite Forall_lookup in Hcalm. specialize (Hcalm k e Hk). congruence.
    + split; [by eapply fatal_at_end | done].
  - intros e He Hfatal Hstep statement.
    destruct Hcf as [(_ & Hcalm & _) | (calm & x & Hev & Hcalm & _ & _ & Hx)].
    + rewrite Forall_forall in Hcalm. specialize (Hcalm e He). congruence.
    + rewrite Hev in He.
      pose proof (fatal_is_last calm x e Hcalm He Hfatal) as ->.
      destruct Hx as [[_ ->] | [[_ ->] | (s & Hs & _)]].
      * rewrite !elem_of_cons, elem_of_nil. intuition discriminate.
      * rewrite !elem_of_cons, elem_of_nil. intuition discriminate.
      * destruct Hstep; congruence.
  - intros e err He Herr.
    destruct (run_error_text _ _ _ _ _ e err Hrun He Herr) as (Hc & Ho & _).
    done.
  - intros e statement err He Hstep Herr.
    destruct (run_error_text _ _ _ _ _ e err Hrun He Herr) as (_ & _ & Hs).
    by apply Hs.
  - destruct Hcf as [(Hnone & Hcalm & Hplan)
                    | (calm & x & Hev & Hcalm & Hfatal & Hres & _)].
    + split; [| done]. intros _. split; [exact Hplan |].
      by apply Forall_forall.
    + split.
      * intros Hnone. rewrite Hnone in Hres. by destruct Hres.
      * intros [_ Hall]. specialize (Hall x).
        rewrite Hev in Hall. rewrite Hall in Hfatal; [done |].
        rewrite elem_of_app, list_elem_of_singleton. by right.
Qed.

End LifecycleFacts.

(** ** The round-trip scenario *)

Section ScenarioFacts.

Context {float64 : Type}.
Variable FormatFloat : float64 → string.
Variables (usersID postsID : string).
Variables (usersIdID usersEmailID postsIdID postsUserIdID : string).
Variables (fkID fkName version exportedAt : string).

Lemma allColumns_nil : allColumns (float64:=float64) [] = [].
Proof. done. Qed.

Lemma allColumns_cons (t : Table float64) (tables : list (Table float64)) :
  allColumns (t :: tables) = Table_Columns t ++ allColumns tables.
Proof. done. Qed.

(** C8: for the schema of the round-trip scenario, whose two tables carry
    different ids and in which the id of users.id is carried neither by
    users.email nor by posts.user_id, [GenerateCreateTables] returns
    exactly the two CREATE TABLE statements of users and posts, and
    [GenerateForeignKeys] returns exactly one ALTER TABLE statement, on
    posts, referencing users (id) with ON DELETE CASCADE ON UPDATE
    RESTRICT. *)
Theorem round_trip_scenario :
  usersID ≠ postsID →
  usersIdID ≠ usersEmailID →
  usersIdID ≠ postsUserIdID →
  let sd : SchemaData float64 :=
    scenario usersID postsID usersIdID usersEmailID postsIdID postsUserIdID
             fkID fkName version exportedAt in
  GenerateCreateTables FormatFloat sd
  = ([ "CREATE TABLE users (" +:+ LF
         +:+ "    id SERIAL NOT NULL," +:+ LF
         +:+ "    email VARCHAR(255) NOT NULL," +:+ LF
         +:+ "    PRIMARY KEY (id)," +:+ LF
         +:+ "    UNIQUE (email)" +:+ LF
         +:+ ");";
       "CREATE TABLE posts (" +:+ LF
         +:+ "    id SERIAL NOT NULL," +:+ LF
         +:+ "    user_id INTEGER NOT NULL," +:+ LF
         +:+ "    PRIMARY KEY (id)" +:+ LF
         +:+ ");" ], None)
  ∧ GenerateForeignKeys sd
    = ([ "ALTER TABLE posts ADD CONSTRAINT "
           +:+ (if decide (fkName ≠ EmptyString) then fkName
                else "fk_posts_user_id")
           +:+ " FOREIGN KEY (user_id) REFERENCES users (id)"
           +:+ " ON DELETE CASCADE ON UPDATE RESTRICT;" ], None).
Proof.
  intros Htables Hemail Huser sd. split; [reflexivity |].
  subst sd. unfold scenario.
  rewrite GenerateForeignKeys_bind.
  cbn [SchemaData_Tables SchemaData_ForeignKeys]. rewrite bind_singleton.
  rewrite (emitted_resolved _ _ "posts" "user_id" "users" "id").
  - unfold statedForeignKey, statedConstraintName, statedAction.
    cbn [scenarioForeignKey ForeignKey_Name ForeignKey_OnDelete
         ForeignKey_OnUpdate].
    rewrite (decide_True (P := "CASCADE" ∈ validActions))
      by (by apply (bool_decide_unpack _)).
    rewrite (decide_True (P := "RESTRICT" ∈ validActions))
      by (by apply (bool_decide_unpack _)).
    by case_decide.
  - unfold lastTableWithID. cbn [scenarioForeignKey ForeignKey_SourceTableId].
    rewrite !filter_cons, filter_nil. cbn [scenarioUsers scenarioPosts Table_ID].
    by rewrite decide_False, decide_True.
  - unfold lastColumnWithID.
    cbn [scenarioForeignKey ForeignKey_SourceColumnId].
    rewrite !allColumns_cons, allColumns_nil.
    cbn [scenarioUsers scenarioPosts Table_Columns app].
    rewrite !filter_cons, filter_nil. cbn [plainColumn Column_ID].
    rewrite (decide_True (P := postsUserIdID = postsUserIdID)) by done.
    by repeat case_decide.
  - unfold lastTableWithID. cbn [scenarioForeignKey ForeignKey_TargetTableId].
    rewrite !filter_cons, filter_nil. cbn [scenarioUsers scenarioPosts Table_ID].
    by rewrite decide_True, decide_False.
  - unfold lastColumnWithID.
    cbn [scenarioForeignKey ForeignKey_TargetColumnId].
    rewrite !allColumns_cons, allColumns_nil.
    cbn [scenarioUsers scenarioPosts Table_Columns app].
    rewrite !filter_cons, filter_nil. cbn [plainColumn Column_ID].
    rewrite (decide_True (P := usersIdID = usersIdID)) by done.
    rewrite (decide_False (P := usersEmailID = usersIdID)) by done.
    rewrite (decide_False (P := postsUserIdID = usersIdID)) by done.
    by case_decide.
Qed.

End ScenarioFacts.

(** ** The claims on the sample inputs *)

(** A run in which the second CREATE TABLE fails: the error names that
    statement, and neither a later statement nor an ALTER TABLE is sent. *)
Example RegenerateDatabase_second_statement_fails :
  run Sample.envSecondStatementFails
      (RegenerateDatabase Sample.FormatFloat
         (mkDatabaseManagerService Sample.cfg)
         (mkSchemaData [Sample.users; Sample.posts] [Sample.postsToUsers]
                       "1.0" EmptyString)
         "schema_db1") []
  = (Some ("failed to execute table statement: syntax error" +:+ LF
             +:+ "Statement: "
             +:+ statementOf Sample.FormatFloat Sample.posts),
     [ ev (DropDynamicDatabase Sample.cfg "schema_db1") None;
       ev (CreateDynamicDatabase Sample.cfg "schema_db1") None;
       ev (GormOpen (targetDSN Sample.cfg "schema_db1")) (inl 1%N);
       ev (DbExec 1%N (statementOf Sample.FormatFloat Sample.users)) None;
       ev (DbExec 1%N (statementOf Sample.FormatFloat Sample.posts))
          (Some "syntax error") ]).
Proof. vm_compute. reflexivity. Qed.

(** The validator on the orders table: invalid, with the error of column 0
    of table 0. *)
Lemma ValidateSchema_verdict_witness :
  ValidationResult_Valid (ValidateSchema Sample.validateOrders).1 = false
  ∧ {| ValidationError_Field := "tables[0].columns[0].dataType";
       ValidationError_Message := "Unsupported data type: MONEY";
       ValidationError_Code := "UNSUPPORTED_DATA_TYPE" |}
    ∈ ValidationResult_Errors (ValidateSchema Sample.validateOrders).1.
Proof.
  destruct (ValidateSchema_verdict Sample.validateOrders)
    as (_ & _ & _ & _ & Hunsupported & _).
  apply (Hunsupported 0 0 Sample.orders
           (Sample.column "c-orders-amount" "amount" "MONEY" None
              false false false false NilValue)).
  - reflexivity.
  - reflexivity.
  - by apply (bool_decide_unpack _).
Defined.

(** C4 (the code at the failing input): the orders schema is invalid for
    the validator, yet [CreateSchema] and [UpdateSchema] both drop, create
    and connect to the target database and execute its CREATE TABLE
    statement, and both return without error. *)
Theorem CreateSchema_UpdateSchema_materialize_invalid_schema :
  let created :=
    run Sample.env
        (CreateSchema Sample.FormatFloat Sample.service Sample.createOrders
                      "user-1") [] in
  let updated :=
    run Sample.env
        (UpdateSchema Sample.FormatFloat Sample.service "schema-1" "user-1"
                      Sample.updateOrders) [] in
  let materialized :=
    [ StepDrop; StepCreate; StepConnect;
      StepExec ("CREATE TABLE orders (" +:+ LF +:+ "    amount TEXT NOT NULL"
                  +:+ LF +:+ ");") ] in
  ValidationResult_Valid (ValidateSchema Sample.validateOrders).1 = false
  ∧ omap stepOf created.2 = materialized
  ∧ created.1.2 = None
  ∧ Schema_Status <$> created.1.1 = Some "created"
  ∧ omap stepOf updated.2 = materialized
  ∧ updated.1.2 = None
  ∧ Schema_Status <$> updated.1.1 = Some "updated".
Proof. repeat split; vm_compute; reflexivity. Qed.


(** The generator on that column and what was stated; on a UUID column
    the empty string also keeps the implicit default away. *)
Example generateColumnDefinition_empty_default :
  generateColumnDefinition Sample.FormatFloat Sample.emptyDefault
    = "note TEXT NOT NULL"
  ∧ columnHead Sample.emptyDefault
      +:+ statedDefaultClause Sample.FormatFloat Sample.emptyDefault
    = "note TEXT NOT NULL DEFAULT ''"
  ∧ generateColumnDefinition Sample.FormatFloat Sample.emptyDefaultUUID
    = "key UUID NOT NULL".
Proof. repeat split; vm_compute; reflexivity. Qed.

(** A foreign key to a table that does not exist leaves the statements of
    the others as they are. *)
Lemma GenerateForeignKeys_skips_dangling_witness :
  dangling [Sample.users; Sample.posts] Sample.postsToNowhere
  ∧ GenerateForeignKeys
      (mkSchemaData [Sample.users; Sample.posts]
         ([Sample.postsToUsers] ++ Sample.postsToNowhere :: []) "1.0"
         EmptyString)
    = GenerateForeignKeys
        (mkSchemaData [Sample.users; Sample.posts]
           ([Sample.postsToUsers] ++ []) "1.0" EmptyString).
Proof.
  assert (Hd : dangling [Sample.users; Sample.posts] Sample.postsToNowhere)
    by (by apply (bool_decide_unpack _)).
  split; [exact Hd |].
  exact (proj1 (proj2 (GenerateForeignKeys_skips_dangling
                         [Sample.users; Sample.posts] [Sample.postsToUsers]
                         Sample.postsToNowhere [] "1.0" EmptyString Hd))).
Defined.

(** The foreign key of the scenario, unnamed, gets the derived name and
    its two actions. *)
Lemma GenerateForeignKeys_constraint_name_and_actions_witness :
  GenerateForeignKeys
    (mkSchemaData [Sample.users; Sample.posts]
       ([] ++ Sample.postsToUsers :: []) "1.0" EmptyString)
  = ([ "ALTER TABLE posts ADD CONSTRAINT fk_posts_user_id"
         +:+ " FOREIGN KEY (user_id) REFERENCES users (id)"
         +:+ " ON DELETE CASCADE ON UPDATE RESTRICT;" ], None).
Proof.
  exact (GenerateForeignKeys_constraint_name_and_actions
           [Sample.users; Sample.posts] [] Sample.postsToUsers []
           "posts" "user_id" "users" "id" "1.0" EmptyString
           eq_refl eq_refl eq_refl eq_refl).
Defined.

(** The scenario with the sample ids. *)
Lemma round_trip_scenario_witness :
  length (GenerateCreateTables Sample.FormatFloat
            (scenario "t-users" "t-posts" "c-users-id" "c-users-email"
                      "c-posts-id" "c-posts-user" "fk-1" EmptyString
                      "1.0" EmptyString)).1 = 2
  ∧ GenerateForeignKeys
      (scenario (float64:=Z) "t-users" "t-posts" "c-users-id" "c-users-email"
                "c-posts-id" "c-posts-user" "fk-1" EmptyString
                "1.0" EmptyString)
    = ([ "ALTER TABLE posts ADD CONSTRAINT fk_posts_user_id"
           +:+ " FOREIGN KEY (user_id) REFERENCES users (id)"
           +:+ " ON DELETE CASCADE ON UPDATE RESTRICT;" ], None).
Proof.
  destruct (round_trip_scenario Sample.FormatFloat
              "t-users" "t-posts" "c-users-id" "c-users-email"
              "c-posts-id" "c-posts-user" "fk-1" EmptyString "1.0"
              EmptyString)
    as [Hcreate Halter]; [done | done | done |].
  split; [by rewrite Hcreate | exact Halter].
Defined.

(** Swapping users and posts swaps their two statements. *)
Lemma GenerateCreateTables_permutation_witness :
  let swap (i : nat) := match i with 0 => 1 | 1 => 0 | _ => i end in
  let sd := mkSchemaData [Sample.users; Sample.posts] [] "1.0" EmptyString in
  let sd' := mkSchemaData [Sample.posts; Sample.users] [] "1.0" EmptyString in
  SchemaData_Tables sd' ≡ₚ SchemaData_Tables sd
  ∧ ∀ i, (GenerateCreateTables Sample.FormatFloat sd').1 !! i
         = (GenerateCreateTables Sample.FormatFloat sd).1 !! swap i.
Proof.
  intros swap sd sd'.
  assert (Hperm : SchemaData_Tables sd' ≡ₚ SchemaData_Tables sd)
    by apply perm_swap.
  split; [exact Hperm |].
  destruct (GenerateCreateTables_permutation Sample.FormatFloat sd sd' Hperm)
    as (_ & Hreindex & _).
  apply (Hreindex swap).
  intros [|[|i]]; reflexivity.
Defined.

(** A foreign key whose source column id belongs to a third table and
    whose target column id is carried by users.id and, later, by
    tags.owner is emitted, with the column names label and owner. *)
Lemma GenerateForeignKeys_column_lookup_unscoped_witness :
  GenerateForeignKeys
    (mkSchemaData [Sample.users; Sample.posts; Sample.tags]
       [Sample.strayColumns] "1.0" EmptyString)
  = ([ "ALTER TABLE posts ADD CONSTRAINT fk_posts_label"
         +:+ " FOREIGN KEY (label) REFERENCES users (owner)"
         +:+ " ON DELETE RESTRICT ON UPDATE SET NULL;" ], None).
Proof.
  destruct (GenerateForeignKeys_column_lookup_unscoped
              [Sample.users; Sample.posts; Sample.tags] Sample.strayColumns
              "1.0" EmptyString)
    as (cs & ct & before_s & after_s & before_t & after_t
        & _ & _ & _ & _ & _ & _ & Hcs & Hct & Hgen).
  - exists Sample.tags,
      (Sample.column "c-tags-label" "label" "TEXT" None true false false
         false NilValue).
    split; [by apply (list_elem_of_lookup_2 _ 2) |].
    split; [by apply (list_elem_of_lookup_2 _ 0) | reflexivity].
  - exists Sample.users,
      (Sample.column "c-users-id" "id" "INT" None false true true false
         NilValue).
    split; [by apply (list_elem_of_lookup_2 _ 0) |].
    split; [by apply (list_elem_of_lookup_2 _ 0) | reflexivity].
  - rewrite (Hgen Sample.posts Sample.users eq_refl eq_refl). clear Hgen.
    assert (Hs : Column_Name cs = "label")
      by (apply (inj Some); rewrite <- Hcs; vm_compute; reflexivity).
    assert (Ht : Column_Name ct = "owner")
      by (apply (inj Some); rewrite <- Hct; vm_compute; reflexivity).
    unfold statedForeignKey, statedConstraintName. rewrite Hs, Ht.
    reflexivity.
Defined.

(** ** The generated text in closed form *)

Section ClosedFormFacts.

Context {float64 : Type}.
Variable FormatFloat : float64 → string.
Implicit Types (t : Table float64) (c : Column float64) (fk : ForeignKey).
Implicit Types (tables : list (Table float64)) (id : string).
Implicit Types (columns : list (Column float64)).
Implicit Types (sd : SchemaData float64).

(** X1: the definition of a column is its name, a space, its SQL type,
    [NOT NULL] unless the column is nullable, and its default clause, in
    this order and with nothing else. *)
Theorem generateColumnDefinition_shape c :
  generateColumnDefinition FormatFloat c
  = Column_Name c +:+ " " +:+ mappedType c
      +:+ (if Column_Nullable c then EmptyString else " NOT NULL")
      +:+ emittedDefaultClause FormatFloat c.
Proof.
  rewrite generateColumnDefinition_pieces, writeDataType_mapped.
  do 2 f_equal. f_equal.
  unfold constraintClauses.
  rewrite (writeTimestampDefault_append c (writeUUIDDefault c _)).
  rewrite (writeUUIDDefault_append c (writeDefaultValue _ c _)).
  rewrite (writeDefaultValue_append FormatFloat c (writeNullable c _)).
  rewrite <- (writeDefaults_emitted FormatFloat c).
  rewrite (writeTimestampDefault_append c (writeUUIDDefault c _)).
  rewrite (writeUUIDDefault_append c (writeDefaultValue _ c _)).
  rewrite !append_assoc. f_equal.
  unfold writeNullable, WriteString. by destruct (Column_Nullable c).
Qed.

Lemma mappedType_reads c c' :
  Column_DataType c = Column_DataType c' →
  (Column_DataType c ∈ ["INT"; "BIGINT"] →
   Column_AutoIncrement c = Column_AutoIncrement c') →
  (Column_DataType c = "VARCHAR" → Column_Length c = Column_Length c') →
  (Column_DataType c = "DECIMAL" →
   Column_Precision c = Column_Precision c'
   ∧ Column_Scale c = Column_Scale c') →
  mappedType c = mappedType c'.
Proof.
  intros Htype Hauto Hlength Hdecimal.
  unfold mappedType, typeMapping, varcharBound. rewrite <- Htype.
  cbn [assoc].
  repeat case_decide; try done.
  - rewrite Hauto; [done |]. rewrite !elem_of_cons. auto.
  - rewrite Hauto; [done |]. rewrite !elem_of_cons. auto.
  - by rewrite Hlength.
  - by destruct Hdecimal as [-> ->].
Qed.

(** X2: the definition of a column reads its name, data type,
    nullability and default value, and beyond these only [autoIncrement]
    of an INT or BIGINT column, [length] of a VARCHAR column and
    [precision] and [scale] of a DECIMAL column.  The id, [primaryKey]
    and [unique] never change it, and [autoIncrement] on a column of
    another type is ignored without notice. *)
Theorem generateColumnDefinition_reads c c' :
  Column_Name c = Column_Name c' →
  Column_DataType c = Column_DataType c' →
  Column_Nullable c = Column_Nullable c' →
  Column_DefaultValue c = Column_DefaultValue c' →
  (Column_DataType c ∈ ["INT"; "BIGINT"] →
   Column_AutoIncrement c = Column_AutoIncrement c') →
  (Column_DataType c = "VARCHAR" → Column_Length c = Column_Length c') →
  (Column_DataType c = "DECIMAL" →
   Column_Precision c = Column_Precision c'
   ∧ Column_Scale c = Column_Scale c') →
  generateColumnDefinition FormatFloat c
  = generateColumnDefinition FormatFloat c'.
Proof.
  intros Hname Htype Hnull Hdefault Hauto Hlength Hdecimal.
  rewrite !generateColumnDefinition_pieces, !writeDataType_mapped.
  rewrite (mappedType_reads c c') by done.
  unfold constraintClauses, writeTimestampDefault, writeUUIDDefault,
    writeDefaultValue, writeNullable.
  by rewrite Hname, Htype, Hnull, Hdefault.
Qed.

(** *** CREATE TABLE *)

Lemma foldl_columnStep columns (defs keys uniques : list string) :
  foldl (columnStep FormatFloat) (defs, keys, uniques) columns
  = (defs ++ (generateColumnDefinition FormatFloat <$> columns),
     keys ++ (Column_Name
                <$> filter (λ c, Column_PrimaryKey c = true) columns),
     uniques
       ++ ((λ c, "UNIQUE (" +:+ Column_Name c +:+ ")")
             <$> filter (λ c, Column_Unique c = true
                              ∧ Column_PrimaryKey c = false) columns)).
Proof.
  revert defs keys uniques.
  induction columns as [|c columns IH]; intros defs keys uniques.
  - by rewrite !app_nil_r.
  - cbn [foldl columnStep]. rewrite IH. clear IH.
    rewrite !filter_cons.
    destruct (Column_PrimaryKey c) eqn:Hpk,
             (Column_Unique c) eqn:Hu; simpl;
      repeat case_decide; try done;
      rewrite <- ?app_assoc; try done; intuition congruence.
Qed.

Lemma foldl_constraints (statement : string) (constraints : list string) :
  foldl (λ statement constraint,
           statement +:+ "," +:+ LF +:+ "    " +:+ constraint)
        statement constraints
  = statement
      +:+ concatStrings ((λ k, "," +:+ LF +:+ "    " +:+ k) <$> constraints).
Proof.
  revert statement.
  induction constraints as [|k constraints IH]; intros statement.
  - simpl. by rewrite append_nil_r.
  - cbn [foldl fmap list_fmap concatStrings foldr]. rewrite IH.
    by rewrite !append_assoc.
Qed.

Lemma statementOf_closed t :
  statementOf FormatFloat t = createTableStatement FormatFloat t.
Proof.
  unfold statementOf, tableStep, createTableStatement.
  rewrite foldl_columnStep. cbn [app head default].
  rewrite foldl_constraints.
  unfold primaryKeyClause, uniqueClauses.
  rewrite <- list_fmap_compose.
  destruct (filter (λ c, Column_PrimaryKey c = true) (Table_Columns t))
    as [|key keys]; cbn [fmap list_fmap length].
  - rewrite decide_False by lia. by rewrite !append_assoc.
  - rewrite decide_True by lia. by rewrite !append_assoc.
Qed.

(** X3: [GenerateCreateTables] never fails and emits, for every table in
    input order, one statement: CREATE TABLE with the table name, the
    column definitions in input order separated by a comma and a line
    feed, then a single PRIMARY KEY clause listing all primary-key columns
    (absent without one), then one UNIQUE clause for every unique column
    that is no primary key.  A table without columns still gets its
    statement, with an empty column list. *)
Theorem GenerateCreateTables_shape sd :
  GenerateCreateTables FormatFloat sd
  = (createTableStatement FormatFloat <$> SchemaData_Tables sd, None)
  ∧ ∀ t, Table_Columns t = [] →
         createTableStatement FormatFloat t
         = "CREATE TABLE " +:+ Table_Name t +:+ " (" +:+ LF +:+ "    "
             +:+ LF +:+ ");".
Proof.
  split.
  - rewrite GenerateCreateTables_fmap. f_equal.
    apply list_fmap_ext. intros _ t _. apply statementOf_closed.
  - intros t Hnil. unfold createTableStatement. by rewrite Hnil.
Qed.

End ClosedFormFacts.

(** ** The validator in closed form *)

Section ValidatorClosedForm.

Context {float64 : Type}.
Implicit Types (t : Table float64) (c : Column float64).
Implicit Types (tables : list (Table float64)).
Implicit Types (columns : list (Column float64)).
Implicit Types (errors : list ValidationError) (warnings : list string).

Lemma dataTypeLoop_closed (i j : nat) columns errors :
  dataTypeLoop i j columns errors
  = errors
      ++ mjoin (imap (λ k c, if decide (Column_DataType c ∈ supportedTypes)
                             then [] else [unsupportedError i (j + k) c])
                     columns).
Proof.
  revert j errors.
  induction columns as [|c columns IH]; intros j errors.
  - simpl. by rewrite app_nil_r.
  - cbn [dataTypeLoop]. rewrite IH, imap_cons. clear IH.
    cbn [mjoin list_join]. rewrite Nat.add_0_r.
    assert (imap ((λ k c', if decide (Column_DataType c' ∈ supportedTypes)
                           then [] else [unsupportedError i (j + k) c']) ∘ S)
                 columns
            = imap (λ k c', if decide (Column_DataType c' ∈ supportedTypes)
                            then [] else [unsupportedError i (S j + k) c'])
                   columns) as ->.
    { apply imap_ext. intros k c' _. simpl. by rewrite Nat.add_succ_r. }
    destruct (index_bool SupportedDataTypes (Column_DataType c)) eqn:Hs;
      simpl.
    + rewrite decide_True by (by apply SupportedDataTypes_stated). done.
    + rewrite decide_False.
      * by rewrite <- app_assoc.
      * rewrite <- SupportedDataTypes_stated. by rewrite Hs.
Qed.

Lemma tablesLoop_closed (i : nat) tables errors warnings :
  (tablesLoop i tables errors warnings).1
  = errors
      ++ mjoin (imap (λ k t, columnErrors (i + k) (Table_Columns t)) tables).
Proof.
  revert i errors warnings.
  induction tables as [|t tables IH]; intros i errors warnings.
  - simpl. by rewrite app_nil_r.
  - cbn [tablesLoop]. rewrite IH, imap_cons, dataTypeLoop_closed. clear IH.
    cbn [mjoin list_join]. rewrite Nat.add_0_r, <- app_assoc.
    do 2 f_equal. f_equal. apply imap_ext. intros k t' _. simpl.
    by rewrite Nat.add_succ_r.
Qed.

(** X4: the whole result of [ValidateSchema] in closed form.  The errors
    are the MISSING_TABLES error when there is no table, followed by one
    UNSUPPORTED_DATA_TYPE error for every column of unsupported type, in
    table order and then column order, and nothing else; the verdict is
    that this list is empty.  Only the tables are read: two requests with
    the same tables get the same result, whatever their names and foreign
    keys, so foreign keys are never checked. *)
Theorem ValidateSchema_closed_form (request : SchemaValidationRequest float64) :
  let tables := SchemaValidationRequest_Tables request in
  ValidateSchema request
  = ({| ValidationResult_Valid :=
          bool_decide (length (schemaErrors tables) = 0);
        ValidationResult_Errors := schemaErrors tables;
        ValidationResult_Warnings :=
          primaryKeyWarning <$> filter noPrimaryKey tables |}, None)
  ∧ ∀ name foreignKeys,
      ValidateSchema (mkSchemaValidationRequest name tables foreignKeys)
      = ValidateSchema request.
Proof.
  intros tables.
  assert (Hclosed : ∀ request' : SchemaValidationRequest float64,
    ValidateSchema request'
    = ({| ValidationResult_Valid :=
            bool_decide
              (length (schemaErrors
                         (SchemaValidationRequest_Tables request')) = 0);
          ValidationResult_Errors :=
            schemaErrors (SchemaValidationRequest_Tables request');
          ValidationResult_Warnings :=
            primaryKeyWarning
              <$> filter noPrimaryKey
                    (SchemaValidationRequest_Tables request') |}, None)).
  { intros request'. unfold ValidateSchema.
    pose proof (tablesLoop_closed 0
                  (SchemaValidationRequest_Tables request')) as Herrors.
    pose proof (tablesLoop_warnings 0
                  (SchemaValidationRequest_Tables request')) as Hwarnings.
    set (errors0 := if decide (length
                          (SchemaValidationRequest_Tables request') = 0)
                    then _ else _).
    specialize (Herrors errors0 []). specialize (Hwarnings errors0 []).
    destruct (tablesLoop _ _ _ _) as [errors warnings].
    simpl in Herrors, Hwarnings. subst errors warnings.
    assert (errors0
              ++ mjoin (imap (λ k t, columnErrors k (Table_Columns t))
                             (SchemaValidationRequest_Tables request'))
            = schemaErrors (SchemaValidationRequest_Tables request')) as ->.
    { unfold schemaErrors, errors0, missingTablesError.
      by destruct (SchemaValidationRequest_Tables request'). }
    done. }
  split; [apply Hclosed |].
  intros name foreignKeys. by rewrite !Hclosed.
Qed.

End ValidatorClosedForm.

(** ** Foreign keys: ids that are unique, ids that are not *)

Section ForeignKeyFacts.

Context {float64 : Type}.
Variable FormatFloat : float64 → string.
Implicit Types (t : Table float64) (c : Column float64) (fk : ForeignKey).
Implicit Types (tables : list (Table float64)) (id : string).
Implicit Types (sd : SchemaData float64).

(** Among carriers of distinct keys at most one carries a given key. *)
Lemma filter_key_unique {A} (key : A → string) (l : list A) id :
  NoDup (key <$> l) → (length (filter (λ x, key x = id) l) ≤ 1)%nat.
Proof.
  induction l as [|x l IH]; [simpl; lia |].
  rewrite fmap_cons, NoDup_cons, filter_cons. intros [Hx Hl].
  case_decide as Hid; [| by apply IH].
  destruct (filter (λ x, key x = id) l) as [|y ys] eqn:Hfilter;
    [simpl; lia |].
  exfalso. apply Hx.
  assert (y ∈ filter (λ x, key x = id) l) as Hy
    by (rewrite Hfilter; constructor).
  apply list_elem_of_filter in Hy as [Hkey Hy].
  apply list_elem_of_fmap. exists y. split; [congruence | done].
Qed.

Lemma last_filter_Permutation {A} (key : A → string) (l l' : list A) id :
  l ≡ₚ l' → NoDup (key <$> l) →
  last (filter (λ x, key x = id) l) = last (filter (λ x, key x = id) l').
Proof.
  intros Hperm Hnodup.
  pose proof (filter_key_unique key l id Hnodup) as Hlen.
  assert (filter (λ x, key x = id) l ≡ₚ filter (λ x, key x = id) l')
    as Hfilter by (by rewrite Hperm).
  destruct (filter (λ x, key x = id) l) as [|x [|y ys]].
  - apply Permutation_nil_l in Hfilter. by rewrite <- Hfilter.
  - apply Permutation_singleton_l in Hfilter. by rewrite <- Hfilter.
  - simpl in Hlen. lia.
Qed.

Lemma lookupMaps_Permutation tables tables' :
  tables ≡ₚ tables' →
  NoDup (Table_ID <$> tables) →
  NoDup (Column_ID <$> allColumns tables) →
  foldl lookupStep (∅, ∅) tables = foldl lookupStep (∅, ∅) tables'.
Proof.
  intros Hperm Htables Hcolumns.
  assert (∀ p q : gmap string string * gmap string string,
            p.1 = q.1 → p.2 = q.2 → p = q) as Hpair
    by (intros [] []; simpl; congruence).
  apply Hpair; apply map_eq; intros id.
  - rewrite !tableMap_lookup. unfold lastTableWithID.
    by rewrite (last_filter_Permutation Table_ID tables tables').
  - rewrite !columnMap_lookup. unfold lastColumnWithID.
    rewrite (last_filter_Permutation Column_ID (allColumns tables)
               (allColumns tables')); [done | | done].
    unfold allColumns. by rewrite Hperm.
Qed.

(** X5: when no two tables share an id and no two columns of the schema
    share an id, the ALTER TABLE statements do not depend on the order of
    the tables: reordering the tables leaves the result of
    [GenerateForeignKeys] unchanged. *)
Theorem GenerateForeignKeys_table_order sd sd' :
  SchemaData_Tables sd ≡ₚ SchemaData_Tables sd' →
  SchemaData_ForeignKeys sd = SchemaData_ForeignKeys sd' →
  NoDup (Table_ID <$> SchemaData_Tables sd) →
  NoDup (Column_ID <$> allColumns (SchemaData_Tables sd)) →
  GenerateForeignKeys sd = GenerateForeignKeys sd'.
Proof.
  intros Hperm Hfks Htables Hcolumns.
  rewrite !GenerateForeignKeys_bind, <- Hfks.
  by rewrite (lookupMaps_Permutation _ _ Hperm Htables Hcolumns).
Qed.

(** X6: the table lookups of [GenerateForeignKeys] take the last table
    that carries the id.  When each of the two table ids of a foreign key
    matches some table, both lookups succeed, each with the name of the
    last table, in input order, that carries the id; so of two tables
    with the same id the earlier one is never referenced, and the
    statement names the later one. *)
Theorem GenerateForeignKeys_table_lookup_last tables fk
    (version exportedAt : string) :
  ForeignKey_SourceTableId fk ∈ Table_ID <$> tables →
  ForeignKey_TargetTableId fk ∈ Table_ID <$> tables →
  ∃ ts tt before_s after_s before_t after_t,
    tables = before_s ++ ts :: after_s
    ∧ Table_ID ts = ForeignKey_SourceTableId fk
    ∧ Forall (λ t, Table_ID t ≠ ForeignKey_SourceTableId fk) after_s
    ∧ tables = before_t ++ tt :: after_t
    ∧ Table_ID tt = ForeignKey_TargetTableId fk
    ∧ Forall (λ t, Table_ID t ≠ ForeignKey_TargetTableId fk) after_t
    ∧ (foldl lookupStep (∅, ∅) tables).1 !! ForeignKey_SourceTableId fk
      = Some (Table_Name ts)
    ∧ (foldl lookupStep (∅, ∅) tables).1 !! ForeignKey_TargetTableId fk
      = Some (Table_Name tt)
    ∧ ∀ cs ct,
        lastColumnWithID tables (ForeignKey_SourceColumnId fk) = Some cs →
        lastColumnWithID tables (ForeignKey_TargetColumnId fk) = Some ct →
        GenerateForeignKeys (mkSchemaData tables [fk] version exportedAt)
        = ([statedForeignKey (Table_Name ts) (Column_Name cs)
                             (Table_Name tt) (Column_Name ct) fk], None).
Proof.
  intros Hs Ht.
  destruct (lastTableWithID tables (ForeignKey_SourceTableId fk))
    as [ts|] eqn:Hts; [| by apply lastTableWithID_None in Hts].
  destruct (lastTableWithID tables (ForeignKey_TargetTableId fk))
    as [tt|] eqn:Htt; [| by apply lastTableWithID_None in Htt].
  pose proof Hts as Hlast_s. pose proof Htt as Hlast_t.
  unfold lastTableWithID in Hlast_s, Hlast_t.
  pose proof (last_Some_elem_of _ _ Hlast_s) as Hin_s.
  pose proof (last_Some_elem_of _ _ Hlast_t) as Hin_t.
  apply list_elem_of_filter in Hin_s as [Hid_s _].
  apply list_elem_of_filter in Hin_t as [Hid_t _].
  apply last_filter_Some in Hlast_s
    as (before_s & after_s & Hsplit_s & Hafter_s).
  apply last_filter_Some in Hlast_t
    as (before_t & after_t & Hsplit_t & Hafter_t).
  exists ts, tt, before_s, after_s, before_t, after_t.
  rewrite !tableMap_lookup, Hts, Htt.
  repeat split; try done.
  intros cs ct Hcs Hct.
  rewrite GenerateForeignKeys_bind.
  cbn [SchemaData_Tables SchemaData_ForeignKeys]. rewrite bind_singleton.
  by rewrite (emitted_resolved tables fk (Table_Name ts) (Column_Name cs)
                (Table_Name tt) (Column_Name ct));
    rewrite ?Hts, ?Htt, ?Hcs, ?Hct.
Qed.

Lemma emitted_startsWith tables fk (s : string) :
  s ∈ foreignKeyStep (foldl lookupStep (∅, ∅) tables).1
                     (foldl lookupStep (∅, ∅) tables).2 [] fk →
  startsWith "ALTER TABLE " s.
Proof.
  destruct (decide (dangling tables fk)) as [Hd|Hnd].
  - rewrite (emitted_dangling tables fk Hd). by intros ?%elem_of_nil.
  - destruct (emitted_not_dangling tables fk Hnd)
      as (st & sc & tt & tc & Hst & Hsc & Htt & Htc).
    rewrite (emitted_resolved tables fk st sc tt tc) by done.
    intros ->%list_elem_of_singleton. by eexists.
Qed.

(** X7: the two kinds of statements never mix.  [GenerateCreateTables]
    emits exactly one statement per table and each starts with
    CREATE TABLE; every statement of [GenerateForeignKeys] starts with
    ALTER TABLE; so no statement belongs to both results. *)
Theorem generated_statement_kinds sd :
  let creates := (GenerateCreateTables FormatFloat sd).1 in
  let alters := (GenerateForeignKeys sd).1 in
  length creates = length (SchemaData_Tables sd)
  ∧ Forall (startsWith "CREATE TABLE ") creates
  ∧ Forall (startsWith "ALTER TABLE ") alters
  ∧ ∀ s, s ∈ creates → s ∉ alters.
Proof.
  intros creates alters.
  assert (Hcreates : Forall (startsWith "CREATE TABLE ") creates).
  { subst creates. rewrite GenerateCreateTables_fmap. cbn [fst].
    apply Forall_fmap, Forall_true. intros t. unfold compose.
    rewrite statementOf_closed. by eexists. }
  assert (Halters : Forall (startsWith "ALTER TABLE ") alters).
  { subst alters. rewrite GenerateForeignKeys_bind. cbn [fst].
    apply Forall_forall. intros s Hs.
    apply list_elem_of_bind in Hs as (fk & Hs & _).
    by eapply emitted_startsWith. }
  split; [| split; [done | split; [done |]]].
  - subst creates. rewrite GenerateCreateTables_fmap. cbn [fst].
    by rewrite length_fmap.
  - intros s Hc Ha.
    rewrite Forall_forall in Hcreates, Halters.
    destruct (Hcreates s Hc) as [rest ->].
    destruct (Halters _ Ha) as [rest' Heq]. discriminate Heq.
Qed.

End ForeignKeyFacts.

(** ** The runs of [CreateSchema] and [UpdateSchema] *)

Section ServiceRunFacts.

Context {float64 : Type}.
Variable FormatFloat : float64 → string.
Variable env : Env float64.
Implicit Types (history events : list (Event float64)).
Implicit Types (s : schemaService).

(** Runs one call of a program. *)
Ltac run_call_step :=
  match goal with
  | |- context [run env (call ?c ≫= _) _] =>
      rewrite run_bind, (run_call env c); cbn [fst snd]
  end.

(** Every run of [CreateSchema] is one of four runs. *)
Lemma CreateSchema_run s (request : CreateSchemaRequest float64)
    (userID : string) history :
  let name := CreateSchemaRequest_Name request in
  let cfg := databaseManagerService_config (schemaService_databaseManager s) in
  let out := run env (CreateSchema FormatFloat s request userID) history in
  (∃ existing,
     env history (RepoGetByNameAndUserID name userID) = inl existing
     ∧ out = ((None, Some ("schema with name '" +:+ name
                             +:+ "' already exists")),
              history
                ++ [ev (RepoGetByNameAndUserID name userID) (inl existing)]))
  ∨ ∃ missing u id now saved,
      let prelude := creationPrelude request userID missing u id now in
      let record := newRecord request userID u id now in
      env history (RepoGetByNameAndUserID name userID) = inr missing
      ∧ ((∃ err,
            out = ((None, Some ("failed to create schema: " +:+ err)),
                   history ++ prelude
                     ++ [ev (RepoCreate record) (saved, Some err)]))
         ∨ (∃ regen err reply,
              RegenerationRun FormatFloat cfg (Schema_SchemaDefinition saved)
                (Schema_DatabaseName saved) regen (Some err)
              ∧ out = ((None, Some ("failed to generate database: " +:+ err)),
                       history ++ prelude
                         ++ [ev (RepoCreate record) (saved, None)] ++ regen
                         ++ [ev (RepoUpdate (setStatus saved "error")) reply]))
         ∨ (∃ regen final err,
              RegenerationRun FormatFloat cfg (Schema_SchemaDefinition saved)
                (Schema_DatabaseName saved) regen None
              ∧ out = ((Some final, None),
                       history ++ prelude
                         ++ [ev (RepoCreate record) (saved, None)] ++ regen
                         ++ statusEvents (setStatus saved "created")
                              final err))).
Proof.
  intros name cfg out. subst name cfg out. unfold CreateSchema.
  run_call_step.
  destruct (env history (RepoGetByNameAndUserID _ userID))
    as [existing|missing] eqn:Hfound.
  { left. exists existing. split; [done |]. by rewrite run_ret. }
  right.
  run_call_step.
  match goal with |- context [ev UuidNew ?r] => set (u := r) end.
  run_call_step.
  match goal with |- context [[ev UuidNew ?r]] =>
    match r with u => fail 1 | _ => set (id := r) end end.
  run_call_step.
  match goal with |- context [ev TimeNowRFC3339 ?r] => set (now := r) end.
  clearbody u id now.
  fold (newRecord request userID u id now).
  set (record := newRecord request userID u id now).
  run_call_step.
  match goal with
  | |- context [env ?h (RepoCreate record)] =>
      destruct (env h (RepoCreate record)) as [saved [err|]]
  end.
  { exists missing, u, id, now, saved. split; [done |]. left. exists err.
    rewrite run_ret. unfold creationPrelude.
    by rewrite <- !app_assoc. }
  exists missing, u, id, now, saved. split; [done |]. right.
  rewrite run_bind.
  match goal with
  | |- context [run env (RegenerateDatabase FormatFloat ?d ?sd ?n) ?h] =>
      destruct (RegenerateDatabase_run FormatFloat env d sd n h)
        as (regen & Hevents & Hrun);
      destruct (run env (RegenerateDatabase FormatFloat d sd n) h)
        as [result after]
  end.
  cbn [fst snd] in *. subst after.
  destruct result as [err|].
  - left. run_call_step. rewrite run_ret.
    eexists regen, err, _. split; [exact Hrun |].
    unfold creationPrelude. by rewrite <- !app_assoc.
  - right. run_call_step.
    match goal with
    | |- context [env ?h (RepoUpdate ?r)] =>
        destruct (env h (RepoUpdate r)) as [final err]
    end.
    exists regen, final, err. split; [exact Hrun |].
    unfold creationPrelude, statusEvents.
    rewrite run_bind.
    destruct err as [err|].
    + rewrite (run_call env (LogPrintf _)), run_ret. cbn [fst snd].
      match goal with
      | |- context [env ?h (LogPrintf ?m)] => destruct (env h (LogPrintf m))
      end.
      by rewrite <- !app_assoc.
    + rewrite !run_ret. cbn [fst snd]. by rewrite <- !app_assoc.
Qed.


(** *** What the events of these runs are *)

Lemma creationPrelude_quiet (request : CreateSchemaRequest float64)
    (userID : string) missing u id now :
  Forall (λ e, isStep e = false ∧ isWrite e = false)
         (creationPrelude request userID missing u id now).
Proof. by repeat constructor. Qed.

Lemma statusEvents_quiet (schema final : Schema float64) err :
  Forall (λ e, isStep e = false ∧ createFailure e = None)
         (statusEvents schema final err).
Proof. destruct err; by repeat constructor. Qed.

Lemma RegenerationRun_no_write cfg (sd : SchemaData float64)
    (databaseName : string) events (result : option error) :
  RegenerationRun FormatFloat cfg sd databaseName events result →
  Forall (λ e, isWrite e = false ∧ createFailure e = None
               ∧ isNameLookup e = false) events.
Proof.
  assert (Hdrop : ∀ rd, Forall (λ e : Event float64,
                                  isWrite e = false ∧ createFailure e = None
                                  ∧ isNameLookup e = false)
                               (dropEvents cfg databaseName rd)).
  { intros [err|]; by repeat constructor. }
  assert (Hok : ∀ db statements,
            Forall (λ e : Event float64,
                      isWrite e = false ∧ createFailure e = None
                      ∧ isNameLookup e = false)
                   (okEvents db statements)).
  { intros db statements. apply Forall_fmap, Forall_true. done. }
  destruct 1; rewrite ?Forall_app; repeat split;
    try apply Hdrop; try apply Hok; by repeat constructor.
Qed.

(** X8: [CreateSchema] writes the record before it touches any database.
    When the name is taken for the user, the name lookup is the only
    call made and the error says so.  Every drop, create, connect or
    statement of the run comes after a [Create] of the repository that
    succeeded; and when that [Create] fails, the call returns its error
    and the run holds no such step at all. *)
Theorem CreateSchema_metadata_first s (request : CreateSchemaRequest float64)
    (userID : string) history :
  let name := CreateSchemaRequest_Name request in
  let out := run env (CreateSchema FormatFloat s request userID) history in
  ∃ events,
    out.2 = history ++ events
    ∧ (∀ existing,
         env history (RepoGetByNameAndUserID name userID) = inl existing →
         out.1 = (None, Some ("schema with name '" +:+ name
                                +:+ "' already exists"))
         ∧ events = [ev (RepoGetByNameAndUserID name userID) (inl existing)])
    ∧ (∀ k e, events !! k = Some e → isStep e = true →
         ∃ j record saved,
           j < k ∧ events !! j = Some (ev (RepoCreate record) (saved, None)))
    ∧ (∀ e err, e ∈ events → createFailure e = Some err →
         out.1 = (None, Some ("failed to create schema: " +:+ err))
         ∧ Forall (λ e, isStep e = false) events).
Proof.
  intros name out.
  destruct (CreateSchema_run s request userID history)
    as [(existing & Hfound & Hout)
       | (missing & u & id & now & saved & Hfound
          & [(err & Hout) | [(regen & err & reply & Hrun & Hout)
                            | (regen & final & err & Hrun & Hout)]])];
    fold name in Hfound, Hout; fold out in Hout; rewrite Hout; cbn [fst snd].
  - eexists. split; [done |]. split; [| split].
    + intros existing' Hfound'. rewrite Hfound' in Hfound. by simplify_eq.
    + intros [|k] e Hk Hstep; simplify_eq/=.
    + intros e err ->%list_elem_of_singleton. done.
  - eexists. split; [done |]. split; [| split].
    + intros existing Hfound'. rewrite Hfound' in Hfound. done.
    + intros k e Hk Hstep. exfalso.
      destruct k as [|[|[|[|[|k]]]]]; simplify_eq/=.
    + intros e err' He Hfail. unfold creationPrelude in *.
      rewrite !elem_of_app, !elem_of_cons, elem_of_nil in He.
      destruct He as [[->|[->|[->|[->|[]]]]] | [->|[]]]; simplify_eq/=.
      split; [done |]. by repeat constructor.
  - pose proof (RegenerationRun_no_write _ _ _ _ _ Hrun) as Hregen.
    eexists. split; [done |]. split; [| split].
    + intros existing Hfound'. rewrite Hfound' in Hfound. done.
    + intros k e Hk Hstep.
      destruct k as [|[|[|[|[|k]]]]]; simplify_eq/=.
      exists 4, (newRecord request userID u id now), saved.
      split; [lia | done].
    + intros e err' He Hfail. exfalso. unfold creationPrelude in *.
      rewrite !elem_of_app, !elem_of_cons, elem_of_nil in He.
      destruct He as [[->|[->|[->|[->|[]]]]] | [[->|[]] | [He | [->|[]]]]];
        simplify_eq/=.
      rewrite Forall_forall in Hregen.
      destruct (Hregen e He) as (_ & Hnone & _). congruence.
  - pose proof (RegenerationRun_no_write _ _ _ _ _ Hrun) as Hregen.
    eexists. split; [done |]. split; [| split].
    + intros existing Hfound'. rewrite Hfound' in Hfound. done.
    + intros k e Hk Hstep.
      destruct k as [|[|[|[|[|k]]]]]; simplify_eq/=.
      exists 4, (newRecord request userID u id now), saved.
      split; [lia | done].
    + intros e err' He Hfail. exfalso. unfold creationPrelude in *.
      rewrite !elem_of_app, !elem_of_cons, elem_of_nil in He.
      destruct He as [[->|[->|[->|[->|[]]]]] | [[->|[]] | [He | He]]];
        simplify_eq/=.
      * rewrite Forall_forall in Hregen.
        destruct (Hregen e He) as (_ & Hnone & _). congruence.
      * pose proof (statusEvents_quiet (setStatus saved "created")
                      final err) as Hquiet.
        rewrite Forall_forall in Hquiet.
        destruct (Hquiet e He) as [_ Hnone]. congruence.
Qed.


(** X9: what [CreateSchema] does, run by run.  Every run is one of
    three.  The name is taken: the lookup is the only call and the call
    fails with already exists.  Otherwise the lookup found nothing and
    two uuids and the time are asked for, then the record is handed to
    [Create].  The record could not be saved: nothing follows the failed
    [Create] and the call fails with failed to create schema and the
    cause.  The record was saved: the events that follow are a run of
    [RegenerateDatabase] on the definition and the database name of the
    record as the repository returned it, and then one write of that
    record with only its status changed: to error when the regeneration
    failed, the call returning failed to generate database and the
    cause, and to created when it succeeded, the call returning the
    schema also when this last write fails, which is only logged. *)
Theorem CreateSchema_status_follows_regeneration s
    (request : CreateSchemaRequest float64) (userID : string) history :
  let name := CreateSchemaRequest_Name request in
  let cfg := databaseManagerService_config (schemaService_databaseManager s) in
  let out := run env (CreateSchema FormatFloat s request userID) history in
  ∃ events,
    out.2 = history ++ events
    ∧ ((∃ existing,
          events = [ev (RepoGetByNameAndUserID name userID) (inl existing)]
          ∧ out.1 = (None, Some ("schema with name '" +:+ name
                                   +:+ "' already exists")))
       ∨ ∃ missing u id now saved,
           let before :=
             [ ev (RepoGetByNameAndUserID name userID) (inr missing);
               ev UuidNew u; ev UuidNew id; ev TimeNowRFC3339 now ] in
           let record := newRecord request userID u id now in
           (∃ err,
              events = before ++ [ev (RepoCreate record) (saved, Some err)]
              ∧ out.1 = (None, Some ("failed to create schema: " +:+ err)))
           ∨ ∃ regen result written final failure rest,
               events
                 = before ++ ev (RepoCreate record) (saved, None)
                     :: regen
                     ++ ev (RepoUpdate written) (final, failure) :: rest
               ∧ RegenerationRun FormatFloat cfg
                   (Schema_SchemaDefinition saved)
                   (Schema_DatabaseName saved) regen result
               ∧ match result with
                 | Some err =>
                     statusWritten saved "error" written
                     ∧ rest = []
                     ∧ out.1 = (None, Some ("failed to generate database: "
                                              +:+ err))
                 | None =>
                     statusWritten saved "created" written
                     ∧ rest = statusWarning failure
                     ∧ out.1 = (Some final, None)
                 end).
Proof.
  intros name cfg out.
  destruct (CreateSchema_run s request userID history)
    as [(existing & Hfound & Hout)
       | (missing & u & id & now & saved & Hfound
          & [(err & Hout) | [(regen & err & reply & Hrun & Hout)
                            | (regen & final & err & Hrun & Hout)]])];
    fold name out in Hout; fold cfg in Hrun || idtac;
    rewrite Hout; clear Hout; cbn [fst snd];
    (eexists; split; [done |]).
  - left. by exists existing.
  - right. exists missing, u, id, now, saved. left. by exists err.
  - right. exists missing, u, id, now, saved. right.
    destruct reply as [final failure].
    exists regen, (Some err), (setStatus saved "error"), final, failure, [].
    split; [done |]. split; [done |]. by repeat split.
  - right. exists missing, u, id, now, saved. right.
    exists regen, None, (setStatus saved "created"), final, err,
      (statusWarning err).
    split; [done |]. split; [done |]. by repeat split.
Qed.

(** *** The name of the database *)

Lemma characters_app (a b : string) :
  characters (a +:+ b) = characters a ++ characters b.
Proof.
  induction a as [|x a IH]; [done |].
  change (x :: characters (a +:+ b) = x :: (characters a ++ characters b)).
  by rewrite IH.
Qed.

Lemma ReplaceAllDash_no_dash (text : string) :
  "-"%char ∉ characters (ReplaceAllDash text).
Proof.
  induction text as [|x text IH]; simpl.
  - apply not_elem_of_nil.
  - rewrite not_elem_of_cons. split; [| done].
    destruct (Ascii.eqb x "-") eqn:Hx; [done |].
    apply Ascii.eqb_neq in Hx. congruence.
Qed.

Lemma ReplaceAllDash_length (text : string) :
  String.length (ReplaceAllDash text) = String.length text.
Proof. induction text as [|x text IH]; simpl; congruence. Qed.

Lemma createdRecord_write (e : Event float64) record :
  createdRecord e = Some record → isWrite e = true.
Proof. destruct e as [[] r]; done. Qed.

(** X10: the record that [CreateSchema] hands to the repository.  Its
    database name is schema_ followed by the first uuid drawn, with every
    dash replaced by an underscore, so it holds no dash and does not
    derive from the name or the id of the schema; its id is the second
    uuid drawn; its status is creating, its version 1.0, and its
    definition holds the tables and the foreign keys of the request as
    they came. *)
Theorem CreateSchema_record s (request : CreateSchemaRequest float64)
    (userID : string) history :
  let out := run env (CreateSchema FormatFloat s request userID) history in
  ∃ events,
    out.2 = history ++ events
    ∧ ∀ e record, e ∈ events → createdRecord e = Some record →
        ∃ u id now,
          events !! 1 = Some (ev UuidNew u)
          ∧ events !! 2 = Some (ev UuidNew id)
          ∧ events !! 3 = Some (ev TimeNowRFC3339 now)
          ∧ record = newRecord request userID u id now
          ∧ Schema_DatabaseName record = "schema_" +:+ ReplaceAllDash u
          ∧ ("-"%char ∉ characters (Schema_DatabaseName record))
          ∧ String.length (Schema_DatabaseName record)
            = 7 + String.length u.
Proof.
  intros out.
  assert (Hrecord : ∀ u id now,
    Schema_DatabaseName (newRecord request userID u id now)
      = "schema_" +:+ ReplaceAllDash u
    ∧ ("-"%char ∉ characters
         (Schema_DatabaseName (newRecord request userID u id now)))
    ∧ String.length (Schema_DatabaseName (newRecord request userID u id now))
      = 7 + String.length u).
  { intros u id now. cbn [newRecord Schema_DatabaseName].
    split; [done |]. split.
    - rewrite characters_app, not_elem_of_app. split.
      + cbn [characters]. rewrite !not_elem_of_cons.
        repeat split; try discriminate. apply not_elem_of_nil.
      + apply ReplaceAllDash_no_dash.
    - change (7 + String.length (ReplaceAllDash u) = 7 + String.length u).
      by rewrite ReplaceAllDash_length. }
  destruct (CreateSchema_run s request userID history)
    as [(existing & Hfound & Hout)
       | (missing & u & id & now & saved & Hfound
          & [(err & Hout) | [(regen & err & reply & Hrun & Hout)
                            | (regen & final & err & Hrun & Hout)]])];
    fold out in Hout; rewrite Hout; clear Hout; cbn [fst snd].
  - eexists. split; [done |].
    intros e record ->%list_elem_of_singleton. done.
  - eexists. split; [done |]. intros e record He Hcreated.
    exists u, id, now. do 3 (split; [done |]).
    unfold creationPrelude in He.
    rewrite !elem_of_app, !elem_of_cons, elem_of_nil in He.
    destruct He as [[->|[->|[->|[->|[]]]]] | [->|[]]];
      try discriminate Hcreated.
    injection Hcreated as <-. split; [done |]. apply Hrecord.
  - pose proof (RegenerationRun_no_write _ _ _ _ _ Hrun) as Hregen.
    eexists. split; [done |]. intros e record He Hcreated.
    exists u, id, now. do 3 (split; [done |]).
    unfold creationPrelude in He.
    rewrite !elem_of_app, !elem_of_cons, elem_of_nil in He.
    destruct He as [[->|[->|[->|[->|[]]]]] | [[->|[]] | [He | [->|[]]]]];
      try discriminate Hcreated.
    + injection Hcreated as <-. split; [done |]. apply Hrecord.
    + rewrite Forall_forall in Hregen. destruct (Hregen e He) as (Hw & _).
      apply createdRecord_write in Hcreated. congruence.
  - pose proof (RegenerationRun_no_write _ _ _ _ _ Hrun) as Hregen.
    eexists. split; [done |]. intros e record He Hcreated.
    exists u, id, now. do 3 (split; [done |]).
    unfold creationPrelude, statusEvents in He.
    rewrite !elem_of_app, !elem_of_cons in He.
    destruct He as [[->|[->|[->|[->|He]]]] | [[->|He] | [He | [->|He]]]];
      try discriminate Hcreated.
    + by apply elem_of_nil in He.
    + injection Hcreated as <-. split; [done |]. apply Hrecord.
    + by apply elem_of_nil in He.
    + rewrite Forall_forall in Hregen. destruct (Hregen e He) as (Hw & _).
      apply createdRecord_write in Hcreated. congruence.
    + destruct err; [apply list_elem_of_singleton in He as ->
                    | apply elem_of_nil in He]; done.
Qed.


(** *** [UpdateSchema] *)

(** What [UpdateSchema] does once the stored record passed the name
    check: one of three runs. *)
Lemma UpdateSchema_run_saved s (stored : Schema float64)
    (request : UpdateSchemaRequest float64) history
    (rest : string → Prog float64
                       (option (Schema float64) * option error)) :
  let cfg := databaseManagerService_config (schemaService_databaseManager s) in
  (∀ now, rest now
     = ('(schema, err) ← call (RepoUpdate (updatedRecord stored request now));
        match err with
        | Some err => mret (None, Some ("failed to update schema: " +:+ err))
        | None =>
        err ← RegenerateDatabase FormatFloat (schemaService_databaseManager s)
                (Schema_SchemaDefinition schema) (Schema_DatabaseName schema);
        match err with
        | Some err =>
            let schema := setStatus schema "error" in
            _ ← call (RepoUpdate schema);
            mret (None, Some ("failed to regenerate database: " +:+ err))
        | None =>
        let schema := setStatus schema "updated" in
        '(schema, err) ← call (RepoUpdate schema);
        _ ← match err with
            | Some err =>
                call (LogPrintf ("Warning: failed to update schema status: "
                                   +:+ err))
            | None => mret ()
            end;
        mret (Some schema, None)
        end end)) →
  let out := run env (now ← call TimeNowRFC3339; rest now) history in
  ∃ now saved,
    let record := updatedRecord stored request now in
    (∃ err,
       out = ((None, Some ("failed to update schema: " +:+ err)),
              history ++ [ev TimeNowRFC3339 now;
                          ev (RepoUpdate record) (saved, Some err)]))
    ∨ (∃ regen err reply,
         RegenerationRun FormatFloat cfg (Schema_SchemaDefinition saved)
           (Schema_DatabaseName saved) regen (Some err)
         ∧ out = ((None, Some ("failed to regenerate database: " +:+ err)),
                  history ++ [ev TimeNowRFC3339 now;
                              ev (RepoUpdate record) (saved, None)]
                    ++ regen
                    ++ [ev (RepoUpdate (setStatus saved "error")) reply]))
    ∨ (∃ regen final err,
         RegenerationRun FormatFloat cfg (Schema_SchemaDefinition saved)
           (Schema_DatabaseName saved) regen None
         ∧ out = ((Some final, None),
                  history ++ [ev TimeNowRFC3339 now;
                              ev (RepoUpdate record) (saved, None)]
                    ++ regen
                    ++ statusEvents (setStatus saved "updated") final err)).
Proof.
  intros cfg Hrest out. subst cfg out.
  run_call_step.
  match goal with |- context [ev TimeNowRFC3339 ?r] => set (now := r) end.
  clearbody now. rewrite Hrest. clear Hrest.
  set (record := updatedRecord stored request now).
  run_call_step.
  match goal with
  | |- context [env ?h (RepoUpdate record)] =>
      destruct (env h (RepoUpdate record)) as [saved [err|]]
  end.
  { exists now, saved. left. exists err.
    rewrite run_ret. by rewrite <- !app_assoc. }
  exists now, saved. right.
  rewrite run_bind.
  match goal with
  | |- context [run env (RegenerateDatabase FormatFloat ?d ?sd ?n) ?h] =>
      destruct (RegenerateDatabase_run FormatFloat env d sd n h)
        as (regen & Hevents & Hrun);
      destruct (run env (RegenerateDatabase FormatFloat d sd n) h)
        as [result after]
  end.
  cbn [fst snd] in *. subst after.
  destruct result as [err|].
  - left. run_call_step. rewrite run_ret.
    eexists regen, err, _. split; [exact Hrun |].
    by rewrite <- !app_assoc.
  - right. run_call_step.
    match goal with
    | |- context [env ?h (RepoUpdate ?r)] =>
        destruct (env h (RepoUpdate r)) as [final err]
    end.
    exists regen, final, err. split; [exact Hrun |].
    unfold statusEvents. rewrite run_bind.
    destruct err as [err|].
    + rewrite (run_call env (LogPrintf _)), run_ret. cbn [fst snd].
      match goal with
      | |- context [env ?h (LogPrintf ?m)] => destruct (env h (LogPrintf m))
      end.
      by rewrite <- !app_assoc.
    + rewrite !run_ret. cbn [fst snd]. by rewrite <- !app_assoc.
Qed.


(** Every run of [UpdateSchema]: the lookup by id failed, or the new name
    is taken, or the run goes on to save the new record. *)
Lemma UpdateSchema_run s (id userID : string)
    (request : UpdateSchemaRequest float64) history :
  let name := UpdateSchemaRequest_Name request in
  let cfg := databaseManagerService_config (schemaService_databaseManager s) in
  let out := run env (UpdateSchema FormatFloat s id userID request) history in
  (∃ err,
     env history (RepoGetByIDAndUserID id userID) = inr err
     ∧ out = ((None, Some err),
              history ++ [ev (RepoGetByIDAndUserID id userID) (inr err)]))
  ∨ ∃ stored reply,
      let found := ev (RepoGetByIDAndUserID id userID) (inl stored) in
      let checked := found :: nameCheckEvents stored request userID reply in
      env history (RepoGetByIDAndUserID id userID) = inl stored
      ∧ reply = env (history ++ [found]) (RepoGetByNameAndUserID name userID)
      ∧ ((nameTaken stored request id reply
          ∧ out = ((None, Some ("schema with name '" +:+ name
                                  +:+ "' already exists")),
                   history ++ checked))
         ∨ (¬ nameTaken stored request id reply
            ∧ ∃ now saved,
                let record := updatedRecord stored request now in
                (∃ err,
                   out = ((None, Some ("failed to update schema: " +:+ err)),
                          history ++ checked
                            ++ [ev TimeNowRFC3339 now;
                                ev (RepoUpdate record) (saved, Some err)]))
                ∨ (∃ regen err reply',
                     RegenerationRun FormatFloat cfg
                       (Schema_SchemaDefinition saved)
                       (Schema_DatabaseName saved) regen (Some err)
                     ∧ out = ((None, Some ("failed to regenerate database: "
                                             +:+ err)),
                              history ++ checked
                                ++ [ev TimeNowRFC3339 now;
                                    ev (RepoUpdate record) (saved, None)]
                                ++ regen
                                ++ [ev (RepoUpdate (setStatus saved "error"))
                                       reply']))
                ∨ (∃ regen final err,
                     RegenerationRun FormatFloat cfg
                       (Schema_SchemaDefinition saved)
                       (Schema_DatabaseName saved) regen None
                     ∧ out = ((Some final, None),
                              history ++ checked
                                ++ [ev TimeNowRFC3339 now;
                                    ev (RepoUpdate record) (saved, None)]
                                ++ regen
                                ++ statusEvents (setStatus saved "updated")
                                     final err)))).
Proof.
  intros name cfg out. subst name cfg out. unfold UpdateSchema.
  run_call_step.
  destruct (env history (RepoGetByIDAndUserID id userID))
    as [stored|err] eqn:Hfound.
  2: { left. exists err. split; [done |]. by rewrite run_ret. }
  right. exists stored. eexists. split; [done |]. split; [reflexivity |].
  set (h := history ++ [ev (RepoGetByIDAndUserID id userID) (inl stored)]).
  set (reply := env h (RepoGetByNameAndUserID
                         (UpdateSchemaRequest_Name request) userID)).
  rewrite run_bind. unfold nameCheckEvents, nameTaken.
  case_bool_decide as Hname; cbn [negb].
  - rewrite run_ret. cbn [fst snd]. right.
    split; [intros [Hne _]; done |].
    destruct (UpdateSchema_run_saved s stored request h _ (λ now, eq_refl))
      as (now & saved & Hcases).
    exists now, saved. subst h. cbv zeta beta in Hcases.
    destruct Hcases
      as [(err & Hout) | [(regen & err & reply' & Hrun & Hout)
                         | (regen & final & err & Hrun & Hout)]];
      [ left; exists err
      | right; left; exists regen, err, reply'; split; [done |]
      | right; right; exists regen, final, err; split; [done |] ];
      (etrans; [exact Hout |]); f_equal; by rewrite <- ?app_assoc.
  - rewrite run_bind,
      (run_call env (RepoGetByNameAndUserID
                       (UpdateSchemaRequest_Name request) userID)).
    cbn [fst snd]. fold reply.
    destruct reply as [existing|missing] eqn:Hreply.
    + rewrite run_ret. cbn [fst snd].
      case_bool_decide as Hid; cbn [negb].
      * right. split; [intros (_ & existing' & ? & ?); by simplify_eq |].
        destruct (UpdateSchema_run_saved s stored request
                    (h ++ [ev (RepoGetByNameAndUserID
                                 (UpdateSchemaRequest_Name request)
                                 userID) (inl existing)])
                    _ (λ now, eq_refl))
          as (now & saved & Hcases).
        exists now, saved. subst h. cbv zeta beta in Hcases.
        destruct Hcases
          as [(err & Hout) | [(regen & err & reply' & Hrun & Hout)
                             | (regen & final & err & Hrun & Hout)]];
          [ left; exists err
          | right; left; exists regen, err, reply'; split; [done |]
          | right; right; exists regen, final, err; split; [done |] ];
          (etrans; [exact Hout |]); f_equal; by rewrite <- ?app_assoc.
      * left. split; [split; [done | by exists existing] |].
        rewrite run_ret. subst h. by rewrite <- !app_assoc.
    + rewrite run_ret. cbn [fst snd]. right.
      split; [intros (_ & existing' & ? & ?); by simplify_eq |].
      destruct (UpdateSchema_run_saved s stored request
                  (h ++ [ev (RepoGetByNameAndUserID
                               (UpdateSchemaRequest_Name request)
                               userID) (inr missing)])
                  _ (λ now, eq_refl))
        as (now & saved & Hcases).
      exists now, saved. subst h. cbv zeta beta in Hcases.
      destruct Hcases
        as [(err & Hout) | [(regen & err & reply' & Hrun & Hout)
                           | (regen & final & err & Hrun & Hout)]];
        [ left; exists err
        | right; left; exists regen, err, reply'; split; [done |]
        | right; right; exists regen, final, err; split; [done |] ];
        (etrans; [exact Hout |]); f_equal; by rewrite <- ?app_assoc.
Qed.


Lemma nameCheckEvents_quiet (stored : Schema float64)
    (request : UpdateSchemaRequest float64) (userID : string) reply :
  Forall (λ e, isStep e = false ∧ isWrite e = false)
         (nameCheckEvents stored request userID reply).
Proof. unfold nameCheckEvents. case_bool_decide; by repeat constructor. Qed.

(** X11: the name check of [UpdateSchema].  When the lookup by id fails,
    its error is returned as it is and nothing else happens.  Otherwise
    the call fails with already exists exactly when the request changes
    the name and the lookup by the new name finds a schema with another
    id; then nothing has been written.  A request that keeps the name
    makes no lookup by name at all, and a lookup that finds the schema
    itself is no conflict: in both cases the run goes on to write the
    new record. *)
Theorem UpdateSchema_name_check s (id userID : string)
    (request : UpdateSchemaRequest float64) history :
  let name := UpdateSchemaRequest_Name request in
  let taken :=
    Some ("schema with name '" +:+ name +:+ "' already exists") in
  let out := run env (UpdateSchema FormatFloat s id userID request) history in
  ∃ events,
    out.2 = history ++ events
    ∧ (∀ err,
         env history (RepoGetByIDAndUserID id userID) = inr err →
         out.1 = (None, Some err)
         ∧ events = [ev (RepoGetByIDAndUserID id userID) (inr err)])
    ∧ (∀ stored,
         env history (RepoGetByIDAndUserID id userID) = inl stored →
         let found := ev (RepoGetByIDAndUserID id userID) (inl stored) in
         let reply :=
           env (history ++ [found]) (RepoGetByNameAndUserID name userID) in
         (out.1.2 = taken ↔ nameTaken stored request id reply)
         ∧ (nameTaken stored request id reply →
            out.1.1 = None
            ∧ events = [found; ev (RepoGetByNameAndUserID name userID) reply])
         ∧ (Schema_Name stored = name →
            Forall (λ e, isNameLookup e = false) events)
         ∧ (¬ nameTaken stored request id reply →
            ∃ now saved err,
              ev (RepoUpdate (updatedRecord stored request now)) (saved, err)
                ∈ events)).
Proof.
  intros name taken out.
  destruct (UpdateSchema_run s id userID request history)
    as [(err & Hfound & Hout)
       | (stored & reply & Hfound & Hreply
          & [(Htaken & Hout)
            | (Hfree & now & saved
               & [(err & Hout) | [(regen & err & reply' & Hrun & Hout)
                                 | (regen & final & err & Hrun & Hout)]])])];
    fold name in Hout; fold out in Hout; rewrite Hout; clear Hout;
    cbn [fst snd]; (eexists; split; [done |]); fold name in Hreply || idtac.
  - split.
    + intros err' Hfound'. rewrite Hfound' in Hfound. by simplify_eq.
    + intros stored Hfound'. rewrite Hfound' in Hfound. done.
  - split; [intros err Hfound'; rewrite Hfound' in Hfound; done |].
    intros stored' Hfound'. rewrite Hfound' in Hfound. simplify_eq.
    cbv zeta. split; [done |]. split; [| split].
    + intros _. split; [done |].
      unfold nameCheckEvents. destruct Htaken as [Hne _].
      by rewrite bool_decide_eq_false_2.
    + intros Heq. by destruct Htaken as [Hne _].
    + done.
  - split; [intros err' Hfound'; rewrite Hfound' in Hfound; done |].
    intros stored' Hfound'. rewrite Hfound' in Hfound. simplify_eq.
    cbv zeta. split; [| split; [done |]; split].
    + split; [discriminate | done].
    + intros Heq. unfold nameCheckEvents.
      rewrite bool_decide_eq_true_2 by done. by repeat constructor.
    + intros _. exists now, saved, (Some err).
      rewrite !elem_of_app, !elem_of_cons. auto.
  - pose proof (RegenerationRun_no_write _ _ _ _ _ Hrun) as Hregen.
    split; [intros err' Hfound'; rewrite Hfound' in Hfound; done |].
    intros stored' Hfound'. rewrite Hfound' in Hfound. simplify_eq.
    cbv zeta. split; [| split; [done |]; split].
    + split; [discriminate | done].
    + intros Heq. unfold nameCheckEvents.
      rewrite bool_decide_eq_true_2 by done. cbn [app].
      repeat (apply Forall_cons; split; [done |]).
      rewrite Forall_app. split; [| by repeat constructor].
      eapply Forall_impl; [exact Hregen |].
      by intros e (_ & _ & ?).
    + intros _. exists now, saved, None.
      rewrite !elem_of_app, !elem_of_cons. auto.
  - pose proof (RegenerationRun_no_write _ _ _ _ _ Hrun) as Hregen.
    split; [intros err' Hfound'; rewrite Hfound' in Hfound; done |].
    intros stored' Hfound'. rewrite Hfound' in Hfound. simplify_eq.
    cbv zeta. split; [| split; [done |]; split].
    + split; [discriminate | done].
    + intros Heq. unfold nameCheckEvents.
      rewrite bool_decide_eq_true_2 by done. cbn [app].
      repeat (apply Forall_cons; split; [done |]).
      rewrite Forall_app. split.
      * eapply Forall_impl; [exact Hregen |].
        by intros e (_ & _ & ?).
      * unfold statusEvents. destruct err; by repeat constructor.
    + intros _. exists now, saved, None.
      rewrite !elem_of_app, !elem_of_cons. auto.
Qed.

(** X12: what [UpdateSchema] does, run by run.  Every run is one of
    four.  The lookup by id failed: it is the only call and its error is
    returned.  The new name is taken: the two lookups are the only calls
    and the call fails with already exists.  Otherwise the calls are the
    lookup by id, the lookup by name when the name changes, and the
    time, and then the new record, which is the stored one with the
    name, the description and the definition of the request and status
    updating, is handed to [Update].  It could not be saved: nothing
    follows the failed [Update] and the call fails with
    failed to update schema and the cause.  It was saved: the events
    that follow are a run of [RegenerateDatabase] on the record as the
    repository returned it, and then one write of that record with only
    its status changed, to error when the regeneration failed (the call
    returning failed to regenerate database and the cause) and to
    updated when it succeeded (the call returning the schema also when
    this last write fails).  So the old definition is never written
    back. *)
Theorem UpdateSchema_saves_then_regenerates s (id userID : string)
    (request : UpdateSchemaRequest float64) history :
  let name := UpdateSchemaRequest_Name request in
  let cfg := databaseManagerService_config (schemaService_databaseManager s) in
  let out := run env (UpdateSchema FormatFloat s id userID request) history in
  ∃ events,
    out.2 = history ++ events
    ∧ ((∃ err,
          events = [ev (RepoGetByIDAndUserID id userID) (inr err)]
          ∧ out.1 = (None, Some err))
       ∨ ∃ stored reply,
           let found := ev (RepoGetByIDAndUserID id userID) (inl stored) in
           let lookup := ev (RepoGetByNameAndUserID name userID) reply in
           let taken :=
             ∃ existing, reply = inl existing ∧ Schema_ID existing ≠ id in
           (Schema_Name stored ≠ name
            ∧ taken
            ∧ events = [found; lookup]
            ∧ out.1 = (None, Some ("schema with name '" +:+ name
                                     +:+ "' already exists")))
           ∨ ∃ before now saved,
               let record := updatedRecord stored request now in
               ((Schema_Name stored = name
                 ∧ before = [found; ev TimeNowRFC3339 now])
                ∨ (Schema_Name stored ≠ name
                   ∧ ¬ taken
                   ∧ before = [found; lookup; ev TimeNowRFC3339 now]))
               ∧ ((∃ err,
                     events
                       = before ++ [ev (RepoUpdate record) (saved, Some err)]
                     ∧ out.1 = (None, Some ("failed to update schema: "
                                              +:+ err)))
                  ∨ ∃ regen result written final failure rest,
                      events
                        = before ++ ev (RepoUpdate record) (saved, None)
                            :: regen
                            ++ ev (RepoUpdate written) (final, failure)
                            :: rest
                      ∧ RegenerationRun FormatFloat cfg
                          (Schema_SchemaDefinition saved)
                          (Schema_DatabaseName saved) regen result
                      ∧ match result with
                        | Some err =>
                            statusWritten saved "error" written
                            ∧ rest = []
                            ∧ out.1
                              = (None,
                                 Some ("failed to regenerate database: "
                                         +:+ err))
                        | None =>
                            statusWritten saved "updated" written
                            ∧ rest = statusWarning failure
                            ∧ out.1 = (Some final, None)
                        end)).
Proof.
  intros name cfg out.
  assert (∀ stored reply now,
            ¬ nameTaken stored request id reply →
            let found := ev (RepoGetByIDAndUserID id userID) (inl stored) in
            let lookup := ev (RepoGetByNameAndUserID name userID) reply in
            let before :=
              found :: nameCheckEvents stored request userID reply
                ++ [ev TimeNowRFC3339 now] in
            (Schema_Name stored = name
             ∧ before = [found; ev TimeNowRFC3339 now])
            ∨ (Schema_Name stored ≠ name
               ∧ ¬ (∃ existing, reply = inl existing
                                ∧ Schema_ID existing ≠ id)
               ∧ before = [found; lookup; ev TimeNowRFC3339 now]))
    as Hbefore.
  { intros stored reply now Hfree found lookup before. subst before.
    unfold nameCheckEvents, nameTaken in *. fold name in Hfree |- *.
    case_bool_decide as Hname; [by left | right].
    split; [done |]. split; [| done].
    intros Htaken. by apply Hfree. }
  destruct (UpdateSchema_run s id userID request history)
    as [(err & Hfound & Hout)
       | (stored & reply & Hfound & Hreply
          & [(Htaken & Hout)
            | (Hfree & now & saved
               & [(err & Hout) | [(regen & err & reply' & Hrun & Hout)
                                 | (regen & final & err & Hrun & Hout)]])])];
    fold name out in Hout; fold cfg in Hrun || idtac;
    rewrite Hout; clear Hout; cbn [fst snd];
    (eexists; split; [done |]).
  - left. by exists err.
  - right. exists stored, reply. left.
    destruct Htaken as [Hne Htaken]. fold name in Hne.
    split; [done |]. split; [done |]. split; [| done].
    unfold nameCheckEvents. fold name. by rewrite bool_decide_eq_false_2.
  - right. exists stored, reply. right.
    exists (ev (RepoGetByIDAndUserID id userID) (inl stored)
              :: nameCheckEvents stored request userID reply
              ++ [ev TimeNowRFC3339 now]), now, saved.
    split; [by apply Hbefore |].
    left. exists err. split; [| done].
    cbn [app]. by rewrite <- app_assoc.
  - right. exists stored, reply. right.
    exists (ev (RepoGetByIDAndUserID id userID) (inl stored)
              :: nameCheckEvents stored request userID reply
              ++ [ev TimeNowRFC3339 now]), now, saved.
    split; [by apply Hbefore |].
    right. destruct reply' as [final failure].
    exists regen, (Some err), (setStatus saved "error"), final, failure, [].
    split; [cbn [app]; by rewrite <- app_assoc |].
    split; [done |]. by repeat split.
  - right. exists stored, reply. right.
    exists (ev (RepoGetByIDAndUserID id userID) (inl stored)
              :: nameCheckEvents stored request userID reply
              ++ [ev TimeNowRFC3339 now]), now, saved.
    split; [by apply Hbefore |].
    right.
    exists regen, None, (setStatus saved "updated"), final, err,
      (statusWarning err).
    split; [cbn [app]; by rewrite <- app_assoc |].
    split; [done |]. by repeat split.
Qed.

End ServiceRunFacts.

(** ** The calls of a regeneration *)

Section RegenerationScope.

Context {float64 : Type}.
Variable FormatFloat : float64 → string.
Variable env : Env float64.
Implicit Types (history events : list (Event float64)).

Lemma okEvents_scope cfg (databaseName : string) (db : DB)
    (statements done : list string) events :
  ev (GormOpen (targetDSN cfg databaseName)) (inl db) ∈ events →
  done ⊆ statements →
  Forall (regenerationEvent cfg databaseName statements events)
         (okEvents db done).
Proof.
  intros Hopen Hdone. apply Forall_fmap, Forall_forall.
  intros statement Hin. split; [done | by apply Hdone].
Qed.

(** X13: the calls of a regeneration.  Whatever the environment
    replies, every call of a run of [RegenerateDatabase] is a call of the
    drop helper or of the create helper with the manager's configuration
    and the database name it was given, a connection opened with the
    connection string host, port, user and password of the configuration
    and dbname the given name, a statement of the two generated lists
    executed on a handle that such a connection returned, or a log line.
    The repository, the uuid source and the clock are never called. *)
Theorem RegenerateDatabase_scope (d : databaseManagerService)
    (sd : SchemaData float64) (databaseName : string) history :
  let cfg := databaseManagerService_config d in
  let statements :=
    (GenerateCreateTables FormatFloat sd).1 ++ (GenerateForeignKeys sd).1 in
  ∃ events,
    (run env (RegenerateDatabase FormatFloat d sd databaseName) history).2
      = history ++ events
    ∧ Forall (regenerationEvent cfg databaseName statements events) events.
Proof.
  intros cfg statements.
  destruct (RegenerateDatabase_run FormatFloat env d sd databaseName history)
    as (events & Htrace & Hrun).
  fold cfg in Hrun. exists events. split; [done |].
  assert (Hdrop : ∀ rd events',
            Forall (regenerationEvent cfg databaseName statements events')
                   (dropEvents cfg databaseName rd)).
  { intros [err|] events'; by repeat constructor. }
  destruct Hrun as [rd err | rd err | rd db done statement rest err Hsplit
                   | rd db done statement rest err Hsplit | rd db].
  - rewrite Forall_app. split; [apply Hdrop | by repeat constructor].
  - rewrite !Forall_app. split; [split |];
      [apply Hdrop | by repeat constructor | by repeat constructor].
  - match goal with |- Forall _ ?l => set (events := l) end.
    assert (ev (GormOpen (targetDSN cfg databaseName)) (inl db) ∈ events)
      as Hopen.
    { subst events. rewrite !elem_of_app, !elem_of_cons. auto 10. }
    subst events. rewrite !Forall_app. repeat split.
    + apply Hdrop.
    + by repeat constructor.
    + apply okEvents_scope; [done |]. subst statements. rewrite Hsplit.
      intros x Hx. rewrite !elem_of_app. auto.
    + apply Forall_singleton. split; [done |]. subst statements.
      rewrite Hsplit, !elem_of_app, elem_of_cons. auto.
  - match goal with |- Forall _ ?l => set (events := l) end.
    assert (ev (GormOpen (targetDSN cfg databaseName)) (inl db) ∈ events)
      as Hopen.
    { subst events. rewrite !elem_of_app, !elem_of_cons. auto 10. }
    subst events. rewrite !Forall_app. repeat split.
    + apply Hdrop.
    + by repeat constructor.
    + apply okEvents_scope; [done |]. subst statements.
      intros x Hx. rewrite !elem_of_app. auto.
    + apply okEvents_scope; [done |]. subst statements. rewrite Hsplit.
      intros x Hx. rewrite !elem_of_app. auto.
    + apply Forall_singleton. split; [done |]. subst statements.
      rewrite Hsplit, !elem_of_app, elem_of_cons. auto.
  - match goal with |- Forall _ ?l => set (events := l) end.
    assert (ev (GormOpen (targetDSN cfg databaseName)) (inl db) ∈ events)
      as Hopen.
    { subst events. rewrite !elem_of_app, !elem_of_cons. auto 10. }
    subst events. rewrite !Forall_app. repeat split.
    + apply Hdrop.
    + by repeat constructor.
    + apply okEvents_scope; [done |]. subst statements.
      intros x Hx. rewrite !elem_of_app. auto.
    + apply okEvents_scope; [done |]. subst statements.
      intros x Hx. rewrite !elem_of_app. auto.
    + by repeat constructor.
Qed.

End RegenerationScope.

(** ** package config *)

Section ConfigFacts.

Context {float64 : Type}.
Variable env : Env float64.
Implicit Types (history events : list (Event float64)).

(** The run of a helper that connects to the maintenance database and
    executes [statement] there, reply by reply. *)
Lemma adminStatement_run (dsn statement : string) (failed : error → error)
    (done : string) history :
  let program : Prog float64 (option error) :=
    opened ← call (GormOpen dsn);
    match opened with
    | inr err =>
        mret (Some ("failed to connect to postgres database: " +:+ err))
    | inl db =>
        err ← call (DbExec db statement);
        match err with
        | Some err => mret (Some (failed err))
        | None => _ ← call (LogPrintf done); mret None
        end
    end in
  match env history (GormOpen dsn) with
  | inr err =>
      run env program history
      = (Some ("failed to connect to postgres database: " +:+ err),
         history ++ [ev (GormOpen dsn) (inr err)])
  | inl db =>
      match env (history ++ [ev (GormOpen dsn) (inl db)])
                (DbExec db statement) with
      | Some err =>
          run env program history
          = (Some (failed err),
             history ++ [ev (GormOpen dsn) (inl db);
                         ev (DbExec db statement) (Some err)])
      | None =>
          run env program history
          = (None,
             history ++ [ev (GormOpen dsn) (inl db);
                         ev (DbExec db statement) None;
                         ev (LogPrintf done) ()])
      end
  end.
Proof.
  intros program. subst program.
  rewrite run_bind, (run_call env (GormOpen dsn)). cbn [fst snd].
  destruct (env history (GormOpen dsn)) as [db|erro]; [| by rewrite run_ret].
  rewrite run_bind, (run_call env (DbExec db statement)). cbn [fst snd].
  destruct (env _ (DbExec db statement)) as [erre|].
  - rewrite run_ret. by rewrite <- app_assoc.
  - rewrite run_bind, (run_call env (LogPrintf done)), run_ret.
    cbn [fst snd].
    match goal with
    | |- context [env ?h (LogPrintf done)] => destruct (env h (LogPrintf done))
    end.
    by rewrite <- !app_assoc.
Qed.

(** X14: [config.CreateDynamicDatabase] and [config.DropDynamicDatabase],
    reply by reply.  Each opens one connection, with the connection
    string host, port, user, password and dbname postgres when
    [DATABASE_URL] is unset and with the URL followed by _postgres when
    it is set.  When the connection fails, nothing is executed and the
    error is failed to connect to postgres database with the cause.
    When it opens, exactly one statement is executed on it, CREATE
    DATABASE with the name or DROP DATABASE IF EXISTS with the name, the
    name spliced in as it is: when the statement fails the error is
    failed to create database (or failed to drop database), the name and
    the cause, and when it succeeds a line is logged and no error is
    returned. *)
Theorem DynamicDatabase_runs (databaseURL : string) (cfg : Config)
    (databaseName : string) history :
  let dsn :=
    if decide (databaseURL = EmptyString) then
      "host=" +:+ Config_DatabaseHost cfg +:+ " port="
        +:+ Config_DatabasePort cfg +:+ " user=" +:+ Config_DatabaseUser cfg
        +:+ " password=" +:+ Config_DatabasePass cfg
        +:+ " dbname=postgres sslmode=disable"
    else databaseURL +:+ "_postgres" in
  let create := "CREATE DATABASE " +:+ databaseName in
  let drop := "DROP DATABASE IF EXISTS " +:+ databaseName in
  let created :=
    run env (config.CreateDynamicDatabase databaseURL cfg databaseName)
        history in
  let dropped :=
    run env (config.DropDynamicDatabase databaseURL cfg databaseName)
        history in
  match env history (GormOpen dsn) with
  | inr err =>
      created
      = (Some ("failed to connect to postgres database: " +:+ err),
         history ++ [ev (GormOpen dsn) (inr err)])
      ∧ dropped
        = (Some ("failed to connect to postgres database: " +:+ err),
           history ++ [ev (GormOpen dsn) (inr err)])
  | inl db =>
      let opened := history ++ [ev (GormOpen dsn) (inl db)] in
      match env opened (DbExec db create) with
      | Some err =>
          created
          = (Some ("failed to create database " +:+ databaseName +:+ ": "
                     +:+ err),
             opened ++ [ev (DbExec db create) (Some err)])
      | None =>
          created
          = (None,
             opened ++ [ev (DbExec db create) None;
                        ev (LogPrintf ("Database " +:+ databaseName
                                         +:+ " created successfully")) ()])
      end
      ∧ match env opened (DbExec db drop) with
        | Some err =>
            dropped
            = (Some ("failed to drop database " +:+ databaseName +:+ ": "
                       +:+ err),
               opened ++ [ev (DbExec db drop) (Some err)])
        | None =>
            dropped
            = (None,
               opened ++ [ev (DbExec db drop) None;
                          ev (LogPrintf ("Database " +:+ databaseName
                                           +:+ " dropped successfully")) ()])
        end
  end.
Proof.
  intros dsn create drop created dropped.
  assert (Hdsn : (if negb (bool_decide (databaseURL = EmptyString))
                  then databaseURL +:+ "_postgres"
                  else "host=" +:+ Config_DatabaseHost cfg +:+ " port="
                         +:+ Config_DatabasePort cfg +:+ " user="
                         +:+ Config_DatabaseUser cfg +:+ " password="
                         +:+ Config_DatabasePass cfg
                         +:+ " dbname=postgres sslmode=disable") = dsn).
  { subst dsn. case_decide as Hurl.
    - by rewrite bool_decide_eq_true_2.
    - by rewrite bool_decide_eq_false_2. }
  pose proof (adminStatement_run dsn create
                (λ err, "failed to create database " +:+ databaseName
                          +:+ ": " +:+ err)
                ("Database " +:+ databaseName +:+ " created successfully")
                history) as Hcreate.
  pose proof (adminStatement_run dsn drop
                (λ err, "failed to drop database " +:+ databaseName
                          +:+ ": " +:+ err)
                ("Database " +:+ databaseName +:+ " dropped successfully")
                history) as Hdrop.
  cbv zeta in Hcreate, Hdrop.
  subst created dropped.
  unfold config.CreateDynamicDatabase, config.DropDynamicDatabase.
  cbv zeta. rewrite Hdsn. fold create drop.
  destruct (env history (GormOpen dsn)) as [db|err]; [| done].
  cbv zeta.
  set (opened := history ++ [ev (GormOpen dsn) (inl db)]) in *.
  split.
  - revert Hcreate.
    destruct (env opened (DbExec db create)); intros ->;
      subst opened; by rewrite <- app_assoc.
  - revert Hdrop.
    destruct (env opened (DbExec db drop)); intros ->;
      subst opened; by rewrite <- app_assoc.
Qed.

End ConfigFacts.

(** ** The handlers *)

Section HandlerFacts.

Context {float64 : Type}.
Variable FormatFloat : float64 → string.
Variable ErrUnauthorized : string.
Variable env : Env float64.
Implicit Types (history events : list (Event float64)).
Implicit Types (s : schemaService) (d : databaseManagerService).

Lemma ValidateSchema_ok (request : SchemaValidationRequest float64) :
  ValidateSchema request = ((ValidateSchema request).1, None).
Proof. unfold ValidateSchema. by destruct (tablesLoop _ _ _ _). Qed.

(** X15: the answer of the validation endpoint.  The status is 200 when
    the body was bound and the schema is valid, and 400 otherwise; it is
    never 500.  For a body that was bound the envelope always says
    success, without error object, also when the schema is invalid: the
    verdict is only in the data.  The SQL preview is the list of CREATE
    TABLE statements when the schema is valid and empty otherwise; it
    never holds a foreign key statement. *)
Theorem ValidatorHandler_ValidateSchema_response
    (bound : SchemaValidationRequest float64 + error) :
  let response := ValidatorHandler.ValidateSchema FormatFloat bound in
  (response.1 = StatusOK ∨ response.1 = StatusBadRequest)
  ∧ (response.1 = StatusOK
     ↔ ∃ request,
         bound = inl request
         ∧ ValidationResult_Valid (ValidateSchema request).1 = true)
  ∧ (∀ err, bound = inr err →
       response
       = (StatusBadRequest,
          ErrorResponse "Invalid request data" "VALIDATION_ERROR" err))
  ∧ (∀ request, bound = inl request →
       let result := (ValidateSchema request).1 in
       let preview :=
         if ValidationResult_Valid result then
           (GenerateCreateTables FormatFloat
              (mkSchemaData (SchemaValidationRequest_Tables request)
                 (SchemaValidationRequest_ForeignKeys request)
                 EmptyString EmptyString)).1
         else [] in
       response.2
       = {| APIResponse_Success := true;
            APIResponse_Message :=
              if ValidationResult_Valid result then "Schema is valid"
              else "Schema validation failed";
            APIResponse_Data := Some (result, preview);
            APIResponse_Error := None |}
       ∧ Forall (startsWith "CREATE TABLE ") preview).
Proof.
  intros response. subst response.
  destruct bound as [request|err]; unfold ValidatorHandler.ValidateSchema.
  2: { split; [by right |]. split; [| split]; [| by intros ? [= <-] | done].
       split; [done |]. by intros (request & ? & _). }
  rewrite ValidateSchema_ok.
  set (result := (ValidateSchema request).1).
  rewrite (GenerateCreateTables_ok FormatFloat).
  destruct (ValidationResult_Valid result) eqn:Hvalid; cbn [negb fst snd].
  - split; [by left |]. split; [| split]; [| done |].
    + split; [| done]. intros _. by exists request.
    + intros request' [= <-]. fold result. rewrite Hvalid.
      split; [done |].
      rewrite GenerateCreateTables_fmap. cbn [fst].
      apply Forall_fmap, Forall_true. intros t. unfold compose.
      rewrite statementOf_closed. by eexists.
  - split; [by right |]. split; [| split]; [| done |].
    + split; [done |]. intros (request' & [= <-] & Hvalid').
      fold result in Hvalid'. congruence.
    + intros request' [= <-]. fold result. rewrite Hvalid.
      split; [done | constructor].
Qed.

(** X16: the answer of the create endpoint.  Without a user in the
    context the answer is 401, and with a body that was not bound 400; in
    both cases nothing is called.  Otherwise the handler runs
    [CreateSchema] and answers 201 with the schema when it returned no
    error, and 500 with code INTERNAL_ERROR and the text of the error for
    every error.  In particular a name that is taken is answered 500, not
    409, after the one lookup. *)
Theorem SchemaHandler_CreateSchema_response s (userID : option string)
    (bound : CreateSchemaRequest float64 + error) history :
  let out :=
    run env (SchemaHandler.CreateSchema FormatFloat ErrUnauthorized s
               userID bound) history in
  (userID = None →
   out = ((StatusUnauthorized,
           ErrorResponse "User not authenticated" ErrUnauthorized
             "Missing user context"), history))
  ∧ (∀ uid err, userID = Some uid → bound = inr err →
       out = ((StatusBadRequest,
               ErrorResponse "Invalid request data" "VALIDATION_ERROR" err),
              history))
  ∧ (∀ uid request, userID = Some uid → bound = inl request →
       let service :=
         run env (CreateSchema FormatFloat s request uid) history in
       let name := CreateSchemaRequest_Name request in
       out.2 = service.2
       ∧ out.1
         = match service.1.2 with
           | Some err =>
               (StatusInternalServerError,
                ErrorResponse "Failed to create schema" "INTERNAL_ERROR" err)
           | None =>
               (StatusCreated,
                SuccessResponse "Schema created successfully" service.1.1)
           end
       ∧ ∀ existing,
           env history (RepoGetByNameAndUserID name uid) = inl existing →
           out = ((StatusInternalServerError,
                   ErrorResponse "Failed to create schema" "INTERNAL_ERROR"
                     ("schema with name '" +:+ name
                        +:+ "' already exists")),
                  history
                    ++ [ev (RepoGetByNameAndUserID name uid)
                           (inl existing)])).
Proof.
  intros out. subst out. split; [| split].
  - intros ->. done.
  - intros uid err -> ->. done.
  - intros uid request -> -> service name.
    unfold SchemaHandler.CreateSchema. rewrite run_bind. fold service.
    assert (Hout : run env
              (let '(schema, err) := service.1 in
               match err with
               | Some err =>
                   mret (StatusInternalServerError,
                         ErrorResponse (D:=option (Schema float64))
                           "Failed to create schema" ErrInternalError err)
               | None =>
                   mret (StatusCreated,
                         SuccessResponse "Schema created successfully" schema)
               end) service.2
            = (match service.1.2 with
               | Some err =>
                   (StatusInternalServerError,
                    ErrorResponse "Failed to create schema" "INTERNAL_ERROR"
                      err)
               | None =>
                   (StatusCreated,
                    SuccessResponse "Schema created successfully" service.1.1)
               end, service.2)).
    { destruct service as [[schema [err|]] trace]; done. }
    rewrite Hout. cbn [fst snd]. split; [done |]. split; [done |].
    intros existing Hfound.
    destruct (CreateSchema_run FormatFloat env s request uid history)
      as [(existing' & Hfound' & Hrun)
         | (missing & ? & ? & ? & ? & Hmissing & _)];
      subst name; cbv zeta in *; [| congruence].
    fold service in Hrun. rewrite Hrun. cbn [fst snd].
    rewrite Hfound in Hfound'. by simplify_eq.
Qed.


(** X17: the answer of the update endpoint.  The user is checked first,
    then the id of the path, then the body; a failure of any of the three
    is answered 401 or 400 without any call.  Otherwise the handler runs
    [UpdateSchema] and answers 200 with the schema when it returned no
    error and 500 with code INTERNAL_ERROR for every error.  In
    particular a schema that does not exist for the user is answered 500
    with the error of the lookup, not 404. *)
Theorem SchemaHandler_UpdateSchema_response s (userID : option string)
    (id : string + error) (bound : UpdateSchemaRequest float64 + error)
    history :
  let out :=
    run env (SchemaHandler.UpdateSchema FormatFloat ErrUnauthorized s
               userID id bound) history in
  (userID = None →
   out = ((StatusUnauthorized,
           ErrorResponse "User not authenticated" ErrUnauthorized
             "Missing user context"), history))
  ∧ (∀ uid err, userID = Some uid → id = inr err →
       out = ((StatusBadRequest,
               ErrorResponse "Invalid schema ID" "VALIDATION_ERROR"
                 "ID must be a valid UUID"), history))
  ∧ (∀ uid sid err, userID = Some uid → id = inl sid → bound = inr err →
       out = ((StatusBadRequest,
               ErrorResponse "Invalid request data" "VALIDATION_ERROR" err),
              history))
  ∧ (∀ uid sid request,
       userID = Some uid → id = inl sid → bound = inl request →
       let service :=
         run env (UpdateSchema FormatFloat s sid uid request) history in
       out.2 = service.2
       ∧ out.1
         = match service.1.2 with
           | Some err =>
               (StatusInternalServerError,
                ErrorResponse "Failed to update schema" "INTERNAL_ERROR" err)
           | None =>
               (StatusOK,
                SuccessResponse "Schema updated successfully" service.1.1)
           end
       ∧ ∀ err,
           env history (RepoGetByIDAndUserID sid uid) = inr err →
           out = ((StatusInternalServerError,
                   ErrorResponse "Failed to update schema" "INTERNAL_ERROR"
                     err),
                  history ++ [ev (RepoGetByIDAndUserID sid uid) (inr err)])).
Proof.
  intros out. subst out. split; [| split; [| split]].
  - intros ->. done.
  - intros uid err -> ->. done.
  - intros uid sid err -> -> ->. done.
  - intros uid sid request -> -> -> service.
    unfold SchemaHandler.UpdateSchema. rewrite run_bind. fold service.
    assert (Hout : run env
              (let '(schema, err) := service.1 in
               match err with
               | Some err =>
                   mret (StatusInternalServerError,
                         ErrorResponse (D:=option (Schema float64))
                           "Failed to update schema" ErrInternalError err)
               | None =>
                   mret (StatusOK,
                         SuccessResponse "Schema updated successfully" schema)
               end) service.2
            = (match service.1.2 with
               | Some err =>
                   (StatusInternalServerError,
                    ErrorResponse "Failed to update schema" "INTERNAL_ERROR"
                      err)
               | None =>
                   (StatusOK,
                    SuccessResponse "Schema updated successfully" service.1.1)
               end, service.2)).
    { destruct service as [[schema [err|]] trace]; done. }
    rewrite Hout. cbn [fst snd]. split; [done |]. split; [done |].
    intros err Hfound.
    destruct (UpdateSchema_run FormatFloat env s sid uid request history)
      as [(err' & Hfound' & Hrun) | (stored & ? & Hstored & _)];
      cbv zeta in *; [| congruence].
    fold service in Hrun. rewrite Hrun. cbn [fst snd].
    rewrite Hfound in Hfound'. by simplify_eq.
Qed.

(** X18: the answer of the regenerate endpoint.  The id of the path is
    checked before the user: a malformed id is answered 400 also without
    a user, a missing user 401, both without any call.  A schema that the
    lookup does not find is answered 404.  Otherwise the handler runs
    [RegenerateDatabase] on the stored definition and database name and
    answers 500 with code DATABASE_ERROR when it failed and 200 when it
    succeeded, with a time stamp that is a constant of the code.  On no
    path is the repository written to: the status of the stored schema
    stays what it was, also after a regeneration that failed. *)
Theorem DatabaseHandler_RegenerateDatabase_response d s
    (id : string + error) (userID : option string) history :
  let cfg := databaseManagerService_config d in
  let out :=
    run env (DatabaseHandler.RegenerateDatabase FormatFloat ErrUnauthorized
               d s id userID) history in
  (∃ events, out.2 = history ++ events
             ∧ Forall (λ e, isWrite e = false) events)
  ∧ match id, userID with
    | inr _, _ =>
        out = ((StatusBadRequest,
                ErrorResponse "Invalid schema ID" "VALIDATION_ERROR"
                  "ID must be a valid UUID"), history)
    | inl _, None =>
        out = ((StatusUnauthorized,
                ErrorResponse "User not authenticated" ErrUnauthorized
                  "Missing user context"), history)
    | inl sid, Some uid =>
        let lookup := RepoGetByIDAndUserID sid uid in
        match env history lookup with
        | inr err =>
            out = ((StatusNotFound,
                    ErrorResponse "Schema not found" "SCHEMA_NOT_FOUND" err),
                   history ++ [ev lookup (inr err)])
        | inl stored =>
            ∃ regen result,
              RegenerationRun FormatFloat cfg
                (Schema_SchemaDefinition stored)
                (Schema_DatabaseName stored) regen result
              ∧ out.2 = history ++ ev lookup (inl stored) :: regen
              ∧ out.1
                = match result with
                  | Some err =>
                      (StatusInternalServerError,
                       ErrorResponse "Failed to regenerate database"
                         "DATABASE_ERROR" err)
                  | None =>
                      (StatusOK,
                       SuccessResponse "Database regenerated successfully"
                         {| RegenerateData_schemaId := Schema_ID stored;
                            RegenerateData_databaseName :=
                              Schema_DatabaseName stored;
                            RegenerateData_status := "regenerated";
                            RegenerateData_regeneratedAt :=
                              "2024-01-01T12:30:00Z" |})
                  end
        end
    end.
Proof.
  intros cfg out. subst out.
  destruct id as [sid|erri].
  2: { split; [| done]. exists []. by rewrite app_nil_r. }
  destruct userID as [uid|].
  2: { split; [| done]. exists []. by rewrite app_nil_r. }
  unfold DatabaseHandler.RegenerateDatabase, GetSchema.
  rewrite run_bind, (run_call env (RepoGetByIDAndUserID sid uid)).
  cbn [fst snd].
  destruct (env history (RepoGetByIDAndUserID sid uid)) as [stored|err].
  2: { rewrite run_ret. split; [| done]. eexists. split; [done |].
       by repeat constructor. }
  rewrite run_bind.
  match goal with
  | |- context [run env (RegenerateDatabase FormatFloat d ?sd ?n) ?h] =>
      destruct (RegenerateDatabase_run FormatFloat env d sd n h)
        as (regen & Hevents & Hrun);
      destruct (run env (RegenerateDatabase FormatFloat d sd n) h)
        as [result after]
  end.
  cbn [fst snd] in *. subst after. fold cfg in Hrun.
  pose proof (RegenerationRun_no_write _ _ _ _ _ _ Hrun) as Hregen.
  assert (Hquiet : Forall (λ e : Event float64, isWrite e = false) regen).
  { eapply Forall_impl; [exact Hregen |]. by intros e [? _]. }
  split.
  - exists (ev (RepoGetByIDAndUserID sid uid) (inl stored) :: regen).
    split; [| by apply Forall_cons].
    destruct result; rewrite run_ret; cbn [snd]; by rewrite <- app_assoc.
  - exists regen, result. split; [done |].
    destruct result; rewrite run_ret; cbn [fst snd];
      by rewrite <- app_assoc.
Qed.


(** X24: the answer of the status endpoint, as a function of the
    replies it gets.  It is 400 for a malformed id, then 401 without a
    user, 404 with code SCHEMA_NOT_FOUND and the text of the error when
    the lookup does not find the schema, and 200 in every other case: it
    is never 500, because [GetDatabaseStatus] never fails.  A database
    that cannot be reached is answered 200, with status error in the
    data; a database that can, with status healthy.  The data name the id
    and the database of the stored schema. *)
Theorem DatabaseHandler_GetDatabaseStatus_response d
    (getSchema : string → string → Schema float64 + error)
    (gormOpen : string → DB + error) (countTables : DB → Z + error)
    (now : string) (id : string + error) (userID : option string) :
  let response :=
    DatabaseHandler.GetDatabaseStatus ErrUnauthorized d getSchema gormOpen
      countTables now id userID in
  let failure (message code details : string) : APIResponse DatabaseStatus :=
    {| APIResponse_Success := false;
       APIResponse_Message := message;
       APIResponse_Data := None;
       APIResponse_Error :=
         Some {| APIError_Code := code; APIError_Details := details |} |} in
  response.1 ≠ 500%Z
  ∧ match id, userID with
    | inr _, _ =>
        response
        = (400%Z, failure "Invalid schema ID" "VALIDATION_ERROR"
                  "ID must be a valid UUID")
    | inl _, None =>
        response
        = (401%Z, failure "User not authenticated" ErrUnauthorized
                  "Missing user context")
    | inl sid, Some uid =>
        match getSchema sid uid with
        | inr err =>
            response
            = (404%Z, failure "Schema not found" "SCHEMA_NOT_FOUND" err)
        | inl stored =>
            let config := databaseManagerService_config d in
            let opened :=
              gormOpen
                ("host=" +:+ Config_DatabaseHost config
                   +:+ " port=" +:+ Config_DatabasePort config
                   +:+ " user=" +:+ Config_DatabaseUser config
                   +:+ " password=" +:+ Config_DatabasePass config
                   +:+ " dbname=" +:+ Schema_DatabaseName stored
                   +:+ " sslmode=disable") in
            ∃ status,
              response
              = (200%Z,
                 {| APIResponse_Success := true;
                    APIResponse_Message := "Database status retrieved";
                    APIResponse_Data := Some status;
                    APIResponse_Error := None |})
              ∧ DatabaseStatus_SchemaID status = Schema_ID stored
              ∧ DatabaseStatus_DatabaseName status
                = Schema_DatabaseName stored
              ∧ DatabaseStatus_LastChecked status = now
              ∧ DatabaseStatus_Status status
                = match opened with
                  | inl _ => "healthy"
                  | inr _ => "error"
                  end
        end
    end.
Proof.
  intros response failure. subst response failure.
  destruct id as [sid|erri]; [| done].
  destruct userID as [uid|]; [| done].
  unfold DatabaseHandler.GetDatabaseStatus.
  destruct (getSchema sid uid) as [stored|err]; [| done].
  unfold GetDatabaseStatus. cbv zeta.
  destruct (gormOpen _) as [db|err]; cbn [fst snd];
    (split; [done |]); by eexists.
Qed.

End HandlerFacts.

(** ** Pages, status and stored definitions *)

Lemma wrapInt_small (z : Z) :
  (- 2 ^ 63 ≤ z < 2 ^ 63)%Z → wrapInt z = z.
Proof.
  intros Hz. unfold wrapInt. rewrite Z.mod_small by lia. lia.
Qed.

(** X19: the page count of [ListSchemas].  An error of the repository is
    passed on as it is, before any arithmetic.  Without error, a limit
    of zero makes the division panic.  For a limit of at least one and a
    total that is not negative (and no overflow of the sum), the response
    repeats page, limit and total and its page count is the total
    divided by the limit, rounded up: it is the least number of pages
    that hold all records, zero exactly when there are none; and the
    offset that the repository computes for a page from one on lies
    below the total exactly when the page is at most the page count. *)
Theorem ListSchemas_pages {SchemaListResponse : Type}
    (schemas : list SchemaListResponse) (total : Z)
    (pagination : PaginationRequest) :
  let limit := PaginationRequest_Limit pagination in
  (∀ err, ListSchemas (schemas, total, Some err) pagination
          = Some ([], None, Some err))
  ∧ (limit = 0%Z → ListSchemas (schemas, total, None) pagination = None)
  ∧ ((1 ≤ limit)%Z → (0 ≤ total)%Z → (total + limit < 2 ^ 63)%Z →
     ∃ pages,
       ListSchemas (schemas, total, None) pagination
       = Some (schemas,
               Some {| PaginationResponse_Page :=
                         PaginationRequest_Page pagination;
                       PaginationResponse_Limit := limit;
                       PaginationResponse_Total := total;
                       PaginationResponse_TotalPages := pages |},
               None)
       ∧ (total ≤ pages * limit < total + limit)%Z
       ∧ (pages = 0%Z ↔ total = 0%Z)
       ∧ ∀ page search,
           (1 ≤ page)%Z → (page * limit < 2 ^ 63)%Z →
           (offset (mkPaginationRequest page limit search) < total
            ↔ page ≤ pages)%Z).
Proof.
  intros limit. split; [done |]. split.
  - intros Hzero. unfold ListSchemas, divInt. fold limit.
    by rewrite decide_True.
  - intros Hlimit Htotal Hsum.
    exists ((total + limit - 1) / limit)%Z.
    assert (Hdiv : divInt (subInt (addInt total limit) 1) limit
                   = Some ((total + limit - 1) / limit)%Z).
    { unfold divInt, subInt, addInt.
      rewrite decide_False by lia.
      rewrite (wrapInt_small (total + limit)) by lia.
      rewrite (wrapInt_small (total + limit - 1)) by lia.
      rewrite Z.quot_div_nonneg by lia.
      rewrite wrapInt_small; [done |].
      split.
      - transitivity 0%Z; [lia |]. apply Z.div_pos; lia.
      - eapply Z.le_lt_trans; [| exact Hsum].
        transitivity (total + limit - 1)%Z; [| lia].
        apply Z.div_le_upper_bound; nia. }
    pose proof (Z.div_mod (total + limit - 1) limit ltac:(lia)) as Hdm.
    pose proof (Z.mod_pos_bound (total + limit - 1) limit ltac:(lia)) as Hmod.
    set (pages := ((total + limit - 1) / limit)%Z) in *.
    split; [| split; [| split]].
    + unfold ListSchemas. fold limit. by rewrite Hdiv.
    + nia.
    + nia.
    + intros page search Hpage Hbound.
      unfold offset, mulInt, subInt.
      cbn [PaginationRequest_Page PaginationRequest_Limit].
      rewrite (wrapInt_small (page - 1)) by lia.
      rewrite wrapInt_small by nia.
      nia.
Qed.

(** X20: [GetDatabaseStatus] never returns an error.  It connects with
    the connection string that [RegenerateDatabase] uses for the same
    database; the status is healthy exactly when that connection opened
    and error otherwise.  When the count of tables fails, the status is
    still healthy, with a table count of zero.  The connection string
    reported shows three stars in place of the password, and is empty
    when the connection failed. *)
Theorem GetDatabaseStatus_report (d : databaseManagerService)
    (gormOpen : string → DB + error) (countTables : DB → Z + error)
    (now databaseName : string) :
  let cfg := databaseManagerService_config d in
  let opened := gormOpen (targetDSN cfg databaseName) in
  let out := GetDatabaseStatus d gormOpen countTables now databaseName in
  out.2 = None
  ∧ DatabaseStatus_DatabaseName out.1 = databaseName
  ∧ DatabaseStatus_LastChecked out.1 = now
  ∧ (DatabaseStatus_Status out.1 = "healthy" ↔ ∃ db, opened = inl db)
  ∧ (DatabaseStatus_Status out.1 = "error" ↔ ∃ err, opened = inr err)
  ∧ (∀ db count, opened = inl db → countTables db = inl count →
       DatabaseStatus_TableCount out.1 = count)
  ∧ (∀ db err, opened = inl db → countTables db = inr err →
       DatabaseStatus_Status out.1 = "healthy"
       ∧ DatabaseStatus_TableCount out.1 = 0%Z)
  ∧ (∀ db, opened = inl db →
       DatabaseStatus_ConnectionString out.1
       = "postgres://" +:+ Config_DatabaseUser cfg +:+ ":***@"
           +:+ Config_DatabaseHost cfg +:+ ":" +:+ Config_DatabasePort cfg
           +:+ "/" +:+ databaseName)
  ∧ (∀ err, opened = inr err →
       DatabaseStatus_ConnectionString out.1 = EmptyString
       ∧ DatabaseStatus_TableCount out.1 = 0%Z).
Proof.
  intros cfg opened out. subst out opened.
  unfold GetDatabaseStatus. fold cfg.
  change ("host=" +:+ Config_DatabaseHost cfg +:+ " port="
            +:+ Config_DatabasePort cfg +:+ " user="
            +:+ Config_DatabaseUser cfg +:+ " password="
            +:+ Config_DatabasePass cfg +:+ " dbname=" +:+ databaseName
            +:+ " sslmode=disable")
    with (targetDSN cfg databaseName).
  destruct (gormOpen (targetDSN cfg databaseName)) as [db|err];
    cbn [fst snd DatabaseStatus_DatabaseName DatabaseStatus_LastChecked
         DatabaseStatus_Status DatabaseStatus_TableCount
         DatabaseStatus_ConnectionString].
  - do 3 (split; [done |]).
    split; [split; [by eexists | done] |].
    split; [split; [done | by intros [? ?]] |].
    split; [by intros ? count [= <-] -> |].
    split; [by intros ? err [= <-] -> |].
    split; [| done]. intros _ _. done.
  - do 3 (split; [done |]).
    split; [split; [done | by intros [? ?]] |].
    split; [split; [by eexists | done] |].
    done.
Qed.

Section ScanFacts.

Context {float64 : Type}.
Variable Unmarshal :
  string → SchemaData float64 → SchemaData float64 * option error.

(** X21: [SchemaData.Scan] fails only for a value that is neither nil,
    bytes nor a string, and then leaves the receiver as it was.  A nil
    value, empty bytes and an empty string give the empty definition; so
    does a text that [json.Unmarshal] rejects, without any error: a
    stored definition that cannot be decoded reads as a schema without
    tables.  A text that decodes gives what the decoder left. *)
Theorem Scan_outcomes (s : SchemaData float64) (value : ScanValue) :
  let out := Scan Unmarshal s value in
  (is_Some out.2 ↔ value = ScanOther)
  ∧ (value = ScanOther → out.1 = s)
  ∧ (value = ScanNil ∨ value = ScanBytes EmptyString
     ∨ value = ScanString EmptyString →
     out = (emptySchemaData, None))
  ∧ (∀ text left err,
       value = ScanBytes text ∨ value = ScanString text →
       Unmarshal text s = (left, Some err) →
       out = (emptySchemaData, None))
  ∧ (∀ text decoded,
       value = ScanBytes text ∨ value = ScanString text →
       text ≠ EmptyString →
       Unmarshal text s = (decoded, None) →
       out = (decoded, None)).
Proof.
  intros out. subst out.
  assert (Hdecode : ∀ text,
    (if decide (String.length text = 0) then (emptySchemaData, None)
     else let '(s', err) := Unmarshal text s in
          match err with
          | Some _ => (emptySchemaData, None)
          | None => (s', None)
          end).2 = (None : option error)).
  { intros text. case_decide; [done |].
    by destruct (Unmarshal text s) as [? [?|]]. }
  split; [| split; [| split; [| split]]].
  - destruct value; cbn [Scan]; rewrite ?Hdecode; split;
      try done; try (by intros [? ?]); by eexists.
  - by intros ->.
  - by intros [-> | [-> | ->]].
  - intros text left err Hvalue Hfail.
    assert (Scan Unmarshal s (ScanBytes text) = (emptySchemaData, None))
      as Hbytes.
    { cbn [Scan]. case_decide; [done |]. by rewrite Hfail. }
    by destruct Hvalue as [-> | ->].
  - intros text decoded Hvalue Htext Hok.
    assert (Scan Unmarshal s (ScanBytes text) = (decoded, None)) as Hbytes.
    { cbn [Scan]. rewrite decide_False; [by rewrite Hok |].
      by destruct text. }
    by destruct Hvalue as [-> | ->].
Qed.

End ScanFacts.

(** ** The validator and the generator agree *)

Section Agreement.

Context {float64 : Type}.
Variable FormatFloat : float64 → string.
Implicit Types (t : Table float64) (c : Column float64).

Lemma supportedTypes_mapped (dataType : string) :
  dataType ∈ supportedTypes
  ↔ is_Some (assoc dataType (typeMapping (float64:=float64))).
Proof.
  unfold supportedTypes, typeMapping. cbn [assoc].
  rewrite !elem_of_cons, elem_of_nil.
  repeat case_decide; split; intros Hyp; try (by eexists); try tauto;
    by destruct Hyp.
Qed.

Lemma primaryKeyClause_empty t :
  primaryKeyClause (Table_Columns t) = EmptyString ↔ noPrimaryKey t.
Proof.
  unfold primaryKeyClause, noPrimaryKey.
  destruct (filter (λ c, Column_PrimaryKey c = true) (Table_Columns t))
    as [|key keys] eqn:Hkeys.
  - split; [intros _ | done].
    apply Forall_forall. intros c Hc.
    destruct (Column_PrimaryKey c) eqn:Hpk; [| done].
    assert (c ∈ filter (λ c, Column_PrimaryKey c = true) (Table_Columns t))
      as Hin by (by apply list_elem_of_filter).
    rewrite Hkeys in Hin. by apply elem_of_nil in Hin.
  - split; [discriminate |]. intros Hnone. exfalso.
    assert (key ∈ filter (λ c, Column_PrimaryKey c = true) (Table_Columns t))
      as Hin by (rewrite Hkeys; constructor).
    apply list_elem_of_filter in Hin as [Hpk Hin].
    rewrite Forall_forall in Hnone. specialize (Hnone key Hin). congruence.
Qed.

(** X22: the validator and the generator know the same data types.  A
    data type is supported by [ValidateSchema] exactly when the type
    switch of [generateColumnDefinition] has a case for it; so in a
    schema that [ValidateSchema] finds valid every column gets the SQL
    type of its own case, and none falls to the TEXT of the default
    branch. *)
Theorem valid_schema_avoids_fallback
    (request : SchemaValidationRequest float64) :
  ValidationResult_Valid (ValidateSchema request).1 = true →
  ∀ t c,
    t ∈ SchemaValidationRequest_Tables request → c ∈ Table_Columns t →
    index_bool SupportedDataTypes (Column_DataType c) = true
    ∧ ∃ row,
        assoc (Column_DataType c) typeMapping = Some row
        ∧ writeDataType c EmptyString = row c.
Proof.
  intros Hvalid t c Ht Hc.
  assert (Column_DataType c ∈ supportedTypes) as Hsupported.
  { destruct (decide (Column_DataType c ∈ supportedTypes)) as [|Hno];
      [done | exfalso].
    apply list_elem_of_lookup in Ht as [i Hi].
    apply list_elem_of_lookup in Hc as [j Hj].
    revert Hvalid. unfold ValidateSchema.
    pose proof (tablesLoop_errors 0 (SchemaValidationRequest_Tables request)
                  (if decide (length (SchemaValidationRequest_Tables request)
                              = 0)
                   then [missingTablesError] else [])
                  [] (unsupportedError i j c)) as Herrors.
    destruct (tablesLoop _ _ _ _) as [errors warnings].
    cbn [fst snd ValidationResult_Valid] in *.
    rewrite bool_decide_eq_true. intros Hnil.
    apply length_zero_iff_nil in Hnil. subst errors.
    apply (not_elem_of_nil (unsupportedError i j c)).
    apply Herrors. right. by exists i, j, t, c. }
  split; [by apply SupportedDataTypes_stated |].
  apply supportedTypes_mapped in Hsupported as [row Hrow].
  exists row. split; [done |].
  rewrite writeDataType_mapped. unfold mappedType. by rewrite Hrow.
Qed.

(** X23: the validator warns about exactly the tables that get no
    PRIMARY KEY clause.  The warnings of [ValidateSchema] are, in table
    order, those of the tables whose CREATE TABLE statement, as
    [GenerateCreateTables] emits it for the same tables, carries no
    PRIMARY KEY clause; a table whose statement has the clause is never
    warned about. *)
Theorem warnings_match_primary_key_clause
    (request : SchemaValidationRequest float64) :
  let tables := SchemaValidationRequest_Tables request in
  let sd :=
    mkSchemaData tables (SchemaValidationRequest_ForeignKeys request)
      EmptyString EmptyString in
  ValidationResult_Warnings (ValidateSchema request).1
  = primaryKeyWarning
      <$> filter (λ t, primaryKeyClause (Table_Columns t) = EmptyString)
                 tables
  ∧ (GenerateCreateTables FormatFloat sd).1
    = (λ t, "CREATE TABLE " +:+ Table_Name t +:+ " (" +:+ LF +:+ "    "
              +:+ Join (generateColumnDefinition FormatFloat
                          <$> Table_Columns t) ("," +:+ LF +:+ "    ")
              +:+ primaryKeyClause (Table_Columns t)
              +:+ uniqueClauses (Table_Columns t) +:+ LF +:+ ");")
        <$> tables
  ∧ ∀ t, primaryKeyClause (Table_Columns t) = EmptyString
         ∨ startsWith ("," +:+ LF +:+ "    PRIMARY KEY (")
                      (primaryKeyClause (Table_Columns t)).
Proof.
  intros tables sd. split; [| split].
  - unfold ValidateSchema.
    pose proof (tablesLoop_warnings 0 tables
                  (if decide (length tables = 0)
                   then [missingTablesError] else []) []) as Hwarnings.
    fold tables. unfold missingTablesError in Hwarnings.
    destruct (tablesLoop _ _ _ _) as [errors warnings].
    cbn [fst snd ValidationResult_Warnings] in *. rewrite Hwarnings.
    cbn [app]. f_equal. apply list_filter_iff. intros t.
    symmetry. apply primaryKeyClause_empty.
  - rewrite GenerateCreateTables_fmap. cbn [fst sd SchemaData_Tables].
    apply list_fmap_ext. intros _ t _.
    by rewrite statementOf_closed.
  - intros t. unfold primaryKeyClause.
    destruct (filter _ (Table_Columns t)); [by left | right].
    by eexists.
Qed.

End Agreement.

(** ** The further properties on the sample inputs *)

(** On a TEXT column the id, the length and the three flags change
    nothing. *)
Lemma generateColumnDefinition_reads_witness :
  generateColumnDefinition Sample.FormatFloat Cases.flagged
  = generateColumnDefinition Sample.FormatFloat Cases.plain.
Proof.
  apply generateColumnDefinition_reads; try reflexivity.
  - intros Hint. exfalso.
    apply elem_of_cons in Hint as [Hint | Hint]; [discriminate Hint |].
    apply elem_of_cons in Hint as [Hint | Hint]; [discriminate Hint |].
    by apply elem_of_nil in Hint.
  - intros Hvarchar. discriminate Hvarchar.
  - intros Hdecimal. discriminate Hdecimal.
Defined.

(** With distinct ids, users before posts or posts before users gives
    the same foreign key statement. *)
Lemma GenerateForeignKeys_table_order_witness :
  GenerateForeignKeys
    (mkSchemaData [Sample.users; Sample.posts] [Sample.postsToUsers]
       "1.0" EmptyString)
  = GenerateForeignKeys
      (mkSchemaData [Sample.posts; Sample.users] [Sample.postsToUsers]
         "1.0" EmptyString).
Proof.
  apply GenerateForeignKeys_table_order.
  - apply perm_swap.
  - reflexivity.
  - by apply (bool_decide_unpack _).
  - by apply (bool_decide_unpack _).
Defined.

(** With the archive table after users under the same id, the foreign
    key from posts to users references the archive. *)
Lemma GenerateForeignKeys_table_lookup_last_witness :
  GenerateForeignKeys
    (mkSchemaData [Sample.users; Sample.posts; Cases.archive]
       [Sample.postsToUsers] "1.0" EmptyString)
  = ([ "ALTER TABLE posts ADD CONSTRAINT fk_posts_user_id"
         +:+ " FOREIGN KEY (user_id) REFERENCES users_archive (id)"
         +:+ " ON DELETE CASCADE ON UPDATE RESTRICT;" ], None).
Proof.
  destruct (GenerateForeignKeys_table_lookup_last
              [Sample.users; Sample.posts; Cases.archive]
              Sample.postsToUsers "1.0" EmptyString)
    as (ts & tt & before_s & after_s & before_t & after_t
        & _ & _ & _ & _ & _ & _ & Hts & Htt & Hgen).
  - by apply (bool_decide_unpack _).
  - by apply (bool_decide_unpack _).
  - rewrite (Hgen (Sample.column "c-posts-user" "user_id" "INT" None
                     false false false false NilValue)
                  (Sample.column "c-users-id" "id" "INT" None
                     false true true false NilValue)
                  eq_refl eq_refl).
    clear Hgen.
    assert (Hs : Table_Name ts = "posts")
      by (apply (inj Some); rewrite <- Hts; vm_compute; reflexivity).
    assert (Ht : Table_Name tt = "users_archive")
      by (apply (inj Some); rewrite <- Htt; vm_compute; reflexivity).
    unfold statedForeignKey, statedConstraintName. rewrite Hs, Ht.
    reflexivity.
Defined.

(** Twenty-five records in pages of ten make three pages. *)
Lemma ListSchemas_pages_witness :
  ListSchemas (["blog"; "shop"], 25%Z, None) Cases.thirdPage
  = Some (["blog"; "shop"],
          Some (mkPaginationResponse 3 10 25 3), None).
Proof.
  destruct (ListSchemas_pages ["blog"; "shop"] 25%Z Cases.thirdPage)
    as (_ & _ & Hpages).
  destruct Hpages as (pages & Hlisted & Hbounds & _); [done | done | done |].
  rewrite Hlisted. clear Hlisted.
  assert (pages = 3%Z) as -> by (simpl in Hbounds; lia).
  reflexivity.
Defined.

(** The blog schema is valid, and its VARCHAR column gets the type of
    the VARCHAR case. *)
Lemma valid_schema_avoids_fallback_witness :
  index_bool SupportedDataTypes "VARCHAR" = true
  ∧ ∃ row : Column Z → string,
      assoc "VARCHAR" typeMapping = Some row
      ∧ writeDataType
          (Sample.column "c-users-email" "email" "VARCHAR" (Some 255%Z)
             false false false true NilValue) EmptyString
        = row (Sample.column "c-users-email" "email" "VARCHAR" (Some 255%Z)
                 false false false true NilValue).
Proof.
  apply (valid_schema_avoids_fallback Cases.validateBlog eq_refl
           Sample.users
           (Sample.column "c-users-email" "email" "VARCHAR" (Some 255%Z)
              false false false true NilValue)).
  - by apply (list_elem_of_lookup_2 _ 0).
  - by apply (list_elem_of_lookup_2 _ 1).
Defined.
